(** * Formula evaluation service: a shallow embedding of [apps/main.py]

    The development follows the Python sources:
    - [Schemas] mirrors [apps/schemas.py] (the pydantic request models);
    - [PyStr], [PyFloat], [Re] give the parts of the Python run time that the
      service calls ([str] methods, [float()], [bool()], [re.match]);
    - [NumExpr] is the interface of the expression evaluator, together with
      [Arith], one concrete evaluator for an arithmetic fragment;
    - [Main] holds [parse_currency], [convert_variable], [validate_formulas]
      and [evaluate_formulas], statement by statement.

    Python floats are IEEE binary64 numbers and are represented by
    [spec_float] at precision 53; Python strings are represented by [string],
    one character per code point below 256. *)

From Stdlib Require Import ZArith String Ascii List SpecFloat Lia.
From stdpp Require Import gmap strings list.

Set Warnings "-register-all".

Open Scope string_scope.
Open Scope list_scope.
Open Scope Z_scope.

(** ** Values, exceptions and the error monad *)

(** A parsed timestamp, the result of [dateutil.parser.parse]. *)
Record DateTime := mkDateTime {
  dt_year : Z; dt_month : Z; dt_day : Z;
  dt_hour : Z; dt_minute : Z; dt_second : Z
}.

(** The values a record field can hold once the JSON body is decoded
    ([Dict[str, Any]]), plus the timestamps produced by coercion. *)
Inductive Value : Type :=
  | VNone
  | VBool (b : bool)
  | VInt (z : Z)
  | VFloat (f : spec_float)
  | VStr (s : string)
  | VList (l : list Value)
  | VDict (d : list (string * Value))
  | VDateTime (d : DateTime).

(** The text carried by a [ValueError], kept structured: the constructor is
    the message template and the argument is the interpolated part. *)
Inductive Message : Type :=
  | could_not_convert_string_to_float (s : string)
  | Invalid_currency_format (value : string)
  | Unsupported_variable_type (var_type : string)
  | parser_error (text : string)
  | can_only_convert_an_array_of_size_1
  | unknown_type_object (name : string)
  | other_message (text : string).

(** The payload of an [HTTPException]: one constructor per [detail=] template
    of [apps/main.py]. *)
Inductive Exception : Type :=
  | ValueError (msg : Message)
  | TypeError (text : string)
  | OverflowError (text : string)
  | KeyError (key : string)
  | IndexError
  | SyntaxError (text : string)
  | NotImplementedError (text : string)
  | HTTPException (status_code : Z) (detail : Detail)
with Detail : Type :=
  | Empty_data
  | Empty_formulas
  | Variable_not_available (varName outputVar : string)
  | Formula_cannot_reference_itself (outputVar : string)
  | Syntax_error_in_formula (outputVar expression : string) (e : Exception)
  | Error_while_converting_variable (e : Exception)
  | Variable_not_found_in_data_item (var_name : string) (id : Value)
  | Error_evaluating_expression (expression : string) (e : Exception)
  | Internal_server_error (e : Exception).

Definition HTTP_400_BAD_REQUEST : Z := 400.
Definition HTTP_500_INTERNAL_SERVER_ERROR : Z := 500.

(** A computation either raises or returns. *)
Definition M (A : Type) : Type := Exception + A.

Definition ret {A} (a : A) : M A := inr a.
Definition raise {A} (e : Exception) : M A := inl e.
Definition bind {A B} (c : M A) (k : A -> M B) : M B :=
  match c with
  | inl e => inl e
  | inr a => k a
  end.

(** [try: c  except Exception as e: h e] *)
Definition try_except {A} (c : M A) (h : Exception -> M A) : M A :=
  match c with
  | inl e => h e
  | inr a => inr a
  end.

Declare Scope py_scope.
Delimit Scope py_scope with py.
Notation "'let*' x ':=' c 'in' k" := (bind c (fun x => k))
  (at level 10, x name, c at level 100, k at level 200) : py_scope.
Notation "'do' c 'in' k" := (bind c (fun _ => k))
  (at level 10, c at level 100, k at level 200) : py_scope.
Open Scope py_scope.

(** ** Strings *)

Module PyStr.

Definition chars (s : string) : list ascii := list_ascii_of_string s.
Definition of_chars (cs : list ascii) : string := string_of_list_ascii cs.

Definition code (c : ascii) : N := N_of_ascii c.

Definition is_digit (c : ascii) : bool := ((48 <=? code c) && (code c <=? 57))%N.
Definition is_alpha (c : ascii) : bool :=
  (((65 <=? code c) && (code c <=? 90)) || ((97 <=? code c) && (code c <=? 122)))%N.

(** [str.isspace] on code points below 256. *)
Definition is_space (c : ascii) : bool :=
  (((9 <=? code c) && (code c <=? 13)) || ((28 <=? code c) && (code c <=? 32))
   || (code c =? 133) || (code c =? 160))%N.

Definition lower (c : ascii) : ascii :=
  if ((65 <=? code c) && (code c <=? 90))%N then ascii_of_N (code c + 32) else c.

Definition ascii_eqb (a b : ascii) : bool := Ascii.eqb a b.

Definition mem (c : ascii) (set : list ascii) : bool := existsb (ascii_eqb c) set.

(** Longest prefix whose characters satisfy [p], and the rest. *)
Fixpoint span (p : ascii -> bool) (cs : list ascii) : list ascii * list ascii :=
  match cs with
  | c :: t => if p c then let '(a, b) := span p t in (c :: a, b) else ([], cs)
  | [] => ([], [])
  end.

Fixpoint lstrip_chars (p : ascii -> bool) (cs : list ascii) : list ascii :=
  match cs with
  | c :: t => if p c then lstrip_chars p t else cs
  | [] => []
  end.

Definition rstrip_chars (p : ascii -> bool) (cs : list ascii) : list ascii :=
  rev (lstrip_chars p (rev cs)).

(** [s.strip(chars)]: drops every leading and every trailing character
    that occurs in [chars]. *)
Definition strip (s chars_ : string) : string :=
  let p c := mem c (chars chars_) in
  of_chars (rstrip_chars p (lstrip_chars p (chars s))).

(** [s.endswith(c)] for a one-character suffix. *)
Definition endswith (s : string) (c : ascii) : bool :=
  match rev (chars s) with
  | l :: _ => ascii_eqb l c
  | [] => false
  end.

(** [s.replace(c, '')] for a one-character pattern. *)
Definition remove (s : string) (c : ascii) : string :=
  of_chars (List.filter (fun x => negb (ascii_eqb x c)) (chars s)).

End PyStr.

(** ** [float()] and [bool()] *)

Module PyFloat.
Import PyStr.

Definition prec : Z := 53.
Definition emax : Z := 1024.

(** The binary64 number nearest to [m * 2^e] (ties to even). *)
Definition of_scaled (m e : Z) : spec_float := binary_normalize prec emax m e false.

Definition of_Z (z : Z) : spec_float := of_scaled z 0.

Definition add : spec_float -> spec_float -> spec_float := SFadd prec emax.
Definition sub : spec_float -> spec_float -> spec_float := SFsub prec emax.
Definition mul : spec_float -> spec_float -> spec_float := SFmul prec emax.

Definition digit_value (c : ascii) : Z := Z.of_N (code c) - 48.

Definition digits_value (ds : list ascii) : Z :=
  fold_left (fun acc d => 10 * acc + digit_value d) ds 0.

(** The binary64 number nearest to [m * 10^e10], for [m >= 0], with the sign
    [neg]. [lo] and [hi] bracket the decimal logarithm of the value: at or
    above [10^310] the result is an infinity, below [10^-330] a zero. A
    quotient carries guard bits and a sticky bit, so that the final rounding
    sees on which side of a tie the exact value lies. *)
Definition of_decimal (neg : bool) (m e10 : Z) : spec_float :=
  if m =? 0 then S754_zero neg
  else
    let lo := (3 * Z.log2 m) / 10 + e10 in
    let hi := (31 * (Z.log2 m + 1)) / 100 + 1 + e10 in
    if 310 <=? lo then S754_infinity neg
    else if hi <=? -330 then S754_zero neg
    else
      let sgn x := if neg then - x else x in
      if 0 <=? e10 then binary_normalize prec emax (sgn (m * 10 ^ e10)) 0 neg
      else
        let d := 10 ^ (- e10) in
        let s := Z.max 0 (58 + Z.log2 d - Z.log2 m) in
        let q := (m * 2 ^ s) / d in
        let sticky := if (m * 2 ^ s) mod d =? 0 then 0 else 1 in
        binary_normalize prec emax (sgn (2 * q + sticky)) (- s - 1) neg.

Definition take_sign (cs : list ascii) : bool * list ascii :=
  match cs with
  | "-"%char :: t => (true, t)
  | "+"%char :: t => (false, t)
  | _ => (false, cs)
  end.

(** [nan], [inf] and [infinity], in any letter case. *)
Definition parse_special (neg : bool) (cs : list ascii) : option spec_float :=
  let w := of_chars (map lower cs) in
  if String.eqb w "inf" || String.eqb w "infinity" then Some (S754_infinity neg)
  else if String.eqb w "nan" then Some S754_nan
  else None.

Definition parse_exponent (cs : list ascii) : option Z :=
  match cs with
  | [] => Some 0
  | c :: t =>
      if ascii_eqb (lower c) "e"%char then
        let '(eneg, t') := take_sign t in
        let '(ed, rest) := span is_digit t' in
        match ed, rest with
        | _ :: _, [] => Some (if eneg then - digits_value ed else digits_value ed)
        | _, _ => None
        end
      else None
  end.

Definition parse_decimal (neg : bool) (cs : list ascii) : option spec_float :=
  let '(ip, r1) := span is_digit cs in
  let '(fp, r2) := match r1 with
                   | "."%char :: t => span is_digit t
                   | _ => ([], r1)
                   end in
  match ip ++ fp with
  | [] => None
  | ds =>
      match parse_exponent r2 with
      | Some e => Some (of_decimal neg (digits_value ds) (e - Z.of_nat (List.length fp)))
      | None => None
      end
  end.

(** Digit grouping: an underscore must stand between two digits. Returns
    the text without underscores, or [None] when one is misplaced. *)
Fixpoint ungroup (prev : ascii) (cs : list ascii) : option (list ascii) :=
  match cs with
  | [] => if ascii_eqb prev "_"%char then None else Some []
  | c :: t =>
      if ascii_eqb c "_"%char then
        if is_digit prev then ungroup c t else None
      else if ascii_eqb prev "_"%char && negb (is_digit c) then None
      else match ungroup c t with
           | Some r => Some (c :: r)
           | None => None
           end
  end.

(** The characters that [float] drops at both ends of a text: the ASCII
    whitespace (tab, line feed, vertical tab, form feed, carriage return,
    space), and the spaces above the ASCII range, which it first replaces by
    a space. The separators U+001C to U+001F, which [str.isspace] accepts,
    are kept, and the text is then no number. *)
Definition is_whitespace (c : ascii) : bool :=
  (((9 <=? code c) && (code c <=? 13)) || (code c =? 32)
   || (code c =? 133) || (code c =? 160))%N.

Definition strip_whitespace (cs : list ascii) : list ascii :=
  rstrip_chars is_whitespace (lstrip_chars is_whitespace cs).

(** [float(s)] for a string: [None] stands for the [ValueError]. *)
Definition of_string (s : string) : option spec_float :=
  match ungroup zero (strip_whitespace (chars s)) with
  | None => None
  | Some body =>
      let '(neg, t) := take_sign body in
      match parse_special neg t with
      | Some f => Some f
      | None => parse_decimal neg t
      end
  end.

(** [float(z)] for an [int]. *)
Definition of_int (z : Z) : M spec_float :=
  match of_Z z with
  | S754_infinity _ => raise (OverflowError "int too large to convert to float")
  | f => ret f
  end.

(** [float(value)] *)
Definition float (value : Value) : M Value :=
  match value with
  | VFloat f => ret (VFloat f)
  | VInt z => let* f := of_int z in ret (VFloat f)
  | VBool b => ret (VFloat (of_Z (if b then 1 else 0)))
  | VStr s =>
      match of_string s with
      | Some f => ret (VFloat f)
      | None => raise (ValueError (could_not_convert_string_to_float s))
      end
  | VNone | VList _ | VDict _ | VDateTime _ =>
      raise (TypeError "float() argument must be a string or a real number")
  end.

Definition is_zero (f : spec_float) : bool :=
  match f with
  | S754_zero _ => true
  | _ => false
  end.

(** [bool(value)]: Python truthiness. *)
Definition truthy (value : Value) : bool :=
  match value with
  | VNone => false
  | VBool b => b
  | VInt z => negb (z =? 0)
  | VFloat f => negb (is_zero f)
  | VStr s => negb (String.eqb s "")
  | VList l => match l with [] => false | _ => true end
  | VDict d => match d with [] => false | _ => true end
  | VDateTime _ => true
  end.

End PyFloat.

(** ** [re.match] *)

Module Re.
Import PyStr.

(** The constructs that the currency pattern uses. *)
Inductive regex : Type :=
  | Class (p : ascii -> bool)        (* one character of a class *)
  | Seq (r1 r2 : regex)              (* r1 r2 *)
  | Opt (r : regex)                  (* r?   greedy *)
  | Plus (p : ascii -> bool)         (* [class]+   greedy *)
  | Repeat (n : nat) (r : regex)     (* r{n} *)
  | Group (i : nat) (r : regex).     (* ( r ), capture number i *)

(** A match object: the text of the groups that took part. *)
Definition Match : Type := gmap nat string.

Definition consumed (before after : list ascii) : string :=
  of_chars (firstn (List.length before - List.length after) before).

Section Backtracking.
Context {A : Type}.

(** [class+]: the longest run first, shorter ones on failure of [k]. *)
Fixpoint plus (p : ascii -> bool) (cs : list ascii) (m : Match)
    (k : list ascii -> Match -> option A) : option A :=
  match cs with
  | c :: t =>
      if p c then
        match plus p t m k with
        | Some a => Some a
        | None => k t m
        end
      else None
  | [] => None
  end.

(** Backtracking matcher in continuation-passing style: [k] is what
    remains to be matched after [r]. *)
Fixpoint run (r : regex) (cs : list ascii) (m : Match)
    (k : list ascii -> Match -> option A) : option A :=
  match r with
  | Class p =>
      match cs with
      | c :: t => if p c then k t m else None
      | [] => None
      end
  | Seq r1 r2 => run r1 cs m (fun cs' m' => run r2 cs' m' k)
  | Opt r' =>
      match run r' cs m k with
      | Some a => Some a
      | None => k cs m
      end
  | Plus p => plus p cs m k
  | Repeat n r' =>
      (fix rep (n : nat) (cs : list ascii) (m : Match) : option A :=
         match n with
         | O => k cs m
         | S n' => run r' cs m (rep n')
         end) n cs m
  | Group i r' => run r' cs m (fun cs' m' => k cs' (<[i := consumed cs cs']> m'))
  end.
End Backtracking.

(** [re.match(pattern, s)]: anchored at the start, free at the end. *)
Definition match_ (pattern : regex) (s : string) : option Match :=
  run pattern (chars s) ∅ (fun _ m => Some m).

Definition group (m : Match) (i : nat) : option string := m !! i.

End Re.

(** ** [apps/schemas.py] *)

Module Schemas.

Record InputVar := mkInputVar {
  varName : string;
  varType : string
}.

Record Formula := mkFormula {
  outputVar : string;
  expression : string;
  inputs : list InputVar
}.

Record FormulaRequest := mkFormulaRequest {
  data : list (gmap string Value);
  formulas : list Formula
}.

End Schemas.

(** ** The expression evaluator

    [numexpr] is a library outside the repository. Its [evaluate] works in
    three stages, which is all the service relies on: the expression text is
    compiled and the variable names it loads are collected; each name is
    looked up in [local_dict] and then in the globals of the calling module;
    the compiled program runs on the operands found. The first and the last
    stage are the two fields of an [Engine]; the lookup is [getArguments]. *)

Module NumExpr.

(** A numpy array: its shape and its elements in row-major order. *)
Record ndarray := mkArray {
  shape : list nat;
  flat : list Value
}.

(** [a.item()] *)
Definition item (a : ndarray) : M Value :=
  match flat a with
  | [v] => ret v
  | _ => raise (ValueError can_only_convert_an_array_of_size_1)
  end.

Definition scalar (v : Value) : ndarray := mkArray [] [v].

Record Engine := mkEngine {
  getExprNames : string -> M (list string);
  run : string -> list (string * Value) -> M ndarray
}.

(** Where an operand was found. *)
Inductive Operand : Type :=
  | from_local (v : Value)
  | from_global (name : string).

Fixpoint getArguments (names : list string) (local_dict : gmap string Value)
    (global_dict : gset string) : M (list (string * Operand)) :=
  match names with
  | [] => ret []
  | name :: rest =>
      let* a :=
        match local_dict !! name with
        | Some v => ret (from_local v)
        | None =>
            if decide (name ∈ global_dict) then ret (from_global name)
            else raise (KeyError name)
        end in
      let* args := getArguments rest local_dict global_dict in
      ret ((name, a) :: args)
  end.

(** The operands are typed once all of them are found. A module-level
    object of the service (a module, a function, a class, a string) has no
    array type; the type of an operand from [local_dict] is the matter of
    the engine's [run]. *)
Fixpoint getTypes (arguments : list (string * Operand)) : M (list (string * Value)) :=
  match arguments with
  | [] => ret []
  | (name, from_local v) :: rest =>
      let* args := getTypes rest in ret ((name, v) :: args)
  | (name, from_global g) :: _ => raise (ValueError (unknown_type_object g))
  end.

(** [numexpr.evaluate(ex, local_dict=local_dict)], called from a module
    whose globals are [global_dict]. *)
Definition evaluate (E : Engine) (ex : string) (local_dict : gmap string Value)
    (global_dict : gset string) : M ndarray :=
  let* names := getExprNames E ex in
  let* arguments := getArguments names local_dict global_dict in
  let* typed := getTypes arguments in
  run E ex typed.

End NumExpr.

(** ** [apps/main.py] *)

Module Main.
Import Schemas.

(** The names bound at module level in [apps/main.py]. *)
Definition module_globals : gset string :=
  list_to_set
    ["__name__"; "__doc__"; "__package__"; "__loader__"; "__spec__";
     "__file__"; "__cached__"; "__builtins__";
     "re"; "numexpr"; "uvicorn"; "FastAPI"; "HTTPException"; "status";
     "parse_date"; "Any"; "Dict"; "List"; "schemas"; "app";
     "parse_currency"; "convert_variable"; "validate_formulas";
     "evaluate_formulas"].

(** [r'([A-Za-z]{3})?\s?\$?\s?([0-9,.]+)'] *)
Definition currency_pattern : Re.regex :=
  Re.Seq (Re.Opt (Re.Group 1 (Re.Repeat 3 (Re.Class PyStr.is_alpha))))
 (Re.Seq (Re.Opt (Re.Class PyStr.is_space))
 (Re.Seq (Re.Opt (Re.Class (PyStr.ascii_eqb "$")))
 (Re.Seq (Re.Opt (Re.Class PyStr.is_space))
         (Re.Group 2 (Re.Plus (fun c => PyStr.is_digit c
                                       || PyStr.ascii_eqb c ","
                                       || PyStr.ascii_eqb c ".")))))).

Definition parse_currency (value : string) : M Value :=
  match Re.match_ currency_pattern (PyStr.remove value ",") with
  | Some m =>
      match Re.group m 2 with
      | Some g => PyFloat.float (VStr g)
      | None => PyFloat.float VNone
      end
  | None => raise (ValueError (Invalid_currency_format value))
  end.

(** How [dateutil.parser.parse] can fail: [ParserError] is a [ValueError],
    the overflow of a date component is not. *)
Inductive ParseFailure : Type :=
  | ParserError (text : string)
  | DateOverflow (text : string).

(** [except ValueError as e: raise ValueError(e)] *)
Definition except_ValueError {A} (c : M A) : M A :=
  try_except c (fun e =>
    match e with
    | ValueError msg => raise (ValueError msg)
    | _ => raise e
    end).

(** The type tags of [schemas.InputVar.varType]. *)
Definition supported_types : list string :=
  ["number"; "boolean"; "datetime"; "currency"; "percentage"].

(** The body of a successful response. *)
Record Response := mkResponse {
  results : gmap string (list Value);
  status : string;
  message : string
}.

Section Service.
(** The two libraries the service is linked with. *)
Variable parse_date : string -> ParseFailure + DateTime.
Variable E : NumExpr.Engine.

Definition parse_date_value (s : string) : M Value :=
  match parse_date s with
  | inr d => ret (VDateTime d)
  | inl (ParserError text) => raise (ValueError (parser_error text))
  | inl (DateOverflow text) => raise (OverflowError text)
  end.

(** The [try] block of [convert_variable]: [Some] is a [return], [None]
    is falling out of the [if]/[elif] chain. *)
Definition convert_variable_try (value : Value) (var_type : string) : M (option Value) :=
  if String.eqb var_type "number" then
    let* r := PyFloat.float value in ret (Some r)
  else if String.eqb var_type "boolean" then
    ret (Some (VBool (PyFloat.truthy value)))
  else if String.eqb var_type "datetime" then
    match value with
    | VStr s => let* r := parse_date_value s in ret (Some r)
    | _ => ret (Some value)
    end
  else if String.eqb var_type "percentage" then
    match value with
    | VStr s =>
        if PyStr.endswith s "%" then
          let* r := PyFloat.float (VStr (PyStr.strip s "%")) in ret (Some r)
        else let* r := PyFloat.float value in ret (Some r)
    | _ => let* r := PyFloat.float value in ret (Some r)
    end
  else if String.eqb var_type "currency" then
    match value with
    | VStr s => let* r := parse_currency s in ret (Some r)
    | _ => let* r := PyFloat.float value in ret (Some r)
    end
  else ret None.

Definition convert_variable (value : Value) (var_type : string) : M Value :=
  let* r := except_ValueError (convert_variable_try value var_type) in
  match r with
  | Some v => ret v
  | None => raise (ValueError (Unsupported_variable_type var_type))
  end.

(** The inner [for input_var in formula.inputs] of [validate_formulas]. *)
Fixpoint check_inputs (available_vars evaluated_vars : gset string)
    (formula : Formula) (ins : list InputVar) : M unit :=
  match ins with
  | [] => ret tt
  | input_var :: rest =>
      if bool_decide (varName input_var ∉ available_vars)
         && bool_decide (varName input_var ∉ evaluated_vars)
      then raise (HTTPException HTTP_400_BAD_REQUEST
                    (Variable_not_available (varName input_var) (outputVar formula)))
      else check_inputs available_vars evaluated_vars formula rest
  end.

(** [{var.varName: 1 for var in formula.inputs}] *)
Definition placeholders (ins : list InputVar) : gmap string Value :=
  fold_left (fun d var => <[varName var := VInt 1]> d) ins ∅.

(** The [for formula in formulas] of [validate_formulas]. *)
Fixpoint validate_loop (available_vars evaluated_vars : gset string)
    (fs : list Formula) : M unit :=
  match fs with
  | [] => ret tt
  | formula :: rest =>
      do check_inputs available_vars evaluated_vars formula (inputs formula) in
      do (if bool_decide (outputVar formula ∈ map varName (inputs formula))
          then raise (HTTPException HTTP_400_BAD_REQUEST
                        (Formula_cannot_reference_itself (outputVar formula)))
          else ret tt) in
      do try_except
           (let* _ := NumExpr.evaluate E (expression formula)
                        (placeholders (inputs formula)) module_globals in
            ret tt)
           (fun e => raise (HTTPException HTTP_400_BAD_REQUEST
                              (Syntax_error_in_formula (outputVar formula)
                                 (expression formula) e))) in
      validate_loop available_vars ({[outputVar formula]} ∪ evaluated_vars) rest
  end.

Definition validate_formulas (data : list (gmap string Value))
    (formulas : list Formula) : M unit :=
  match data with
  | [] => raise IndexError
  | first :: _ =>
      let available_vars : gset string := dom first in
      let evaluated_vars : gset string := ∅ in
      validate_loop available_vars evaluated_vars formulas
  end.

(** The [for input_var in formula.inputs] of [evaluate_formulas]: each
    input is looked up in [local_item] and converted at once. [item] is
    the record as received, of which the message quotes the [id]. *)
Fixpoint prepare_variables (item local_item : gmap string Value)
    (ins : list InputVar) (variables : gmap string Value) : M (gmap string Value) :=
  match ins with
  | [] => ret variables
  | input_var :: rest =>
      let var_name := varName input_var in
      match local_item !! var_name with
      | Some v =>
          let* c := try_except (convert_variable v (varType input_var))
                      (fun e => raise (HTTPException HTTP_400_BAD_REQUEST
                                         (Error_while_converting_variable e))) in
          prepare_variables item local_item rest (<[var_name := c]> variables)
      | None =>
          raise (HTTPException HTTP_400_BAD_REQUEST
                   (Variable_not_found_in_data_item var_name
                      (default (VStr "unknown") (item !! "id"))))
      end
  end.

(** [results[key].append(v)] *)
Definition append_result (results : gmap string (list Value)) (key : string)
    (v : Value) : M (gmap string (list Value)) :=
  match results !! key with
  | Some series => ret (<[key := series ++ [v]]> results)
  | None => raise (KeyError key)
  end.

(** The body of [for formula in formulas]: the state is [local_item] and
    [results]. *)
Definition run_formula (item : gmap string Value)
    (st : gmap string Value * gmap string (list Value)) (formula : Formula)
    : M (gmap string Value * gmap string (list Value)) :=
  let '(local_item, results) := st in
  let* variables := prepare_variables item local_item (inputs formula) ∅ in
  try_except
    (let* result := NumExpr.evaluate E (expression formula) variables module_globals in
     let* result_value := NumExpr.item result in
     let* results' := append_result results (outputVar formula) result_value in
     ret (<[outputVar formula := result_value]> local_item, results'))
    (fun e => raise (HTTPException HTTP_400_BAD_REQUEST
                       (Error_evaluating_expression (expression formula) e))).

Fixpoint run_formulas (item : gmap string Value)
    (st : gmap string Value * gmap string (list Value)) (fs : list Formula)
    : M (gmap string Value * gmap string (list Value)) :=
  match fs with
  | [] => ret st
  | formula :: rest =>
      let* st' := run_formula item st formula in
      run_formulas item st' rest
  end.

(** The [for item in data_items]: [local_item = item.copy()] starts each
    record from its own fields. *)
Fixpoint run_items (formulas : list Formula) (items : list (gmap string Value))
    (results : gmap string (list Value)) : M (gmap string (list Value)) :=
  match items with
  | [] => ret results
  | item :: rest =>
      let local_item := item in
      let* st := run_formulas item (local_item, results) formulas in
      run_items formulas rest (snd st)
  end.

(** [{formula.outputVar: [] for formula in formulas}] *)
Definition empty_results (formulas : list Formula) : gmap string (list Value) :=
  fold_left (fun d formula => <[outputVar formula := []]> d) formulas ∅.

(** The body of the outer [try] of [evaluate_formulas]. *)
Definition evaluate_formulas_try (request : FormulaRequest) : M Response :=
  let data_items := data request in
  let formulas := formulas request in
  do (if Nat.eqb (List.length data_items) 0
      then raise (HTTPException HTTP_400_BAD_REQUEST Empty_data)
      else ret tt) in
  do (if Nat.eqb (List.length formulas) 0
      then raise (HTTPException HTTP_400_BAD_REQUEST Empty_formulas)
      else ret tt) in
  do validate_formulas data_items formulas in
  let results := empty_results formulas in
  let* results := run_items formulas data_items results in
  ret {| results := results;
         status := "success";
         message := "The formulas were executed successfully with variable-based chaining." |}.

Definition evaluate_formulas (request : FormulaRequest) : M Response :=
  try_except (evaluate_formulas_try request) (fun e =>
    match e with
    | HTTPException _ detail => raise (HTTPException HTTP_400_BAD_REQUEST detail)
    | _ => raise (HTTPException HTTP_500_INTERNAL_SERVER_ERROR (Internal_server_error e))
    end).

End Service.
End Main.

(** ** A concrete evaluator: integer and floating-point arithmetic

    [Arith.engine] implements the [NumExpr.Engine] interface for expressions
    built from names, decimal integer literals, [+], [-], [*] and
    parentheses, over [int] and [float] operands: the expressions of the
    test-suite. It follows numexpr there: constants fold with Python integer
    arithmetic, an [int] operand is a 64-bit integer whose arithmetic wraps,
    and an integer meeting a double is converted to a double. Text outside
    the fragment is answered with an exception; the general results below
    are stated for every engine and do not depend on that answer. *)

Module Arith.
Import PyStr.

Inductive token : Type :=
  | TInt (z : Z)
  | TName (s : string)
  | TOp (c : ascii).

Inductive partial : Type :=
  | PInt (rev_digits : list ascii)
  | PName (rev_chars : list ascii).

Definition is_name_start (c : ascii) : bool := is_alpha c || ascii_eqb c "_".
Definition is_operator (c : ascii) : bool :=
  mem c ["+"; "-"; "*"; "("; ")"]%char.
Definition is_blank (c : ascii) : bool := mem c [" "; "009"]%char.

(** Python keywords and the names numexpr binds to constants and
    functions: none of them is a variable. *)
Definition reserved : list string :=
  ["False"; "None"; "True"; "and"; "as"; "assert"; "async"; "await";
   "break"; "class"; "continue"; "def"; "del"; "elif"; "else"; "except";
   "finally"; "for"; "from"; "global"; "if"; "import"; "in"; "is";
   "lambda"; "nonlocal"; "not"; "or"; "pass"; "raise"; "return"; "try";
   "while"; "with"; "yield";
   "where"; "sin"; "cos"; "tan"; "arcsin"; "arccos"; "arctan"; "arctan2";
   "sinh"; "cosh"; "tanh"; "arcsinh"; "arccosh"; "arctanh"; "log";
   "log10"; "log1p"; "exp"; "expm1"; "sqrt"; "abs"; "conj"; "real";
   "imag"; "complex"; "contains"; "floor"; "ceil"; "fmod"; "sum"; "prod";
   "min"; "max"; "ones_like"; "copy"; "div"; "pow"; "sign"; "round"].

Definition flush (p : option partial) : option (list token) :=
  match p with
  | None => Some []
  | Some (PInt rd) =>
      let ds := rev rd in
      match ds with
      | "0"%char :: _ :: _ =>
          if forallb (ascii_eqb "0") ds then Some [TInt 0] else None
      | _ => Some [TInt (PyFloat.digits_value ds)]
      end
  | Some (PName rc) =>
      let name := of_chars (rev rc) in
      if existsb (String.eqb name) reserved then None else Some [TName name]
  end.

(** One pass over the characters; [p] is the literal or name being read. *)
Fixpoint lex (cs : list ascii) (p : option partial) : option (list token) :=
  match cs with
  | [] => flush p
  | c :: t =>
      if is_digit c then
        match p with
        | None => lex t (Some (PInt [c]))
        | Some (PInt rd) => lex t (Some (PInt (c :: rd)))
        | Some (PName rc) => lex t (Some (PName (c :: rc)))
        end
      else if is_name_start c then
        match p with
        | None => lex t (Some (PName [c]))
        | Some (PInt _) => None
        | Some (PName rc) => lex t (Some (PName (c :: rc)))
        end
      else if is_blank c then
        match flush p, lex t None with
        | Some a, Some b => Some (a ++ b)
        | _, _ => None
        end
      else if is_operator c then
        match flush p, lex t None with
        | Some a, Some b => Some (a ++ TOp c :: b)
        | _, _ => None
        end
      else None
  end.

Definition tokenize (ex : string) : option (list token) :=
  match chars ex with
  | c :: _ => if is_blank c then None else lex (chars ex) None
  | [] => None
  end.

Inductive expr : Type :=
  | Lit (z : Z)
  | Var (name : string)
  | Neg (e : expr)
  | Bin (op : ascii) (l r : expr).

(** Recursive descent; [fuel] bounds the nesting of calls.
    - a sum is a product followed by any number of signed products;
    - a product is a unary followed by any number of starred unaries;
    - a unary is a sign and a unary, a literal, a name, or a sum in
      parentheses. *)
Fixpoint parse_sum (fuel : nat) (ts : list token) : option (expr * list token) :=
  match fuel with
  | O => None
  | S n =>
      match parse_product n ts with
      | Some (l, rest) => parse_sum_rest n l rest
      | None => None
      end
  end
with parse_sum_rest (fuel : nat) (l : expr) (ts : list token) : option (expr * list token) :=
  match fuel with
  | O => None
  | S n =>
      match ts with
      | TOp op :: rest =>
          if ascii_eqb op "+" || ascii_eqb op "-" then
            match parse_product n rest with
            | Some (r, rest') => parse_sum_rest n (Bin op l r) rest'
            | None => None
            end
          else Some (l, ts)
      | _ => Some (l, ts)
      end
  end
with parse_product (fuel : nat) (ts : list token) : option (expr * list token) :=
  match fuel with
  | O => None
  | S n =>
      match parse_unary n ts with
      | Some (l, rest) => parse_product_rest n l rest
      | None => None
      end
  end
with parse_product_rest (fuel : nat) (l : expr) (ts : list token) : option (expr * list token) :=
  match fuel with
  | O => None
  | S n =>
      match ts with
      | TOp op :: rest =>
          if ascii_eqb op "*" then
            match parse_unary n rest with
            | Some (r, rest') => parse_product_rest n (Bin op l r) rest'
            | None => None
            end
          else Some (l, ts)
      | _ => Some (l, ts)
      end
  end
with parse_unary (fuel : nat) (ts : list token) : option (expr * list token) :=
  match fuel with
  | O => None
  | S n =>
      match ts with
      | TInt z :: rest => Some (Lit z, rest)
      | TName s :: rest => Some (Var s, rest)
      | TOp op :: rest =>
          if ascii_eqb op "-" then
            match parse_unary n rest with
            | Some (e, rest') => Some (Neg e, rest')
            | None => None
            end
          else if ascii_eqb op "+" then parse_unary n rest
          else if ascii_eqb op "(" then
            match parse_sum n rest with
            | Some (e, TOp cl :: rest') =>
                if ascii_eqb cl ")" then Some (e, rest') else None
            | _ => None
            end
          else None
      | [] => None
      end
  end.

Definition parse (ex : string) : M expr :=
  match tokenize ex with
  | Some ts =>
      match parse_sum (4 * List.length ts + 4) ts with
      | Some (e, []) => ret e
      | _ => raise (SyntaxError "invalid syntax")
      end
  | None => raise (SyntaxError "invalid syntax")
  end.

Fixpoint variables (e : expr) : list string :=
  match e with
  | Lit _ => []
  | Var name => [name]
  | Neg e' => variables e'
  | Bin _ l r => variables l ++ variables r
  end.

(** Insertion into a list sorted by code points, without repetition. *)
Fixpoint insert_sorted (name : string) (names : list string) : list string :=
  match names with
  | [] => [name]
  | n :: rest =>
      match String.compare name n with
      | Lt => name :: names
      | Eq => names
      | Gt => n :: insert_sorted name rest
      end
  end.

Definition getExprNames (ex : string) : M (list string) :=
  let* e := parse ex in
  ret (fold_right insert_sorted [] (variables e)).

(** What a sub-expression evaluates to: a folded constant, a 64-bit
    integer, or a double. *)
Inductive num : Type :=
  | Const (z : Z)
  | Long (z : Z)
  | Double (f : spec_float).

Definition in_int64 (z : Z) : bool := (- 2 ^ 63 <=? z) && (z <? 2 ^ 63).
Definition wrap64 (z : Z) : Z := (z + 2 ^ 63) mod 2 ^ 64 - 2 ^ 63.

Definition operand (v : Value) : M num :=
  match v with
  | VInt z =>
      if in_int64 z then ret (Long z)
      else raise (NotImplementedError "integer operand beyond 64 bits")
  | VFloat f => ret (Double f)
  | VStr _ => raise (ValueError (other_message "NumExpr 2 does not support Unicode as a dtype."))
  | _ => raise (NotImplementedError "operand outside the arithmetic fragment")
  end.

Definition to_long (x : num) : M Z :=
  match x with
  | Const z | Long z =>
      if in_int64 z then ret z
      else raise (OverflowError "Python int too large to convert to C long")
  | Double _ => raise (TypeError "a double is not narrowed")
  end.

Definition to_double (x : num) : M spec_float :=
  match x with
  | Double f => ret f
  | _ => let* z := to_long x in ret (PyFloat.of_Z z)
  end.

Definition int_op (op : ascii) (a b : Z) : Z :=
  if ascii_eqb op "+" then a + b
  else if ascii_eqb op "-" then a - b
  else a * b.

Definition double_op (op : ascii) (a b : spec_float) : spec_float :=
  if ascii_eqb op "+" then PyFloat.add a b
  else if ascii_eqb op "-" then PyFloat.sub a b
  else PyFloat.mul a b.

Definition binary (op : ascii) (x y : num) : M num :=
  match x, y with
  | Const a, Const b => ret (Const (int_op op a b))
  | Double _, _ | _, Double _ =>
      let* a := to_double x in
      let* b := to_double y in
      ret (Double (double_op op a b))
  | _, _ =>
      let* a := to_long x in
      let* b := to_long y in
      ret (Long (wrap64 (int_op op a b)))
  end.

Definition negate (x : num) : num :=
  match x with
  | Const z => Const (- z)
  | Long z => Long (wrap64 (- z))
  | Double f => Double (SFopp f)
  end.

Fixpoint lookup (name : string) (env : list (string * Value)) : M Value :=
  match env with
  | [] => raise (KeyError name)
  | (n, v) :: rest => if String.eqb n name then ret v else lookup name rest
  end.

Fixpoint eval (env : list (string * Value)) (e : expr) : M num :=
  match e with
  | Lit z => ret (Const z)
  | Var name => let* v := lookup name env in operand v
  | Neg e' => let* x := eval env e' in ret (negate x)
  | Bin op l r =>
      let* x := eval env l in
      let* y := eval env r in
      binary op x y
  end.

Definition run (ex : string) (arguments : list (string * Value)) : M NumExpr.ndarray :=
  let* e := parse ex in
  let* x := eval arguments e in
  match x with
  | Double f => ret (NumExpr.scalar (VFloat f))
  | _ => let* z := to_long x in ret (NumExpr.scalar (VInt z))
  end.

Definition engine : NumExpr.Engine :=
  NumExpr.mkEngine getExprNames run.

End Arith.

(** ** A concrete date parser: ISO calendar dates

    [IsoDate.parse] stands for [dateutil.parser.parse] on text of the form
    [YYYY-MM-DD]; any other text is answered with [ParserError]. *)

Module IsoDate.
Import PyStr.

Definition is_leap (y : Z) : bool :=
  ((y mod 4 =? 0) && negb (y mod 100 =? 0)) || (y mod 400 =? 0).

Definition days_in_month (y m : Z) : Z :=
  if m =? 2 then (if is_leap y then 29 else 28)
  else if (m =? 4) || (m =? 6) || (m =? 9) || (m =? 11) then 30
  else 31.

Definition parse (s : string) : Main.ParseFailure + DateTime :=
  match chars s with
  | [y1; y2; y3; y4; "-"; m1; m2; "-"; d1; d2]%char =>
      if forallb is_digit [y1; y2; y3; y4; m1; m2; d1; d2] then
        let y := PyFloat.digits_value [y1; y2; y3; y4] in
        let m := PyFloat.digits_value [m1; m2] in
        let d := PyFloat.digits_value [d1; d2] in
        if (1 <=? y) && (1 <=? m) && (m <=? 12) && (1 <=? d) && (d <=? days_in_month y m)
        then inr (mkDateTime y m d 0 0 0)
        else inl (Main.ParserError s)
      else inl (Main.ParserError s)
  | _ => inl (Main.ParserError s)
  end.

End IsoDate.

(** ** The service linked with the concrete libraries, and sample requests *)

Module Sample.
Import Schemas.

Definition convert_variable := Main.convert_variable IsoDate.parse.
Definition validate_formulas := Main.validate_formulas Arith.engine.
Definition evaluate_formulas := Main.evaluate_formulas IsoDate.parse Arith.engine.

Definition number (name : string) : InputVar := mkInputVar name "number".

(** The request of [test_valid_formula_execution] (without the [id]s, as in
    the specification, and with them, as in the test). *)
Definition result_formula : Formula :=
  mkFormula "result" "fieldA + 10" [number "fieldA"].

Definition chaining_request : FormulaRequest :=
  mkFormulaRequest
    [ {[ "fieldA" := VInt 10 ]}; {[ "fieldA" := VInt 20 ]} ]
    [ result_formula ].

Definition test_valid_request : FormulaRequest :=
  mkFormulaRequest
    [ <["id" := VInt 1]> {[ "fieldA" := VInt 10 ]};
      <["id" := VInt 2]> {[ "fieldA" := VInt 20 ]} ]
    [ result_formula ].

(** The request of [test_missing_variable_in_data]: the second record has
    no [fieldB]. *)
Definition sum_formula : Formula :=
  mkFormula "result" "fieldA + fieldB" [number "fieldA"; number "fieldB"].

Definition first_record : gmap string Value :=
  <["id" := VInt 1]> (<["fieldA" := VInt 10]> {[ "fieldB" := VInt 30 ]}).

Definition short_record : gmap string Value :=
  <["id" := VInt 2]> {[ "fieldA" := VInt 20 ]}.

Definition missing_field_request : FormulaRequest :=
  mkFormulaRequest [first_record; short_record] [sum_formula].

(** A first record whose [fieldA] is not a number, then a record without
    [fieldA]. *)
Definition text_then_missing_request : FormulaRequest :=
  mkFormulaRequest
    [ <["id" := VInt 1]> {[ "fieldA" := VStr "Ten" ]}; {[ "id" := VInt 2 ]} ]
    [ result_formula ].

(** A second record whose [fieldA] is not a number and whose [fieldB] is
    absent. *)
Definition text_record : gmap string Value :=
  <["id" := VInt 2]> {[ "fieldA" := VStr "Ten" ]}.

Definition text_and_missing_request : FormulaRequest :=
  mkFormulaRequest [first_record; text_record] [sum_formula].

(** The request of [test_invalid_variable_type]. *)
Definition invalid_type_request : FormulaRequest :=
  mkFormulaRequest
    [ <["id" := VInt 1]> (<["fieldA" := VStr "Ten"]> {[ "fieldB" := VInt 30 ]}) ]
    [ sum_formula ].

(** The request of [test_formula_syntax_error]. *)
Definition syntax_error_request : FormulaRequest :=
  mkFormulaRequest [first_record]
    [ mkFormula "result" "fieldA +" [number "fieldA"; number "fieldB"] ].

(** The two requests of [test_empty_data_or_formula]. *)
Definition empty_data_request : FormulaRequest :=
  mkFormulaRequest []
    [ mkFormula "result1" "var1 + var2" [mkInputVar "var1" "int"; mkInputVar "var2" "int"] ].

Definition empty_formulas_request : FormulaRequest :=
  mkFormulaRequest
    [ <["id" := VInt 1]> (<["var1" := VInt 10]> {[ "var2" := VInt 5 ]}) ] [].

(** Two chained formulas: the second reads the output of the first. *)
Definition doubled_formula : Formula :=
  mkFormula "doubled" "result * 2" [number "result"].

Definition chained_request : FormulaRequest :=
  mkFormulaRequest [ {[ "fieldA" := VInt 10 ]} ] [result_formula; doubled_formula].

(** A formula that lists its own output among its inputs. *)
Definition total_formula : Formula :=
  mkFormula "total" "total + fieldA" [number "total"; number "fieldA"].

(** A formula whose expression reads [fieldB] without declaring it, and one
    that reads the earlier output [result] without declaring it. *)
Definition undeclared_field_formula : Formula :=
  mkFormula "result" "fieldA + fieldB" [number "fieldA"].

Definition undeclared_output_formula : Formula :=
  mkFormula "doubled" "result * 2" [number "fieldA"].

(** Two formulas whose expression reads [fieldB] without declaring it: the
    first declares an input that no record has, the second declares its own
    output. *)
Definition ghost_input_formula : Formula :=
  mkFormula "result" "fieldA + fieldB" [number "ghost"].

Definition undeclared_self_formula : Formula :=
  mkFormula "fieldA" "fieldA + fieldB" [number "fieldA"].

(** A batch that passes validation and whose only record holds a date where
    the expression adds a number. *)
Definition date_formula : Formula :=
  mkFormula "result" "fieldA + 10" [mkInputVar "fieldA" "datetime"].

Definition date_request : FormulaRequest :=
  mkFormulaRequest [ <["id" := VInt 7]> {[ "fieldA" := VStr "2024-02-29" ]} ] [date_formula].

End Sample.


(** ** The coercion rules as the specification words them

    These definitions follow the text of the specification, not the code;
    they are what the code is compared with. *)

Module Specified.

Definition without_last (s : string) : string :=
  PyStr.of_chars (removelast (PyStr.chars s)).

(** "if the value is text ending in [%], strip the suffix and parse the
    remainder as a float; otherwise parse as a plain float" *)
Definition percentage (value : Value) : M Value :=
  match value with
  | VStr s =>
      if PyStr.endswith s "%" then PyFloat.float (VStr (without_last s))
      else PyFloat.float value
  | _ => PyFloat.float value
  end.

End Specified.

(** ** Vocabulary of the statements *)

(** The failures of a conversion under a supported tag. *)
Definition coercion_failure (e : Exception) : Prop :=
  match e with
  | ValueError (could_not_convert_string_to_float _)
  | ValueError (Invalid_currency_format _)
  | ValueError (parser_error _)
  | TypeError _
  | OverflowError _ => True
  | _ => False
  end.

(** The class of the second group of the currency pattern. *)
Definition numeric_char (c : ascii) : bool :=
  PyStr.is_digit c || PyStr.ascii_eqb c "," || PyStr.ascii_eqb c ".".

(** The set [evaluated_vars] once the formulas [fs] have been accepted. *)
Definition evaluated_after (evaluated_vars : gset string) (fs : list Schemas.Formula)
    : gset string :=
  fold_left (fun s formula => {[Schemas.outputVar formula]} ∪ s) fs evaluated_vars.

Definition bad_request (d : Detail) : Exception := HTTPException HTTP_400_BAD_REQUEST d.

(** The body of the 200 response that carries [results]. *)
Definition successful (results : gmap string (list Value)) : Main.Response :=
  Main.mkResponse results "success"
    "The formulas were executed successfully with variable-based chaining.".

(** The missing-field response for [input_var] on the record [item]. *)
Definition not_found (item : gmap string Value) (input_var : Schemas.InputVar) : Exception :=
  bad_request (Variable_not_found_in_data_item (Schemas.varName input_var)
                 (default (VStr "unknown") (item !! "id"))).

(** The three responses of [validate_formulas]. *)
Definition validation_detail (d : Detail) : Prop :=
  match d with
  | Variable_not_available _ _
  | Formula_cannot_reference_itself _
  | Syntax_error_in_formula _ _ _ => True
  | _ => False
  end.

(** The three responses of the execution loop of [evaluate_formulas]. *)
Definition execution_detail (d : Detail) : Prop :=
  match d with
  | Variable_not_found_in_data_item _ _
  | Error_while_converting_variable _
  | Error_evaluating_expression _ _ => True
  | _ => False
  end.

(** The dry run of [formula] succeeds. *)
Definition dry_run_passes (E : NumExpr.Engine) (formula : Schemas.Formula) : Prop :=
  exists a,
    NumExpr.evaluate E (Schemas.expression formula)
      (Main.placeholders (Schemas.inputs formula)) Main.module_globals = inr a.

(** Two formulas that differ at most in the type tags of their inputs. *)
Definition same_names (f f' : Schemas.Formula) : Prop :=
  Schemas.outputVar f = Schemas.outputVar f'
  /\ Schemas.expression f = Schemas.expression f'
  /\ map Schemas.varName (Schemas.inputs f) = map Schemas.varName (Schemas.inputs f').

(** The series of [o] in a result set, empty when [o] is no key. *)
Definition series (results : gmap string (list Value)) (o : string) : list Value :=
  default [] (results !! o).

(** How many formulas write the output variable [o]. *)
Definition occurrences (o : string) (fs : list Schemas.Formula) : nat :=
  List.length (List.filter (fun formula => String.eqb (Schemas.outputVar formula) o) fs).

(** Further sample data. *)
Module Batch.
Import Schemas.

Definition record_10 : gmap string Value := {[ "fieldA" := VInt 10 ]}.
Definition record_20 : gmap string Value := {[ "fieldA" := VInt 20 ]}.

(** [doubled] reads [result], which is computed after it. *)
Definition out_of_order : list Formula :=
  [Sample.doubled_formula; Sample.result_formula].

(** [Sample.sum_formula] with other type tags. *)
Definition retagged_sum_formula : Formula :=
  mkFormula "result" "fieldA + fieldB"
    [mkInputVar "fieldA" "int"; mkInputVar "fieldB" "percentage"].

(** Two formulas that write the same output variable. *)
Definition product_formula : Formula :=
  mkFormula "result" "fieldA * 2" [Sample.number "fieldA"].

Definition same_output : list Formula := [Sample.result_formula; product_formula].

End Batch.

(** The shape of a currency text, after its commas are removed: an optional
    three-letter code, an optional space, an optional [$], an optional
    space, then the amount. *)
Definition amount_char (c : ascii) : bool := PyStr.is_digit c || PyStr.ascii_eqb c ".".

Definition optional_char (p : ascii -> bool) (cs : list ascii) : Prop :=
  cs = [] \/ exists c, cs = [c] /\ p c = true.

Definition currency_code (cs : list ascii) : Prop :=
  cs = [] \/ exists a b c,
    cs = [a; b; c] /\ PyStr.is_alpha a = true /\ PyStr.is_alpha b = true
    /\ PyStr.is_alpha c = true.

(** What follows the amount does not continue it. *)
Definition ends_amount (rest : list ascii) : Prop :=
  match rest with
  | [] => True
  | c :: _ => amount_char c = false
  end.

(** A float whose sign bit is clear, or a NaN. *)
Definition not_negative (f : spec_float) : Prop :=
  match f with
  | S754_zero s | S754_infinity s | S754_finite s _ _ => s = false
  | S754_nan => True
  end.

(** * Properties *)

(** ** The test-suite of the repository, replayed on the model *)

Example test_valid_formula_execution :
  Sample.evaluate_formulas Sample.test_valid_request
  = inr (successful {[ "result" := [VFloat (PyFloat.of_Z 20); VFloat (PyFloat.of_Z 30)] ]}).
Proof. vm_compute. reflexivity. Qed.

Example test_missing_variable_in_data :
  Sample.evaluate_formulas Sample.missing_field_request
  = inl (bad_request (Variable_not_found_in_data_item "fieldB" (VInt 2))).
Proof. vm_compute. reflexivity. Qed.

Example test_invalid_variable_type :
  Sample.evaluate_formulas Sample.invalid_type_request
  = inl (bad_request (Error_while_converting_variable
                        (ValueError (could_not_convert_string_to_float "Ten")))).
Proof. vm_compute. reflexivity. Qed.

Example test_formula_syntax_error :
  Sample.evaluate_formulas Sample.syntax_error_request
  = inl (bad_request (Syntax_error_in_formula "result" "fieldA +"
                        (SyntaxError "invalid syntax"))).
Proof. vm_compute. reflexivity. Qed.

Example test_empty_data_or_formula :
  Sample.evaluate_formulas Sample.empty_data_request = inl (bad_request Empty_data)
  /\ Sample.evaluate_formulas Sample.empty_formulas_request = inl (bad_request Empty_formulas).
Proof. split; vm_compute; reflexivity. Qed.

(** ** Strings *)

Lemma chars_of_chars (cs : list ascii) : PyStr.chars (PyStr.of_chars cs) = cs.
Proof. apply list_ascii_of_string_of_list_ascii. Qed.

Lemma of_chars_chars (s : string) : PyStr.of_chars (PyStr.chars s) = s.
Proof. apply string_of_list_ascii_of_string. Qed.

Lemma chars_append (a b : string) :
  PyStr.chars (a ++ b)%string = PyStr.chars a ++ PyStr.chars b.
Proof.
  unfold PyStr.chars. induction a as [|c a IH]; simpl; [reflexivity|].
  now rewrite IH.
Qed.

Lemma lstrip_chars_head (p : ascii -> bool) (c : ascii) (cs : list ascii) :
  p c = false -> PyStr.lstrip_chars p (c :: cs) = c :: cs.
Proof. intros H. simpl. now rewrite H. Qed.

Lemma lstrip_chars_skip (p : ascii -> bool) (c : ascii) (cs : list ascii) :
  p c = true -> PyStr.lstrip_chars p (c :: cs) = PyStr.lstrip_chars p cs.
Proof. intros H. simpl. now rewrite H. Qed.

Lemma lstrip_chars_none (p : ascii -> bool) (cs : list ascii) :
  forallb (fun c => negb (p c)) cs = true -> PyStr.lstrip_chars p cs = cs.
Proof.
  destruct cs as [|c cs]; [reflexivity|]. simpl.
  intros H. apply andb_prop in H as [H _].
  apply negb_true_iff in H. now rewrite H.
Qed.

Lemma forallb_rev {A} (p : A -> bool) (l : list A) :
  forallb p (rev l) = forallb p l.
Proof.
  induction l as [|a l IH]; [reflexivity|]. simpl.
  rewrite forallb_app, IH. simpl. rewrite andb_true_r. apply andb_comm.
Qed.

(** When [%] occurs only as the last character, [strip('%')] removes
    exactly that suffix. *)
Lemma strip_percent_suffix (t : string) :
  forallb (fun c => negb (PyStr.ascii_eqb c "%")) (PyStr.chars t) = true ->
  PyStr.strip (t ++ "%") "%" = t.
Proof.
  intros H. unfold PyStr.strip, PyStr.rstrip_chars.
  rewrite chars_append.
  change (PyStr.chars "%") with ["%"%char].
  set (p := fun c => PyStr.mem c ["%"%char]).
  assert (Hp : forall c, p c = PyStr.ascii_eqb c "%").
  { intros c. unfold p, PyStr.mem. simpl. apply orb_false_r. }
  assert (Hn : forallb (fun c => negb (p c)) (PyStr.chars t) = true).
  { clear -H Hp. induction (PyStr.chars t) as [|c cs IH]; [reflexivity|].
    simpl in *. apply andb_prop in H as [H1 H2].
    rewrite Hp, H1. simpl. now apply IH. }
  destruct (PyStr.chars t) as [|c cs] eqn:Et.
  - simpl. rewrite <- (of_chars_chars t), Et. reflexivity.
  - simpl in Hn. apply andb_prop in Hn as [Hc Hn].
    apply negb_true_iff in Hc.
    change ((c :: cs) ++ ["%"%char]) with (c :: (cs ++ ["%"%char])).
    rewrite (lstrip_chars_head p c) by assumption.
    change (c :: (cs ++ ["%"%char])) with ((c :: cs) ++ ["%"%char]).
    rewrite (rev_app_distr (c :: cs) ["%"%char]).
    change (rev ["%"%char] ++ rev (c :: cs)) with ("%"%char :: rev (c :: cs)).
    rewrite lstrip_chars_skip by reflexivity.
    rewrite lstrip_chars_none.
    + rewrite rev_involutive. rewrite <- Et. apply of_chars_chars.
    + rewrite forallb_rev. simpl. now rewrite Hc, Hn.
Qed.

(** ** Coercion *)

Lemma except_ValueError_id {A} (c : M A) : Main.except_ValueError c = c.
Proof. destruct c as [[]|]; reflexivity. Qed.

Lemma float_failure (v : Value) (e : Exception) :
  PyFloat.float v = inl e -> coercion_failure e.
Proof.
  destruct v; simpl; try (intros [= <-]; exact I); try discriminate.
  - unfold PyFloat.of_int. destruct (PyFloat.of_Z z); simpl;
      try discriminate. intros [= <-]. exact I.
  - destruct (PyFloat.of_string s); [discriminate|]. intros [= <-]. exact I.
Qed.

Lemma parse_currency_failure (s : string) (e : Exception) :
  Main.parse_currency s = inl e -> coercion_failure e.
Proof.
  unfold Main.parse_currency.
  destruct (Re.match_ _ _) as [m|].
  - destruct (Re.group m 2); apply float_failure.
  - intros [= <-]. exact I.
Qed.

Lemma return_or_unsupported (c : M Value) (var_type : string) :
  (let* r := (let* r := c in ret (Some r)) in
   match r with
   | Some v => ret v
   | None => raise (ValueError (Unsupported_variable_type var_type))
   end) = c.
Proof. destruct c; reflexivity. Qed.

Ltac choose_branch :=
  unfold Main.convert_variable, Main.convert_variable_try;
  cbn [String.eqb Ascii.eqb Bool.eqb];
  rewrite ?except_ValueError_id.

Section Coercion.
Variable parse_date : string -> Main.ParseFailure + DateTime.

Abbreviation convert_variable := (Main.convert_variable parse_date).

Lemma convert_number (v : Value) : convert_variable v "number" = PyFloat.float v.
Proof. choose_branch. apply return_or_unsupported. Qed.

Lemma convert_boolean (v : Value) :
  convert_variable v "boolean" = inr (VBool (PyFloat.truthy v)).
Proof. reflexivity. Qed.

Lemma convert_datetime_text (s : string) :
  convert_variable (VStr s) "datetime" = Main.parse_date_value parse_date s.
Proof. choose_branch. apply return_or_unsupported. Qed.

Lemma convert_datetime_other (v : Value) :
  (forall s, v <> VStr s) -> convert_variable v "datetime" = inr v.
Proof.
  intros H. destruct v; try reflexivity. now destruct (H s).
Qed.

Lemma convert_percentage_suffixed (s : string) :
  PyStr.endswith s "%" = true ->
  convert_variable (VStr s) "percentage" = PyFloat.float (VStr (PyStr.strip s "%")).
Proof.
  intros H. choose_branch. rewrite H. apply return_or_unsupported.
Qed.

Lemma convert_percentage_plain (v : Value) :
  (forall s, v = VStr s -> PyStr.endswith s "%" = false) ->
  convert_variable v "percentage" = PyFloat.float v.
Proof.
  intros H. choose_branch.
  destruct v; try apply return_or_unsupported.
  rewrite (H s eq_refl). apply return_or_unsupported.
Qed.

Lemma convert_currency_text (s : string) :
  convert_variable (VStr s) "currency" = Main.parse_currency s.
Proof. choose_branch. apply return_or_unsupported. Qed.

Lemma convert_currency_other (v : Value) :
  (forall s, v <> VStr s) -> convert_variable v "currency" = PyFloat.float v.
Proof.
  intros H. choose_branch.
  destruct v; try apply return_or_unsupported.
  now destruct (H s).
Qed.

Lemma convert_unsupported (v : Value) (var_type : string) :
  ~ In var_type Main.supported_types ->
  convert_variable v var_type = inl (ValueError (Unsupported_variable_type var_type)).
Proof.
  intros H. unfold Main.convert_variable, Main.convert_variable_try.
  repeat match goal with
  | |- context [String.eqb var_type ?t] =>
      destruct (String.eqb_spec var_type t) as [->|_];
      [exfalso; apply H; simpl; tauto|]
  end.
  reflexivity.
Qed.

Lemma convert_supported_failure (v : Value) (var_type : string) (e : Exception) :
  In var_type Main.supported_types ->
  convert_variable v var_type = inl e -> coercion_failure e.
Proof.
  intros Hin. simpl in Hin.
  destruct Hin as [<-|[<-|[<-|[<-|[<-|[]]]]]].
  - rewrite convert_number. apply float_failure.
  - rewrite convert_boolean. discriminate.
  - destruct v; try discriminate.
    rewrite convert_datetime_text. unfold Main.parse_date_value.
    destruct (parse_date s) as [[]|]; try discriminate;
      intros [= <-]; exact I.
  - destruct v; try (rewrite convert_currency_other by discriminate;
                     apply float_failure).
    rewrite convert_currency_text. apply parse_currency_failure.
  - destruct v; try (rewrite convert_percentage_plain by discriminate;
                     apply float_failure).
    destruct (PyStr.endswith s "%") eqn:Es.
    + rewrite convert_percentage_suffixed by assumption. apply float_failure.
    + rewrite convert_percentage_plain; [apply float_failure|].
      now intros s' [= <-].
Qed.

End Coercion.

(** ** The currency pattern *)

Section Matcher.
Context {A : Type}.

(** A successful [class+] starts on a character of the class. *)
Lemma plus_head (p : ascii -> bool) (cs : list ascii) (m : Re.Match)
    (k : list ascii -> Re.Match -> option A) (a : A) :
  Re.plus p cs m k = Some a -> exists c t, cs = c :: t /\ p c = true.
Proof.
  destruct cs as [|c t]; simpl; [discriminate|].
  destruct (p c) eqn:Hp; [|discriminate]. eauto.
Qed.

(** The continuation of a successful match runs on a suffix of the text. *)
Lemma run_reaches (r : Re.regex) :
  forall (cs : list ascii) (m : Re.Match)
         (k : list ascii -> Re.Match -> option A) (a : A),
    Re.run r cs m k = Some a ->
    exists cs' m', cs' `suffix_of` cs /\ k cs' m' = Some a.
Proof.
  induction r as [p|r1 IH1 r2 IH2|r IH|p|n r IH|i r IH]; intros cs m k a H.
  - destruct cs as [|c t]; simpl in H; [discriminate|].
    destruct (p c); [|discriminate].
    exists t, m. split; [apply suffix_cons_r; reflexivity|assumption].
  - simpl in H. apply IH1 in H as (cs1 & m1 & S1 & H).
    apply IH2 in H as (cs2 & m2 & S2 & H).
    exists cs2, m2. split; [etrans; eassumption|assumption].
  - simpl in H. destruct (Re.run r cs m k) eqn:Hr.
    + injection H as ->. now apply IH in Hr.
    + exists cs, m. split; [reflexivity|assumption].
  - simpl in H. revert H. induction cs as [|c t IHt]; simpl; [discriminate|].
    destruct (p c); [|discriminate].
    destruct (Re.plus p t m k) eqn:Hp.
    + intros [= ->]. destruct (IHt eq_refl) as (cs' & m' & S & H').
      exists cs', m'. split; [now apply suffix_cons_r|assumption].
    + intros H. exists t, m. split; [apply suffix_cons_r; reflexivity|assumption].
  - simpl in H. revert cs m H. induction n as [|n IHn]; intros cs m H.
    + exists cs, m. split; [reflexivity|assumption].
    + apply IH in H as (cs1 & m1 & S1 & H).
      apply IHn in H as (cs2 & m2 & S2 & H).
      exists cs2, m2. split; [etrans; eassumption|assumption].
  - simpl in H. apply IH in H as (cs1 & m1 & S1 & H). eauto.
Qed.
End Matcher.

Lemma run_Group {A} (i : nat) (r : Re.regex) (cs : list ascii) (m : Re.Match)
    (k : list ascii -> Re.Match -> option A) :
  Re.run (Re.Group i r) cs m k =
  Re.run r cs m (fun cs' m' => k cs' (<[i := Re.consumed cs cs']> m')).
Proof. reflexivity. Qed.

Lemma run_Seq {A} (r1 r2 : Re.regex) (cs : list ascii) (m : Re.Match)
    (k : list ascii -> Re.Match -> option A) :
  Re.run (Re.Seq r1 r2) cs m k = Re.run r1 cs m (fun cs' m' => Re.run r2 cs' m' k).
Proof. reflexivity. Qed.

(** The pattern matches only a text that holds a digit, a comma or a point. *)
Lemma currency_pattern_numeric (s : string) (m : Re.Match) :
  Re.match_ Main.currency_pattern s = Some m ->
  exists c, In c (PyStr.chars s) /\ numeric_char c = true.
Proof.
  unfold Re.match_, Main.currency_pattern. intros H.
  do 4 (rewrite run_Seq in H; apply run_reaches in H as (? & ? & ? & H)).
  simpl in H. apply plus_head in H as (c & t & -> & Hc).
  exists c. split; [|assumption].
  assert (Hs : (c :: t) `suffix_of` PyStr.chars s) by (repeat (etrans; [eassumption|]); reflexivity).
  destruct Hs as [pre ->]. apply in_or_app. right. now left.
Qed.

(** A match always carries the second group. *)
Lemma currency_pattern_group (s : string) (m : Re.Match) :
  Re.match_ Main.currency_pattern s = Some m -> exists g, Re.group m 2 = Some g.
Proof.
  unfold Re.match_, Main.currency_pattern. intros H.
  do 3 (rewrite run_Seq in H; apply run_reaches in H as (? & ? & _ & H)).
  rewrite run_Seq in H. apply run_reaches in H as (cs4 & m4 & _ & H).
  rewrite run_Group in H. apply run_reaches in H as (cs' & m' & _ & H).
  injection H as <-. exists (Re.consumed cs4 cs'). apply lookup_insert_eq.
Qed.

(** On a string the conversion fails with a [ValueError] only. *)
Lemma parse_currency_text_failure (s : string) (e : Exception) :
  Main.parse_currency s = inl e -> exists msg, e = ValueError msg.
Proof.
  unfold Main.parse_currency.
  destruct (Re.match_ _ _) as [m|] eqn:Hm.
  - apply currency_pattern_group in Hm as [g ->].
    simpl. destruct (PyFloat.of_string g); [discriminate|].
    intros [= <-]. eauto.
  - intros [= <-]. eauto.
Qed.

Lemma parse_currency_no_number (s : string) :
  forallb (fun c => negb (PyStr.is_digit c || PyStr.ascii_eqb c ".")) (PyStr.chars s) = true ->
  Main.parse_currency s = inl (ValueError (Invalid_currency_format s)).
Proof.
  intros H. unfold Main.parse_currency.
  destruct (Re.match_ _ _) as [m|] eqn:Hm; [exfalso|reflexivity].
  apply currency_pattern_numeric in Hm as (c & Hin & Hc).
  unfold PyStr.remove in Hin. rewrite chars_of_chars in Hin.
  apply filter_In in Hin as [Hin Hcomma].
  rewrite forallb_forall in H. specialize (H c Hin).
  unfold numeric_char in Hc.
  apply negb_true_iff in Hcomma, H.
  apply orb_false_iff in H as [Hd Hp].
  now rewrite Hd, Hcomma, Hp in Hc.
Qed.

(** ** Validation *)

Section Validation.
Import Schemas.
Variable E : NumExpr.Engine.

Implicit Types (available_vars evaluated_vars : gset string)
               (formula : Formula) (fs : list Formula) (ins : list InputVar).

Lemma elem_of_evaluated_after evaluated_vars fs (x : string) :
  x ∈ evaluated_after evaluated_vars fs <->
  x ∈ evaluated_vars \/ In x (map outputVar fs).
Proof.
  revert evaluated_vars. induction fs as [|f fs IH]; intros ev; simpl.
  - tauto.
  - unfold evaluated_after in *. simpl. rewrite IH.
    rewrite elem_of_union, elem_of_singleton. intuition congruence.
Qed.

Lemma check_inputs_resolved available_vars evaluated_vars formula ins :
  (forall input_var, In input_var ins ->
     (varName input_var ∈ available_vars) \/ (varName input_var ∈ evaluated_vars)) ->
  Main.check_inputs available_vars evaluated_vars formula ins = inr tt.
Proof.
  induction ins as [|i ins IH]; intros H; simpl; [reflexivity|].
  destruct (H i (or_introl eq_refl)) as [Ha|He].
  - rewrite (bool_decide_eq_false_2 (varName i ∉ available_vars)) by tauto.
    simpl. apply IH. intros. apply H. now right.
  - rewrite (bool_decide_eq_false_2 (varName i ∉ evaluated_vars)) by tauto.
    rewrite andb_false_r. apply IH. intros. apply H. now right.
Qed.

Lemma check_inputs_unresolved available_vars evaluated_vars formula ins (e : Exception) :
  Main.check_inputs available_vars evaluated_vars formula ins = inl e ->
  exists input_var,
    In input_var ins /\
    (varName input_var ∉ available_vars) /\ (varName input_var ∉ evaluated_vars) /\
    e = bad_request (Variable_not_available (varName input_var) (outputVar formula)).
Proof.
  induction ins as [|i ins IH]; simpl; [discriminate|].
  destruct (bool_decide (varName i ∉ available_vars)) eqn:Ha;
    destruct (bool_decide (varName i ∉ evaluated_vars)) eqn:He; simpl;
    try (intros H; apply IH in H as (iv & Hin & H); exists iv; tauto).
  intros [= <-]. exists i.
  apply bool_decide_eq_true in Ha, He. auto.
Qed.

(** The first input that is not available is the one reported. *)
Lemma check_inputs_first_unresolved available_vars evaluated_vars formula
    ins_before input_var ins_after :
  (forall i, In i ins_before ->
     (varName i ∈ available_vars) \/ (varName i ∈ evaluated_vars)) ->
  varName input_var ∉ available_vars -> varName input_var ∉ evaluated_vars ->
  Main.check_inputs available_vars evaluated_vars formula
    (ins_before ++ input_var :: ins_after)
  = inl (bad_request (Variable_not_available (varName input_var) (outputVar formula))).
Proof.
  intros Hb Ha He. induction ins_before as [|i ins IH]; simpl.
  - now rewrite !bool_decide_eq_true_2.
  - destruct (Hb i (or_introl eq_refl)) as [H|H].
    + rewrite (bool_decide_eq_false_2 (varName i ∉ available_vars)) by tauto.
      simpl. apply IH. intros. apply Hb. now right.
    + rewrite (bool_decide_eq_false_2 (varName i ∉ evaluated_vars)) by tauto.
      rewrite andb_false_r. apply IH. intros. apply Hb. now right.
Qed.

Lemma validate_loop_app available_vars evaluated_vars fs1 fs2 :
  Main.validate_loop E available_vars evaluated_vars (fs1 ++ fs2) =
  (do Main.validate_loop E available_vars evaluated_vars fs1 in
   Main.validate_loop E available_vars (evaluated_after evaluated_vars fs1) fs2).
Proof.
  revert evaluated_vars. induction fs1 as [|f fs1 IH]; intros ev.
  - reflexivity.
  - change ((f :: fs1) ++ fs2) with (f :: (fs1 ++ fs2)).
    cbn [Main.validate_loop].
    destruct (Main.check_inputs _ _ _ _); [reflexivity|].
    destruct (bool_decide _); [reflexivity|].
    cbn [bind ret]. destruct (try_except _ _); [reflexivity|].
    cbn [bind]. apply IH.
Qed.

(** The dry run binds the declared inputs, each to [1], and nothing else. *)
Lemma placeholders_lookup ins (x : string) :
  Main.placeholders ins !! x =
  if decide (x ∈ map varName ins) then Some (VInt 1) else None.
Proof.
  unfold Main.placeholders.
  assert (G : forall d : gmap string Value,
    fold_left (fun d var => <[varName var := VInt 1]> d) ins d !! x =
    if decide (x ∈ map varName ins) then Some (VInt 1) else d !! x).
  { induction ins as [|i ins IH]; intros d; simpl.
    - destruct (decide (x ∈ @nil string)) as [H|H]; [inversion H|reflexivity].
    - rewrite IH.
      destruct (decide (x ∈ map varName ins)) as [Hin|Hin].
      + rewrite decide_True by (now right). reflexivity.
      + destruct (decide (varName i = x)) as [<-|Hne].
        * rewrite lookup_insert_eq, decide_True by left. reflexivity.
        * rewrite lookup_insert_ne by assumption.
          rewrite decide_False; [reflexivity|].
          rewrite elem_of_cons. intuition congruence. }
  rewrite G. destruct (decide (x ∈ map varName ins)); [reflexivity|apply lookup_empty].
Qed.

(** A name that [local_dict] does not bind comes from the module globals
    or is not found at all. *)
Lemma getArguments_unbound (names : list string) (local_dict : gmap string Value)
    (global_dict : gset string) (args : list (string * NumExpr.Operand)) (v : string) :
  NumExpr.getArguments names local_dict global_dict = inr args ->
  In v names -> local_dict !! v = None ->
  In (v, NumExpr.from_global v) args.
Proof.
  revert args. induction names as [|n names IH]; intros args; simpl; [tauto|].
  destruct (local_dict !! n) as [w|] eqn:Hn; simpl.
  - destruct (NumExpr.getArguments names local_dict global_dict) as [|args']; simpl;
      [discriminate|].
    intros [= <-] [->|Hin] Hv; [congruence|]. right. now apply IH.
  - destruct (decide (n ∈ global_dict)); simpl; [|discriminate].
    destruct (NumExpr.getArguments names local_dict global_dict) as [|args']; simpl;
      [discriminate|].
    intros [= <-] [->|Hin] Hv; [now left|]. right. now apply IH.
Qed.

Lemma getTypes_global (args : list (string * NumExpr.Operand)) (n g : string) :
  In (n, NumExpr.from_global g) args -> exists e, NumExpr.getTypes args = inl e.
Proof.
  induction args as [|[n' [w|g']] args IH]; simpl; [tauto| |eauto].
  intros [[=]|Hin]. destruct (IH Hin) as [e ->]. simpl. eauto.
Qed.

(** An expression that loads a name outside [local_dict] is not evaluated. *)
Lemma evaluate_unbound (ex : string) (local_dict : gmap string Value)
    (global_dict : gset string) (names : list string) (v : string) :
  NumExpr.getExprNames E ex = inr names ->
  In v names -> local_dict !! v = None ->
  exists e, NumExpr.evaluate E ex local_dict global_dict = inl e.
Proof.
  intros Hn Hin Hv. unfold NumExpr.evaluate. rewrite Hn. simpl.
  destruct (NumExpr.getArguments names local_dict global_dict) as [e|args] eqn:Ha;
    simpl; [eauto|].
  destruct (getTypes_global args v v) as [e ->]; [|simpl; eauto].
  eapply getArguments_unbound; eassumption.
Qed.

(** One formula that passes the first two checks and fails the dry run. *)
Lemma validate_loop_dry_run_failure available_vars evaluated_vars formula fs
    (e : Exception) :
  Main.check_inputs available_vars evaluated_vars formula (inputs formula) = inr tt ->
  ~ In (outputVar formula) (map varName (inputs formula)) ->
  NumExpr.evaluate E (expression formula) (Main.placeholders (inputs formula))
    Main.module_globals = inl e ->
  Main.validate_loop E available_vars evaluated_vars (formula :: fs) =
  inl (bad_request (Syntax_error_in_formula (outputVar formula) (expression formula) e)).
Proof.
  intros Hc Hs He. cbn [Main.validate_loop]. rewrite Hc. cbn [bind].
  rewrite bool_decide_eq_false_2 by (now rewrite list_elem_of_In).
  cbn [bind ret]. rewrite He. reflexivity.
Qed.

Lemma validate_loop_self_reference available_vars evaluated_vars formula fs :
  Main.check_inputs available_vars evaluated_vars formula (inputs formula) = inr tt ->
  In (outputVar formula) (map varName (inputs formula)) ->
  Main.validate_loop E available_vars evaluated_vars (formula :: fs) =
  inl (bad_request (Formula_cannot_reference_itself (outputVar formula))).
Proof.
  intros Hc Hs. cbn [Main.validate_loop]. rewrite Hc. cbn [bind].
  rewrite bool_decide_eq_true_2 by (now rewrite list_elem_of_In).
  reflexivity.
Qed.

(** A formula whose expression loads an undeclared name is accepted by no
    check sequence. *)
Lemma validate_loop_undeclared available_vars evaluated_vars formula fs
    (names : list string) (v : string) :
  NumExpr.getExprNames E (expression formula) = inr names ->
  In v names ->
  ~ In v (map varName (inputs formula)) ->
  exists e, Main.validate_loop E available_vars evaluated_vars (formula :: fs) = inl e.
Proof.
  intros Hn Hin Hundeclared. cbn [Main.validate_loop].
  destruct (Main.check_inputs _ _ _ _); [eexists; reflexivity|]. cbn [bind].
  destruct (bool_decide _); [eexists; reflexivity|]. cbn [bind ret].
  destruct (evaluate_unbound (expression formula) (Main.placeholders (inputs formula))
              Main.module_globals names v Hn Hin) as [e ->].
  - rewrite placeholders_lookup. apply decide_False. now rewrite list_elem_of_In.
  - eexists; reflexivity.
Qed.

Lemma validate_formulas_cons (first : gmap string Value)
    (rest : list (gmap string Value)) fs :
  Main.validate_formulas E (first :: rest) fs = Main.validate_loop E (dom first) ∅ fs.
Proof. reflexivity. Qed.

(** Validation reaches a formula once the formulas before it are accepted,
    with their outputs recorded; a failure before it is the outcome. *)
Lemma validate_formulas_reaches (first : gmap string Value)
    (rest : list (gmap string Value)) fs1 fs2 :
  Main.validate_loop E (dom first) ∅ fs1 = inr tt ->
  Main.validate_formulas E (first :: rest) (fs1 ++ fs2) =
  Main.validate_loop E (dom first) (evaluated_after ∅ fs1) fs2.
Proof.
  intros H. now rewrite validate_formulas_cons, validate_loop_app, H.
Qed.

Lemma validate_formulas_stops (first : gmap string Value)
    (rest : list (gmap string Value)) fs1 fs2 (e : Exception) :
  Main.validate_loop E (dom first) ∅ fs1 = inl e ->
  Main.validate_formulas E (first :: rest) (fs1 ++ fs2) = inl e.
Proof.
  intros H. now rewrite validate_formulas_cons, validate_loop_app, H.
Qed.

(** The input names that the formulas before a formula make available. *)
Lemma check_inputs_resolved_before (first : gmap string Value) fs formula ins :
  (forall input_var, In input_var ins ->
     (varName input_var ∈ dom first) \/ In (varName input_var) (map outputVar fs)) ->
  Main.check_inputs (dom first) (evaluated_after ∅ fs) formula ins = inr tt.
Proof.
  intros H. apply check_inputs_resolved. intros iv Hin.
  destruct (H iv Hin) as [Hf|Ho]; [now left|right].
  apply elem_of_evaluated_after. now right.
Qed.

Lemma validate_loop_unresolved available_vars evaluated_vars formula fs
    ins_before input_var ins_after :
  inputs formula = ins_before ++ input_var :: ins_after ->
  (forall i, In i ins_before ->
     (varName i ∈ available_vars) \/ (varName i ∈ evaluated_vars)) ->
  varName input_var ∉ available_vars -> varName input_var ∉ evaluated_vars ->
  Main.validate_loop E available_vars evaluated_vars (formula :: fs) =
  inl (bad_request (Variable_not_available (varName input_var) (outputVar formula))).
Proof.
  intros Hi Hb Ha He. cbn [Main.validate_loop].
  rewrite Hi, check_inputs_first_unresolved by assumption. reflexivity.
Qed.

End Validation.

(** ** Execution *)

Section Execution.
Import Schemas.
Variable parse_date : string -> Main.ParseFailure + DateTime.
Variable E : NumExpr.Engine.

Abbreviation prepare_variables := (Main.prepare_variables parse_date).
Abbreviation run_formula := (Main.run_formula parse_date E).
Abbreviation run_formulas := (Main.run_formulas parse_date E).
Abbreviation run_items := (Main.run_items parse_date E).

Implicit Types (item local_item variables : gmap string Value)
               (results : gmap string (list Value))
               (formula : Formula) (fs : list Formula) (ins : list InputVar).

Lemma prepare_variables_app item local_item ins1 ins2 variables :
  prepare_variables item local_item (ins1 ++ ins2) variables =
  (let* vs := prepare_variables item local_item ins1 variables in
   prepare_variables item local_item ins2 vs).
Proof.
  revert variables. induction ins1 as [|i ins1 IH]; intros variables.
  - reflexivity.
  - change ((i :: ins1) ++ ins2) with (i :: (ins1 ++ ins2)).
    cbn [Main.prepare_variables].
    destruct (local_item !! varName i); [|reflexivity].
    destruct (try_except _ _); [reflexivity|]. cbn [bind]. apply IH.
Qed.

Lemma prepare_variables_absent item local_item input_var ins variables :
  local_item !! varName input_var = None ->
  prepare_variables item local_item (input_var :: ins) variables =
  inl (not_found item input_var).
Proof. intros H. cbn [Main.prepare_variables]. now rewrite H. Qed.

Lemma prepare_variables_unconvertible item local_item input_var ins variables
    (v : Value) (e : Exception) :
  local_item !! varName input_var = Some v ->
  Main.convert_variable parse_date v (varType input_var) = inl e ->
  prepare_variables item local_item (input_var :: ins) variables =
  inl (bad_request (Error_while_converting_variable e)).
Proof. intros H He. cbn [Main.prepare_variables]. now rewrite H, He. Qed.

Lemma prepare_variables_present item local_item input_var ins variables
    (v c : Value) :
  local_item !! varName input_var = Some v ->
  Main.convert_variable parse_date v (varType input_var) = inr c ->
  prepare_variables item local_item (input_var :: ins) variables =
  prepare_variables item local_item ins (<[varName input_var := c]> variables).
Proof. intros H He. cbn [Main.prepare_variables]. now rewrite H, He. Qed.

Lemma run_formulas_app item (st : gmap string Value * gmap string (list Value)) fs1 fs2 :
  run_formulas item st (fs1 ++ fs2) =
  (let* st' := run_formulas item st fs1 in run_formulas item st' fs2).
Proof.
  revert st. induction fs1 as [|f fs1 IH]; intros st.
  - reflexivity.
  - change ((f :: fs1) ++ fs2) with (f :: (fs1 ++ fs2)).
    cbn [Main.run_formulas].
    destruct (run_formula item st f); [reflexivity|]. cbn [bind]. apply IH.
Qed.

Lemma run_items_app fs (items1 items2 : list (gmap string Value)) results :
  run_items fs (items1 ++ items2) results =
  (let* results' := run_items fs items1 results in run_items fs items2 results').
Proof.
  revert results. induction items1 as [|i items1 IH]; intros results.
  - reflexivity.
  - change ((i :: items1) ++ items2) with (i :: (items1 ++ items2)).
    cbn [Main.run_items].
    destruct (run_formulas i (i, results) fs); [reflexivity|]. cbn [bind]. apply IH.
Qed.

Lemma run_formula_inputs_failure item local_item results formula (e : Exception) :
  prepare_variables item local_item (inputs formula) ∅ = inl e ->
  run_formula item (local_item, results) formula = inl e.
Proof. intros H. unfold Main.run_formula. now rewrite H. Qed.

(** The two ways the evaluation of the expression fails once the inputs
    are prepared: in [numexpr.evaluate] or in [.item()]. *)
Lemma run_formula_evaluation_failure item local_item results formula variables
    (e : Exception) :
  prepare_variables item local_item (inputs formula) ∅ = inr variables ->
  NumExpr.evaluate E (expression formula) variables Main.module_globals = inl e ->
  run_formula item (local_item, results) formula =
  inl (bad_request (Error_evaluating_expression (expression formula) e)).
Proof.
  intros Hp He. unfold Main.run_formula. rewrite Hp. cbn [bind].
  rewrite He. reflexivity.
Qed.

Lemma run_formula_item_failure item local_item results formula variables
    (result : NumExpr.ndarray) (e : Exception) :
  prepare_variables item local_item (inputs formula) ∅ = inr variables ->
  NumExpr.evaluate E (expression formula) variables Main.module_globals = inr result ->
  NumExpr.item result = inl e ->
  run_formula item (local_item, results) formula =
  inl (bad_request (Error_evaluating_expression (expression formula) e)).
Proof.
  intros Hp He Hi. unfold Main.run_formula. rewrite Hp. cbn [bind].
  rewrite He. cbn [bind]. rewrite Hi. reflexivity.
Qed.

(** What a successful step has done. *)
Lemma run_formula_success item local_item results formula local_item' results' :
  run_formula item (local_item, results) formula = inr (local_item', results') ->
  exists variables result v series,
    prepare_variables item local_item (inputs formula) ∅ = inr variables /\
    NumExpr.evaluate E (expression formula) variables Main.module_globals = inr result /\
    NumExpr.item result = inr v /\
    results !! outputVar formula = Some series /\
    local_item' = <[outputVar formula := v]> local_item /\
    results' = <[outputVar formula := series ++ [v]]> results.
Proof.
  unfold Main.run_formula.
  destruct (prepare_variables item local_item (inputs formula) ∅) as [|vars] eqn:Hp;
    [discriminate|].
  cbn [bind].
  destruct (NumExpr.evaluate E (expression formula) vars Main.module_globals)
    as [|result] eqn:He; [discriminate|].
  cbn [bind]. destruct (NumExpr.item result) as [|v] eqn:Hi; [discriminate|].
  cbn [bind]. unfold Main.append_result.
  destruct (results !! outputVar formula) as [series|] eqn:Hs; [|discriminate].
  cbn [bind ret try_except]. intros [= <- <-].
  exists vars, result, v, series. repeat split; assumption.
Qed.

(** Every failure of the execution pass is a 400 response. *)
Lemma prepare_variables_bad_request item local_item ins variables (e : Exception) :
  prepare_variables item local_item ins variables = inl e ->
  exists d, e = bad_request d.
Proof.
  revert variables. induction ins as [|i ins IH]; intros variables; [discriminate|].
  cbn [Main.prepare_variables].
  destruct (local_item !! varName i); [|intros [= <-]; eexists; reflexivity].
  destruct (Main.convert_variable parse_date v (varType i)); cbn.
  - intros [= <-]. eexists; reflexivity.
  - apply IH.
Qed.

Lemma run_formula_bad_request item st formula (e : Exception) :
  run_formula item st formula = inl e -> exists d, e = bad_request d.
Proof.
  destruct st as [local_item results]. unfold Main.run_formula.
  destruct (prepare_variables item local_item (inputs formula) ∅) eqn:Hp.
  - intros [= <-]. eapply prepare_variables_bad_request; eassumption.
  - cbn [bind]. destruct (let* result := _ in _); cbn; [|discriminate].
    intros [= <-]. eexists; reflexivity.
Qed.

Lemma run_formulas_bad_request item st fs (e : Exception) :
  run_formulas item st fs = inl e -> exists d, e = bad_request d.
Proof.
  revert st. induction fs as [|f fs IH]; intros st; [discriminate|].
  cbn [Main.run_formulas]. destruct (run_formula item st f) eqn:Hf; cbn [bind].
  - intros [= <-]. eapply run_formula_bad_request; eassumption.
  - apply IH.
Qed.

Lemma run_items_bad_request fs (items : list (gmap string Value)) results (e : Exception) :
  run_items fs items results = inl e -> exists d, e = bad_request d.
Proof.
  revert results. induction items as [|i items IH]; intros results; [discriminate|].
  cbn [Main.run_items]. destruct (run_formulas i (i, results) fs) eqn:Hf; cbn [bind].
  - intros [= <-]. eapply run_formulas_bad_request; eassumption.
  - apply IH.
Qed.

(** The endpoint once the guards and the validation are passed. *)
Lemma evaluate_formulas_validated (request : FormulaRequest) :
  data request <> [] -> formulas request <> [] ->
  Main.validate_formulas E (data request) (formulas request) = inr tt ->
  Main.evaluate_formulas parse_date E request =
  match run_items (formulas request) (data request)
          (Main.empty_results (formulas request)) with
  | inl e => inl e
  | inr results => inr (successful results)
  end.
Proof.
  intros Hd Hf Hv. unfold Main.evaluate_formulas, Main.evaluate_formulas_try.
  destruct (data request) as [|d ds] eqn:Ed; [congruence|].
  destruct (formulas request) as [|f fs] eqn:Ef; [congruence|].
  cbn [List.length Nat.eqb bind ret]. rewrite Hv. cbn [bind].
  destruct (run_items (f :: fs) (d :: ds) (Main.empty_results (f :: fs))) eqn:Hr.
  - apply run_items_bad_request in Hr as [x ->]. reflexivity.
  - reflexivity.
Qed.

(** The failure of the first record that fails is the outcome of a
    validated batch. *)
Lemma evaluate_formulas_first_failure (request : FormulaRequest)
    (items_before items_after : list (gmap string Value)) item results (e : Exception) :
  data request = items_before ++ item :: items_after ->
  Main.validate_formulas E (data request) (formulas request) = inr tt ->
  run_items (formulas request) items_before
    (Main.empty_results (formulas request)) = inr results ->
  run_formulas item (item, results) (formulas request) = inl e ->
  Main.evaluate_formulas parse_date E request = inl e.
Proof.
  intros Hd Hv Hitems Hitem.
  rewrite evaluate_formulas_validated; [| |intros Hf; rewrite Hf in Hitem; discriminate|exact Hv].
  2:{ rewrite Hd. now destruct items_before. }
  rewrite Hd at 1. rewrite run_items_app, Hitems. cbn [bind Main.run_items].
  now rewrite Hitem.
Qed.

(** The failure of the first formula that fails is the outcome of the
    record. *)
Lemma run_formulas_first_failure item st st' fs_before formula fs_after (e : Exception) :
  run_formulas item st fs_before = inr st' ->
  run_formula item st' formula = inl e ->
  run_formulas item st (fs_before ++ formula :: fs_after) = inl e.
Proof.
  intros Hb Hf. rewrite run_formulas_app, Hb. cbn [bind Main.run_formulas].
  now rewrite Hf.
Qed.

(** A response is returned only when every record has been processed. *)
Lemma evaluate_formulas_complete (request : FormulaRequest) (response : Main.Response) :
  Main.evaluate_formulas parse_date E request = inr response ->
  run_items (formulas request) (data request)
    (Main.empty_results (formulas request)) = inr (Main.results response).
Proof.
  unfold Main.evaluate_formulas, Main.evaluate_formulas_try.
  destruct (Nat.eqb (List.length (data request)) 0); [discriminate|].
  destruct (Nat.eqb (List.length (formulas request)) 0); [discriminate|].
  cbn [bind ret].
  destruct (Main.validate_formulas E (data request) (formulas request)) as [x|];
    [destruct x; discriminate|].
  cbn [bind].
  destruct (run_items (formulas request) (data request)
              (Main.empty_results (formulas request))) as [x|r];
    [destruct x; discriminate|].
  cbn. now intros [= <-].
Qed.

(** Whatever the stage that fails, the caller gets an exception. *)
Lemma evaluate_formulas_aborts (request : FormulaRequest) (e : Exception) :
  run_items (formulas request) (data request)
    (Main.empty_results (formulas request)) = inl e ->
  exists e', Main.evaluate_formulas parse_date E request = inl e'.
Proof.
  intros Hr. unfold Main.evaluate_formulas, Main.evaluate_formulas_try.
  destruct (Nat.eqb (List.length (data request)) 0); [cbn; eauto|].
  destruct (Nat.eqb (List.length (formulas request)) 0); [cbn; eauto|].
  cbn [bind ret].
  destruct (Main.validate_formulas E (data request) (formulas request)) as [x|];
    [destruct x; cbn; eauto|].
  cbn [bind]. rewrite Hr. cbn. destruct e; eauto.
Qed.

End Execution.

(** * The claims *)

(** C8. Coercion under the tag [boolean] is Python truthiness, for every
    value: a string is true exactly when it is not empty, a number exactly
    when it is not zero, a list exactly when it has an element. No text is
    special: ["false"] coerces to true, the empty string to false, and the
    number [0] to false. *)
Theorem C8_boolean_truthiness (parse_date : string -> Main.ParseFailure + DateTime) :
  (forall v, Main.convert_variable parse_date v "boolean" = inr (VBool (PyFloat.truthy v)))
  /\ (forall s, Main.convert_variable parse_date (VStr s) "boolean" = inr (VBool true)
                <-> s <> "")
  /\ (forall z, Main.convert_variable parse_date (VInt z) "boolean" = inr (VBool true)
                <-> z <> 0)
  /\ (forall f, Main.convert_variable parse_date (VFloat f) "boolean" = inr (VBool true)
                <-> forall sign, f <> S754_zero sign)
  /\ (forall l, Main.convert_variable parse_date (VList l) "boolean" = inr (VBool true)
                <-> l <> [])
  /\ Main.convert_variable parse_date (VStr "false") "boolean" = inr (VBool true)
  /\ Main.convert_variable parse_date (VStr "") "boolean" = inr (VBool false)
  /\ Main.convert_variable parse_date (VInt 0) "boolean" = inr (VBool false).
Proof.
  repeat split; try reflexivity; rewrite convert_boolean; simpl.
  - intros [= H] ->. discriminate.
  - intros H. destruct (String.eqb_spec s ""); [contradiction|reflexivity].
  - intros [= H] ->. discriminate.
  - intros H. destruct (Z.eqb_spec z 0); [contradiction|reflexivity].
  - intros [= H] sign ->. discriminate.
  - intros H. destruct f; try reflexivity. now destruct (H s).
  - intros [= H] ->. discriminate.
  - intros H. destruct l; [contradiction|reflexivity].
Qed.

Lemma C8_boolean_truthiness_witness :
  "false" <> "" /\
  Main.convert_variable IsoDate.parse (VStr "false") "boolean" = inr (VBool true).
Proof.
  assert (H : "false" <> "") by discriminate.
  split; [exact H|].
  exact (proj2 (proj1 (proj2 (C8_boolean_truthiness IsoDate.parse)) "false") H).
Defined.

(** C9. Under a type tag outside number, boolean, datetime, currency and
    percentage, the conversion of every value fails with the unsupported-type
    error, which names the tag; a failure under one of the five supported
    tags is never that error. *)
Theorem C9_unsupported_type_tag (parse_date : string -> Main.ParseFailure + DateTime)
    (value : Value) (var_type : string) :
  ~ In var_type Main.supported_types ->
  Main.convert_variable parse_date value var_type
    = inl (ValueError (Unsupported_variable_type var_type))
  /\ (forall v tag e named,
        In tag Main.supported_types ->
        Main.convert_variable parse_date v tag = inl e ->
        e <> ValueError (Unsupported_variable_type named)).
Proof.
  intros H. split; [now apply convert_unsupported|].
  intros v tag e named Hin He ->.
  exact (convert_supported_failure parse_date v tag _ Hin He).
Qed.

Lemma C9_unsupported_type_tag_witness :
  Main.convert_variable IsoDate.parse (VInt 10) "int"
    = inl (ValueError (Unsupported_variable_type "int"))
  /\ Main.convert_variable IsoDate.parse (VStr "Ten") "number"
       <> inl (ValueError (Unsupported_variable_type "int")).
Proof.
  assert (H : ~ In "int" Main.supported_types).
  { simpl. intros [H|[H|[H|[H|[H|[]]]]]]; discriminate H. }
  destruct (C9_unsupported_type_tag IsoDate.parse (VInt 10) "int" H) as [H1 H2].
  split; [exact H1|].
  intros He. refine (H2 (VStr "Ten") "number" _ "int" _ He eq_refl).
  simpl. tauto.
Defined.

(** C6 as stated fails: on ["%50%"], which ends in [%], removing the suffix
    leaves ["%50"], which is no float, whereas the code answers [50.0]. *)
Lemma C6_counterexample :
  PyStr.endswith "%50%" "%" = true
  /\ Main.convert_variable IsoDate.parse (VStr "%50%") "percentage"
       = inr (VFloat (PyFloat.of_Z 50))
  /\ Specified.percentage (VStr "%50%")
       = inl (ValueError (could_not_convert_string_to_float "%50"))
  /\ Main.convert_variable IsoDate.parse (VStr "%50%") "percentage"
       <> Specified.percentage (VStr "%50%").
Proof.
  repeat split; try (vm_compute; reflexivity). vm_compute. discriminate.
Qed.

(** C6, amended. Coercing ["50%"] under the tag [percentage] yields [50.0],
    not [0.5]. For every string ending in [%], the coercion removes every
    leading and every trailing [%] and parses what is left as a plain float,
    without dividing by 100; when [%] occurs only as the last character this
    is the string without its suffix. Every other value is parsed as a plain
    float. *)
Theorem C6_percentage_not_normalised (parse_date : string -> Main.ParseFailure + DateTime) :
  Main.convert_variable parse_date (VStr "50%") "percentage" = inr (VFloat (PyFloat.of_Z 50))
  /\ PyFloat.of_Z 50 <> PyFloat.of_scaled 1 (-1)
  /\ (forall s, PyStr.endswith s "%" = true ->
        Main.convert_variable parse_date (VStr s) "percentage"
          = PyFloat.float (VStr (PyStr.strip s "%")))
  /\ (forall t, forallb (fun c => negb (PyStr.ascii_eqb c "%")) (PyStr.chars t) = true ->
        Main.convert_variable parse_date (VStr (t ++ "%")) "percentage"
          = PyFloat.float (VStr t))
  /\ (forall v, (forall s, v = VStr s -> PyStr.endswith s "%" = false) ->
        Main.convert_variable parse_date v "percentage" = PyFloat.float v).
Proof.
  split; [|split; [|split; [|split]]].
  - rewrite convert_percentage_suffixed by reflexivity. vm_compute. reflexivity.
  - vm_compute. discriminate.
  - apply convert_percentage_suffixed.
  - intros t Ht. rewrite convert_percentage_suffixed.
    + now rewrite strip_percent_suffix.
    + unfold PyStr.endswith. rewrite chars_append, rev_app_distr. reflexivity.
  - apply convert_percentage_plain.
Qed.

Lemma C6_percentage_not_normalised_witness :
  PyStr.endswith "12.5%" "%" = true /\
  Main.convert_variable IsoDate.parse (VStr "12.5%") "percentage"
    = PyFloat.float (VStr (PyStr.strip "12.5%" "%")).
Proof.
  split; [reflexivity|].
  exact (proj1 (proj2 (proj2 (C6_percentage_not_normalised IsoDate.parse)))
           "12.5%" eq_refl).
Defined.

(** C7. Under the tag [currency], ["USD 1,234.50"] and ["$1234.50"] both
    coerce to [1234.50] (the commas are removed before the pattern is
    applied); a string without a digit or a point has no numeric portion and
    fails with the invalid-currency error, and every failure on a string is
    a [ValueError]; a value that is already a number
    is converted by [float]: a float is returned as it is, an integer as
    the float of that integer. *)
Theorem C7_currency_coercion (parse_date : string -> Main.ParseFailure + DateTime) :
  Main.convert_variable parse_date (VStr "USD 1,234.50") "currency"
    = inr (VFloat (PyFloat.of_scaled 2469 (-1)))
  /\ Main.convert_variable parse_date (VStr "$1234.50") "currency"
       = inr (VFloat (PyFloat.of_scaled 2469 (-1)))
  /\ (forall s,
        forallb (fun c => negb (PyStr.is_digit c || PyStr.ascii_eqb c "."))
          (PyStr.chars s) = true ->
        Main.convert_variable parse_date (VStr s) "currency"
          = inl (ValueError (Invalid_currency_format s)))
  /\ (forall f, Main.convert_variable parse_date (VFloat f) "currency" = inr (VFloat f))
  /\ (forall z, Main.convert_variable parse_date (VInt z) "currency" = PyFloat.float (VInt z))
  /\ Main.convert_variable parse_date (VInt 1234) "currency"
       = inr (VFloat (PyFloat.of_Z 1234)).
Proof.
  split; [|split; [|split; [|split; [|split]]]].
  - rewrite convert_currency_text. vm_compute. reflexivity.
  - rewrite convert_currency_text. vm_compute. reflexivity.
  - intros s H. rewrite convert_currency_text. now apply parse_currency_no_number.
  - intros f. now rewrite convert_currency_other.
  - intros z. now rewrite convert_currency_other.
  - rewrite convert_currency_other by discriminate. vm_compute. reflexivity.
Qed.

Lemma C7_currency_coercion_witness :
  forallb (fun c => negb (PyStr.is_digit c || PyStr.ascii_eqb c "."))
    (PyStr.chars "EUR, n/a") = true /\
  Main.convert_variable IsoDate.parse (VStr "EUR, n/a") "currency"
    = inl (ValueError (Invalid_currency_format "EUR, n/a")).
Proof.
  split; [reflexivity|].
  exact (proj1 (proj2 (proj2 (C7_currency_coercion IsoDate.parse))) "EUR, n/a" eq_refl).
Defined.

(** C3 as stated fails: a formula that lists its own output [total] among
    its inputs, over a record without a field [total], is rejected by the
    availability check, which runs first, and not as a self-reference. *)
Lemma C3_counterexample :
  In (Schemas.outputVar Sample.total_formula)
     (map Schemas.varName (Schemas.inputs Sample.total_formula))
  /\ Main.validate_formulas Arith.engine [ {[ "fieldA" := VInt 10 ]} ] [Sample.total_formula]
       = inl (bad_request (Variable_not_available "total" "total")).
Proof.
  split; [simpl; tauto|]. vm_compute. reflexivity.
Qed.

(** C3, amended. A formula whose output variable is among its own input names
    is never accepted, whatever the other formulas and the records: the
    validation of the batch fails. The failure is the self-reference error
    when the formulas before it pass validation and each of its input names
    is a field of the first record or the output of an earlier formula. When
    the formulas before it pass and some input name is neither, the failure
    is the unavailable-variable error of this formula, which names the first
    such input: the availability check runs first. When a formula before it
    fails, that failure is the outcome. *)
Theorem C3_self_reference_rejected (E : NumExpr.Engine)
    (data : list (gmap string Value)) (before after : list Schemas.Formula)
    (formula : Schemas.Formula) :
  In (Schemas.outputVar formula) (map Schemas.varName (Schemas.inputs formula)) ->
  (exists e, Main.validate_formulas E data (before ++ formula :: after) = inl e)
  /\ (forall first rest,
        data = first :: rest ->
        Main.validate_loop E (dom first) ∅ before = inr tt ->
        (forall input_var, In input_var (Schemas.inputs formula) ->
           (Schemas.varName input_var ∈ dom first)
           \/ In (Schemas.varName input_var) (map Schemas.outputVar before)) ->
        Main.validate_formulas E data (before ++ formula :: after)
          = inl (bad_request (Formula_cannot_reference_itself (Schemas.outputVar formula))))
  /\ (forall first rest ins_before input_var ins_after,
        data = first :: rest ->
        Main.validate_loop E (dom first) ∅ before = inr tt ->
        Schemas.inputs formula = ins_before ++ input_var :: ins_after ->
        (forall i, In i ins_before ->
           (Schemas.varName i ∈ dom first)
           \/ In (Schemas.varName i) (map Schemas.outputVar before)) ->
        Schemas.varName input_var ∉ dom first ->
        ~ In (Schemas.varName input_var) (map Schemas.outputVar before) ->
        Main.validate_formulas E data (before ++ formula :: after)
          = inl (bad_request (Variable_not_available (Schemas.varName input_var)
                                (Schemas.outputVar formula))))
  /\ (forall first rest e,
        data = first :: rest ->
        Main.validate_loop E (dom first) ∅ before = inl e ->
        Main.validate_formulas E data (before ++ formula :: after) = inl e).
Proof.
  intros Hself.
  split; [|split; [|split]].
  - destruct data as [|first rest]; [eexists; reflexivity|].
    destruct (Main.validate_loop E (dom first) ∅ before) as [e|[]] eqn:Hb.
    + rewrite (validate_formulas_stops E first rest before _ e Hb). eexists; reflexivity.
    + rewrite validate_formulas_reaches by assumption.
      destruct (Main.check_inputs (dom first) (evaluated_after ∅ before) formula
                  (Schemas.inputs formula)) as [e|[]] eqn:Hc.
      * cbn [Main.validate_loop]. rewrite Hc. eexists; reflexivity.
      * rewrite validate_loop_self_reference by assumption. eexists; reflexivity.
  - intros first rest -> Hb Hres.
    rewrite validate_formulas_reaches by assumption.
    apply validate_loop_self_reference; [|assumption].
    now apply check_inputs_resolved_before.
  - intros first rest ins_before input_var ins_after -> Hb Hi Hres Hfield Houtput.
    rewrite validate_formulas_reaches by assumption.
    apply validate_loop_unresolved with ins_before ins_after; try assumption.
    + intros i Hin. destruct (Hres i Hin) as [H|H]; [now left|right].
      apply elem_of_evaluated_after. now right.
    + rewrite elem_of_evaluated_after. intros [H|H]; [|tauto].
      now apply not_elem_of_empty in H.
  - intros first rest e -> Hb. now apply validate_formulas_stops.
Qed.

Lemma C3_self_reference_rejected_witness :
  Main.validate_formulas Arith.engine
    [ <["total" := VInt 5]> {[ "fieldA" := VInt 10 ]} ]
    ([Sample.result_formula] ++ Sample.total_formula :: [])
  = inl (bad_request (Formula_cannot_reference_itself "total"))
  /\ Main.validate_formulas Arith.engine
       [ {[ "fieldA" := VInt 10 ]} ]
       ([Sample.result_formula] ++ Sample.total_formula :: [Sample.doubled_formula])
     = inl (bad_request (Variable_not_available "total" "total")).
Proof.
  split.
  - refine (proj1 (proj2 (C3_self_reference_rejected Arith.engine
              [ <["total" := VInt 5]> {[ "fieldA" := VInt 10 ]} ]
              [Sample.result_formula] [] Sample.total_formula _))
            _ [] eq_refl _ _).
    + simpl. tauto.
    + vm_compute. reflexivity.
    + intros iv [<-|[<-|[]]]; left; vm_compute; reflexivity.
  - refine (proj1 (proj2 (proj2 (C3_self_reference_rejected Arith.engine
              [ {[ "fieldA" := VInt 10 ]} ]
              [Sample.result_formula] [Sample.doubled_formula] Sample.total_formula _)))
            _ [] [] (Sample.number "total") [Sample.number "fieldA"]
            eq_refl _ eq_refl _ _ _).
    + simpl. tauto.
    + vm_compute. reflexivity.
    + intros i [].
    + vm_compute. intros H. discriminate H.
    + simpl. intros [H|[]]. discriminate H.
Defined.

(** C4. The outcome of validation is a function of the formula list and of
    the key set of the first record: two batches with the same formulas whose
    first records have the same field names get the same verdict, whatever
    the values and whatever the later records. A batch whose later record
    lacks a field therefore passes validation and fails at execution. *)
Theorem C4_validation_reads_first_keys (E : NumExpr.Engine)
    (first1 first2 : gmap string Value) (rest1 rest2 : list (gmap string Value))
    (formulas : list Schemas.Formula) :
  dom first1 = dom first2 ->
  Main.validate_formulas E (first1 :: rest1) formulas
    = Main.validate_formulas E (first2 :: rest2) formulas
  /\ (Main.validate_formulas E (first1 :: rest1) formulas = inr tt
      <-> Main.validate_formulas E (first2 :: rest2) formulas = inr tt)
  /\ Main.validate_formulas Arith.engine
       (Schemas.data Sample.missing_field_request)
       (Schemas.formulas Sample.missing_field_request) = inr tt
  /\ Main.evaluate_formulas IsoDate.parse Arith.engine Sample.missing_field_request
       = inl (bad_request (Variable_not_found_in_data_item "fieldB" (VInt 2))).
Proof.
  intros Hdom.
  assert (Heq : Main.validate_formulas E (first1 :: rest1) formulas
                = Main.validate_formulas E (first2 :: rest2) formulas).
  { rewrite !validate_formulas_cons. now rewrite Hdom. }
  split; [exact Heq|]. split; [now rewrite Heq|].
  split; vm_compute; reflexivity.
Qed.

Lemma C4_validation_reads_first_keys_witness :
  Main.validate_formulas Arith.engine
    [Sample.first_record; Sample.short_record] [Sample.sum_formula]
  = Main.validate_formulas Arith.engine
      [ <["id" := VStr "x"]> (<["fieldA" := VStr "Ten"]> {[ "fieldB" := VNone ]}) ]
      [Sample.sum_formula].
Proof.
  refine (proj1 (C4_validation_reads_first_keys Arith.engine
            Sample.first_record
            (<["id" := VStr "x"]> (<["fieldA" := VStr "Ten"]> {[ "fieldB" := VNone ]}))
            [Sample.short_record] [] [Sample.sum_formula] _)).
  vm_compute. reflexivity.
Defined.

(** C10 as stated fails: the expression of each of these two formulas reads
    [fieldB], a field of the record that the formula does not declare, and
    neither is answered with the syntax-error response. The first declares
    an input that the record lacks and is rejected by the availability
    check; the second declares its own output and is rejected as a
    self-reference. Both checks run before the dry run. *)
Lemma C10_counterexample :
  (NumExpr.getExprNames Arith.engine (Schemas.expression Sample.ghost_input_formula)
     = inr ["fieldA"; "fieldB"]
   /\ ~ In "fieldB" (map Schemas.varName (Schemas.inputs Sample.ghost_input_formula))
   /\ Sample.first_record !! "fieldB" = Some (VInt 30)
   /\ Main.validate_formulas Arith.engine [Sample.first_record] [Sample.ghost_input_formula]
        = inl (bad_request (Variable_not_available "ghost" "result")))
  /\ (NumExpr.getExprNames Arith.engine (Schemas.expression Sample.undeclared_self_formula)
        = inr ["fieldA"; "fieldB"]
      /\ ~ In "fieldB" (map Schemas.varName (Schemas.inputs Sample.undeclared_self_formula))
      /\ Main.validate_formulas Arith.engine [Sample.first_record]
           [Sample.undeclared_self_formula]
           = inl (bad_request (Formula_cannot_reference_itself "fieldA"))).
Proof.
  split; [split; [|split; [|split]]|split; [|split]];
    try (vm_compute; reflexivity);
    simpl; intros [H|[]]; discriminate H.
Qed.

(** C10, amended. The dry run of validation binds exactly the input names
    that the formula declares, each to the placeholder [1], and neither the
    fields of the first record nor the outputs of earlier formulas. A formula
    whose expression loads a name that it does not declare is accepted in no
    batch. It is answered with the syntax-error response when validation
    reaches its dry run, that is when the formulas before it pass, each of
    its declared inputs is a field of the first record or the output of an
    earlier formula, and its output is not among its inputs; this also when
    the undeclared name is a field of the first record ([fieldB] below) or
    the output of an earlier formula ([result] below). Otherwise the failure
    of the earlier check is the outcome: that of a formula before it, or the
    unavailable-variable error for its first unavailable input, or the
    self-reference error. *)
Theorem C10_dry_run_binds_declared_inputs :
  (forall ins x,
     Main.placeholders ins !! x
       = if decide (x ∈ map Schemas.varName ins) then Some (VInt 1) else None)
  /\ (forall (E : NumExpr.Engine) first rest before formula after names v,
        NumExpr.getExprNames E (Schemas.expression formula) = inr names ->
        In v names ->
        ~ In v (map Schemas.varName (Schemas.inputs formula)) ->
        Main.validate_loop E (dom first) ∅ before = inr tt ->
        (forall input_var, In input_var (Schemas.inputs formula) ->
           (Schemas.varName input_var ∈ dom first)
           \/ In (Schemas.varName input_var) (map Schemas.outputVar before)) ->
        ~ In (Schemas.outputVar formula) (map Schemas.varName (Schemas.inputs formula)) ->
        exists e,
          Main.validate_formulas E (first :: rest) (before ++ formula :: after)
            = inl (bad_request (Syntax_error_in_formula (Schemas.outputVar formula)
                                  (Schemas.expression formula) e)))
  /\ (forall (E : NumExpr.Engine) data before formula after names v,
        NumExpr.getExprNames E (Schemas.expression formula) = inr names ->
        In v names ->
        ~ In v (map Schemas.varName (Schemas.inputs formula)) ->
        exists e, Main.validate_formulas E data (before ++ formula :: after) = inl e)
  /\ (forall (E : NumExpr.Engine) first rest before formula after e,
        Main.validate_loop E (dom first) ∅ before = inl e ->
        Main.validate_formulas E (first :: rest) (before ++ formula :: after) = inl e)
  /\ (forall (E : NumExpr.Engine) first rest before formula after
             ins_before input_var ins_after,
        Main.validate_loop E (dom first) ∅ before = inr tt ->
        Schemas.inputs formula = ins_before ++ input_var :: ins_after ->
        (forall i, In i ins_before ->
           (Schemas.varName i ∈ dom first)
           \/ In (Schemas.varName i) (map Schemas.outputVar before)) ->
        Schemas.varName input_var ∉ dom first ->
        ~ In (Schemas.varName input_var) (map Schemas.outputVar before) ->
        Main.validate_formulas E (first :: rest) (before ++ formula :: after)
          = inl (bad_request (Variable_not_available (Schemas.varName input_var)
                                (Schemas.outputVar formula))))
  /\ (forall (E : NumExpr.Engine) first rest before formula after,
        Main.validate_loop E (dom first) ∅ before = inr tt ->
        (forall input_var, In input_var (Schemas.inputs formula) ->
           (Schemas.varName input_var ∈ dom first)
           \/ In (Schemas.varName input_var) (map Schemas.outputVar before)) ->
        In (Schemas.outputVar formula) (map Schemas.varName (Schemas.inputs formula)) ->
        Main.validate_formulas E (first :: rest) (before ++ formula :: after)
          = inl (bad_request (Formula_cannot_reference_itself (Schemas.outputVar formula))))
  /\ Main.validate_formulas Arith.engine [Sample.first_record]
       [Sample.undeclared_field_formula]
       = inl (bad_request (Syntax_error_in_formula "result" "fieldA + fieldB"
                             (KeyError "fieldB")))
  /\ Main.validate_formulas Arith.engine [ {[ "fieldA" := VInt 10 ]} ]
       [Sample.result_formula; Sample.undeclared_output_formula]
       = inl (bad_request (Syntax_error_in_formula "doubled" "result * 2"
                             (KeyError "result"))).
Proof.
  split; [exact placeholders_lookup|].
  split; [|split; [|split; [|split; [|split; [|split; vm_compute; reflexivity]]]]].
  - intros E first rest before formula after names v Hn Hin Hundeclared Hb Hres Hself.
    destruct (evaluate_unbound E (Schemas.expression formula)
                (Main.placeholders (Schemas.inputs formula)) Main.module_globals
                names v Hn Hin) as [e He].
    { rewrite placeholders_lookup. apply decide_False.
      now rewrite list_elem_of_In. }
    exists e. rewrite validate_formulas_reaches by assumption.
    apply validate_loop_dry_run_failure; [|assumption|assumption].
    now apply check_inputs_resolved_before.
  - intros E data before formula after names v Hn Hin Hundeclared.
    destruct data as [|first rest]; [eexists; reflexivity|].
    destruct (Main.validate_loop E (dom first) ∅ before) as [e|[]] eqn:Hb.
    + rewrite (validate_formulas_stops E first rest before _ e Hb). eexists; reflexivity.
    + rewrite validate_formulas_reaches by assumption.
      now apply validate_loop_undeclared with names v.
  - intros E first rest before formula after e Hb. now apply validate_formulas_stops.
  - intros E first rest before formula after ins_before input_var ins_after
           Hb Hi Hres Hfield Houtput.
    rewrite validate_formulas_reaches by assumption.
    apply validate_loop_unresolved with ins_before ins_after; try assumption.
    + intros i Hin. destruct (Hres i Hin) as [H|H]; [now left|right].
      apply elem_of_evaluated_after. now right.
    + rewrite elem_of_evaluated_after. intros [H|H]; [|tauto].
      now apply not_elem_of_empty in H.
  - intros E first rest before formula after Hb Hres Hself.
    rewrite validate_formulas_reaches by assumption.
    apply validate_loop_self_reference; [|assumption].
    now apply check_inputs_resolved_before.
Qed.

Lemma C10_dry_run_binds_declared_inputs_witness :
  (exists e,
     Main.validate_formulas Arith.engine [Sample.first_record]
       ([Sample.result_formula] ++ Sample.undeclared_output_formula :: [])
     = inl (bad_request (Syntax_error_in_formula "doubled" "result * 2" e)))
  /\ Main.validate_formulas Arith.engine [Sample.first_record]
       ([Sample.result_formula] ++ Sample.ghost_input_formula :: [])
     = inl (bad_request (Variable_not_available "ghost" "result")).
Proof.
  split.
  - refine (proj1 (proj2 C10_dry_run_binds_declared_inputs) Arith.engine
              Sample.first_record [] [Sample.result_formula]
              Sample.undeclared_output_formula [] ["result"] "result" _ _ _ _ _ _).
    + vm_compute. reflexivity.
    + simpl. tauto.
    + simpl. intros [H|[]]. discriminate H.
    + vm_compute. reflexivity.
    + intros iv [<-|[]]. left. vm_compute. reflexivity.
    + simpl. intros [H|[]]. discriminate H.
  - refine (proj1 (proj2 (proj2 (proj2 (proj2 C10_dry_run_binds_declared_inputs))))
              Arith.engine Sample.first_record [] [Sample.result_formula]
              Sample.ghost_input_formula [] [] (Sample.number "ghost") []
              _ eq_refl _ _ _).
    + vm_compute. reflexivity.
    + intros i [].
    + vm_compute. intros H. discriminate H.
    + simpl. intros [H|[]]. discriminate H.
Defined.

(** C1. For the records [{fieldA: 10}] and [{fieldA: 20}] and the single
    formula [result = fieldA + 10] with the input [fieldA : number], the
    execution succeeds and the series of [result] is [20.0; 30.0], one value
    per record in the order of the records. In general a successful step
    appends its value to the series of the output variable and writes it into
    the record's scope under that name, where a later formula of the same
    record that declares it as an input finds it; so [doubled = result * 2]
    after [result = fieldA + 10] yields [40.0] for [fieldA = 10]. *)
Theorem C1_sequential_chaining :
  Main.evaluate_formulas IsoDate.parse Arith.engine Sample.chaining_request
    = inr (successful
             {[ "result" := [VFloat (PyFloat.of_Z 20); VFloat (PyFloat.of_Z 30)] ]})
  /\ Main.evaluate_formulas IsoDate.parse Arith.engine Sample.test_valid_request
       = inr (successful
                {[ "result" := [VFloat (PyFloat.of_Z 20); VFloat (PyFloat.of_Z 30)] ]})
  /\ Main.evaluate_formulas IsoDate.parse Arith.engine Sample.chained_request
       = inr (successful
                (<[ "doubled" := [VFloat (PyFloat.of_Z 40)] ]>
                   {[ "result" := [VFloat (PyFloat.of_Z 20)] ]}))
  /\ (forall parse_date E item local_item results formula local_item' results',
        Main.run_formula parse_date E item (local_item, results) formula
          = inr (local_item', results') ->
        exists v series,
          results !! Schemas.outputVar formula = Some series
          /\ results' = <[Schemas.outputVar formula := series ++ [v]]> results
          /\ local_item' = <[Schemas.outputVar formula := v]> local_item
          /\ local_item' !! Schemas.outputVar formula = Some v
          /\ forall input_var ins variables,
               Schemas.varName input_var = Schemas.outputVar formula ->
               Main.prepare_variables parse_date item local_item' (input_var :: ins) variables
               = (let* c := try_except
                              (Main.convert_variable parse_date v (Schemas.varType input_var))
                              (fun e => raise (bad_request (Error_while_converting_variable e))) in
                  Main.prepare_variables parse_date item local_item' ins
                    (<[Schemas.varName input_var := c]> variables))).
Proof.
  split; [vm_compute; reflexivity|].
  split; [vm_compute; reflexivity|].
  split; [vm_compute; reflexivity|].
  intros parse_date E item local_item results formula local_item' results' H.
  apply run_formula_success in H
    as (variables & result & v & series & _ & _ & _ & Hs & -> & ->).
  exists v, series. repeat split; try assumption.
  - apply lookup_insert_eq.
  - intros input_var ins vars Hname. cbn [Main.prepare_variables].
    rewrite Hname, lookup_insert_eq. reflexivity.
Qed.

Lemma C1_sequential_chaining_witness :
  exists v series,
    Main.empty_results [Sample.result_formula; Sample.doubled_formula] !! "result" = Some series
    /\ <["result" := v]> ({[ "fieldA" := VInt 10 ]} : gmap string Value) !! "result" = Some v.
Proof.
  destruct (proj2 (proj2 (proj2 C1_sequential_chaining)) IsoDate.parse Arith.engine
              {[ "fieldA" := VInt 10 ]} {[ "fieldA" := VInt 10 ]}
              (Main.empty_results [Sample.result_formula; Sample.doubled_formula])
              Sample.result_formula
              (<["result" := VFloat (PyFloat.of_Z 20)]> {[ "fieldA" := VInt 10 ]})
              (<["result" := [VFloat (PyFloat.of_Z 20)]]>
                 (Main.empty_results [Sample.result_formula; Sample.doubled_formula])))
    as (v & series & Hs & _ & -> & Hv & _).
  - vm_compute. reflexivity.
  - exists v, series. split; assumption.
Defined.

(** C2 as stated fails: the second record of this batch lacks [fieldA], which
    the formula requires, and the execution aborts on the first record with
    the conversion error, not with the missing-field error. *)
Lemma C2_counterexample :
  (exists item formula input_var,
     In item (Schemas.data Sample.text_then_missing_request)
     /\ In formula (Schemas.formulas Sample.text_then_missing_request)
     /\ In input_var (Schemas.inputs formula)
     /\ item !! Schemas.varName input_var = None)
  /\ Main.evaluate_formulas IsoDate.parse Arith.engine Sample.text_then_missing_request
       = inl (bad_request (Error_while_converting_variable
                             (ValueError (could_not_convert_string_to_float "Ten")))).
Proof.
  split; [|vm_compute; reflexivity].
  exists {[ "id" := VInt 2 ]}, Sample.result_formula, (Sample.number "fieldA").
  repeat split; simpl; auto.
Qed.

(** C2, amended. A failure of the execution on any record aborts the whole
    batch: the caller receives an exception and no result set, also for the
    records that were processed before; a response is returned only when
    every record has been processed. The exception of a batch that passes
    validation is the failure of the first record that fails, which is that
    of its first formula that fails. When the first failure, in the order of
    the records, of the formulas and of the inputs, is an input name absent
    from the record's scope (its fields and the outputs computed so far),
    the exception is the missing-field error, which names the variable and
    the [id] of the record, or ["unknown"] when the record has none. When it
    is an input that is present and cannot be coerced, the exception is the
    conversion error with the cause of the coercion; when the inputs of the
    formula are prepared and the evaluation of its expression fails, in
    [numexpr.evaluate] or in [.item()], it is the evaluation error with the
    expression and the cause. *)
Theorem C2_fail_fast_missing_field
    (parse_date : string -> Main.ParseFailure + DateTime) (E : NumExpr.Engine)
    (request : Schemas.FormulaRequest) :
  (forall items_before item items_after results_before e,
     Schemas.data request = items_before ++ item :: items_after ->
     Main.run_items parse_date E (Schemas.formulas request) items_before
       (Main.empty_results (Schemas.formulas request)) = inr results_before ->
     Main.run_formulas parse_date E item (item, results_before)
       (Schemas.formulas request) = inl e ->
     exists e', Main.evaluate_formulas parse_date E request = inl e')
  /\ (forall response,
        Main.evaluate_formulas parse_date E request = inr response ->
        Main.run_items parse_date E (Schemas.formulas request) (Schemas.data request)
          (Main.empty_results (Schemas.formulas request)) = inr (Main.results response))
  /\ (forall items_before item items_after fs_before formula fs_after
             ins_before input_var ins_after results_before st variables,
        Schemas.data request = items_before ++ item :: items_after ->
        Schemas.formulas request = fs_before ++ formula :: fs_after ->
        Schemas.inputs formula = ins_before ++ input_var :: ins_after ->
        Main.validate_formulas E (Schemas.data request) (Schemas.formulas request) = inr tt ->
        Main.run_items parse_date E (Schemas.formulas request) items_before
          (Main.empty_results (Schemas.formulas request)) = inr results_before ->
        Main.run_formulas parse_date E item (item, results_before) fs_before = inr st ->
        Main.prepare_variables parse_date item (fst st) ins_before ∅ = inr variables ->
        fst st !! Schemas.varName input_var = None ->
        Main.evaluate_formulas parse_date E request
          = inl (bad_request (Variable_not_found_in_data_item (Schemas.varName input_var)
                                (default (VStr "unknown") (item !! "id")))))
  /\ (forall items_before item items_after results_before e,
        Schemas.data request = items_before ++ item :: items_after ->
        Main.validate_formulas E (Schemas.data request) (Schemas.formulas request) = inr tt ->
        Main.run_items parse_date E (Schemas.formulas request) items_before
          (Main.empty_results (Schemas.formulas request)) = inr results_before ->
        Main.run_formulas parse_date E item (item, results_before)
          (Schemas.formulas request) = inl e ->
        Main.evaluate_formulas parse_date E request = inl e)
  /\ (forall items_before item items_after fs_before formula fs_after
             results_before st e,
        Schemas.data request = items_before ++ item :: items_after ->
        Schemas.formulas request = fs_before ++ formula :: fs_after ->
        Main.validate_formulas E (Schemas.data request) (Schemas.formulas request) = inr tt ->
        Main.run_items parse_date E (Schemas.formulas request) items_before
          (Main.empty_results (Schemas.formulas request)) = inr results_before ->
        Main.run_formulas parse_date E item (item, results_before) fs_before = inr st ->
        Main.run_formula parse_date E item st formula = inl e ->
        Main.evaluate_formulas parse_date E request = inl e)
  /\ (forall items_before item items_after fs_before formula fs_after
             ins_before input_var ins_after results_before st variables v cause,
        Schemas.data request = items_before ++ item :: items_after ->
        Schemas.formulas request = fs_before ++ formula :: fs_after ->
        Schemas.inputs formula = ins_before ++ input_var :: ins_after ->
        Main.validate_formulas E (Schemas.data request) (Schemas.formulas request) = inr tt ->
        Main.run_items parse_date E (Schemas.formulas request) items_before
          (Main.empty_results (Schemas.formulas request)) = inr results_before ->
        Main.run_formulas parse_date E item (item, results_before) fs_before = inr st ->
        Main.prepare_variables parse_date item (fst st) ins_before ∅ = inr variables ->
        fst st !! Schemas.varName input_var = Some v ->
        Main.convert_variable parse_date v (Schemas.varType input_var) = inl cause ->
        Main.evaluate_formulas parse_date E request
          = inl (bad_request (Error_while_converting_variable cause)))
  /\ (forall items_before item items_after fs_before formula fs_after
             results_before st variables cause,
        Schemas.data request = items_before ++ item :: items_after ->
        Schemas.formulas request = fs_before ++ formula :: fs_after ->
        Main.validate_formulas E (Schemas.data request) (Schemas.formulas request) = inr tt ->
        Main.run_items parse_date E (Schemas.formulas request) items_before
          (Main.empty_results (Schemas.formulas request)) = inr results_before ->
        Main.run_formulas parse_date E item (item, results_before) fs_before = inr st ->
        Main.prepare_variables parse_date item (fst st) (Schemas.inputs formula) ∅
          = inr variables ->
        NumExpr.evaluate E (Schemas.expression formula) variables Main.module_globals
          = inl cause ->
        Main.evaluate_formulas parse_date E request
          = inl (bad_request (Error_evaluating_expression (Schemas.expression formula) cause)))
  /\ (forall items_before item items_after fs_before formula fs_after
             results_before st variables result cause,
        Schemas.data request = items_before ++ item :: items_after ->
        Schemas.formulas request = fs_before ++ formula :: fs_after ->
        Main.validate_formulas E (Schemas.data request) (Schemas.formulas request) = inr tt ->
        Main.run_items parse_date E (Schemas.formulas request) items_before
          (Main.empty_results (Schemas.formulas request)) = inr results_before ->
        Main.run_formulas parse_date E item (item, results_before) fs_before = inr st ->
        Main.prepare_variables parse_date item (fst st) (Schemas.inputs formula) ∅
          = inr variables ->
        NumExpr.evaluate E (Schemas.expression formula) variables Main.module_globals
          = inr result ->
        NumExpr.item result = inl cause ->
        Main.evaluate_formulas parse_date E request
          = inl (bad_request (Error_evaluating_expression (Schemas.expression formula) cause))).
Proof.
  assert (At_formula : forall items_before item items_after fs_before formula fs_after
                              results_before st e,
    Schemas.data request = items_before ++ item :: items_after ->
    Schemas.formulas request = fs_before ++ formula :: fs_after ->
    Main.validate_formulas E (Schemas.data request) (Schemas.formulas request) = inr tt ->
    Main.run_items parse_date E (Schemas.formulas request) items_before
      (Main.empty_results (Schemas.formulas request)) = inr results_before ->
    Main.run_formulas parse_date E item (item, results_before) fs_before = inr st ->
    Main.run_formula parse_date E item st formula = inl e ->
    Main.evaluate_formulas parse_date E request = inl e).
  { intros items_before item items_after fs_before formula fs_after results_before st e
           Hd Hf Hv Hitems Hfs Hformula.
    apply evaluate_formulas_first_failure
      with items_before items_after item results_before; try assumption.
    rewrite Hf. now apply run_formulas_first_failure with st. }
  split; [|split; [apply evaluate_formulas_complete|]].
  { intros items_before item items_after results_before e Hd Hitems Hitem.
    apply evaluate_formulas_aborts with e.
    rewrite Hd, run_items_app, Hitems. cbn [bind Main.run_items].
    now rewrite Hitem. }
  split; [|split; [|split; [exact At_formula|split; [|split]]]].
  - intros items_before item items_after fs_before formula fs_after
           ins_before input_var ins_after results_before [local_item results] variables
           Hd Hf Hi Hv Hitems Hfs Hins Habsent.
    simpl in Hins, Habsent.
    apply At_formula with items_before item items_after fs_before formula fs_after
                          results_before (local_item, results); try assumption.
    apply run_formula_inputs_failure.
    rewrite Hi, prepare_variables_app, Hins. cbn [bind].
    now apply prepare_variables_absent.
  - intros items_before item items_after results_before e Hd Hv Hitems Hitem.
    now apply evaluate_formulas_first_failure
      with items_before items_after item results_before.
  - intros items_before item items_after fs_before formula fs_after
           ins_before input_var ins_after results_before [local_item results] variables
           v cause Hd Hf Hi Hv Hitems Hfs Hins Hpresent Hcause.
    simpl in Hins, Hpresent.
    apply At_formula with items_before item items_after fs_before formula fs_after
                          results_before (local_item, results); try assumption.
    apply run_formula_inputs_failure.
    rewrite Hi, prepare_variables_app, Hins. cbn [bind].
    now apply prepare_variables_unconvertible with v.
  - intros items_before item items_after fs_before formula fs_after
           results_before [local_item results] variables cause
           Hd Hf Hv Hitems Hfs Hins Hcause.
    simpl in Hins.
    apply At_formula with items_before item items_after fs_before formula fs_after
                          results_before (local_item, results); try assumption.
    now apply run_formula_evaluation_failure with variables.
  - intros items_before item items_after fs_before formula fs_after
           results_before [local_item results] variables result cause
           Hd Hf Hv Hitems Hfs Hins Hresult Hcause.
    simpl in Hins.
    apply At_formula with items_before item items_after fs_before formula fs_after
                          results_before (local_item, results); try assumption.
    now apply run_formula_item_failure with variables result.
Qed.

Lemma C2_fail_fast_missing_field_witness :
  Main.evaluate_formulas IsoDate.parse Arith.engine Sample.missing_field_request
  = inl (bad_request (Variable_not_found_in_data_item "fieldB" (VInt 2)))
  /\ Main.evaluate_formulas IsoDate.parse Arith.engine Sample.text_and_missing_request
     = inl (bad_request (Error_while_converting_variable
                           (ValueError (could_not_convert_string_to_float "Ten"))))
  /\ exists cause,
       Main.evaluate_formulas IsoDate.parse Arith.engine Sample.date_request
       = inl (bad_request (Error_evaluating_expression "fieldA + 10" cause)).
Proof.
  split; [|split].
  - refine (proj1 (proj2 (proj2 (C2_fail_fast_missing_field IsoDate.parse Arith.engine
                            Sample.missing_field_request)))
              [Sample.first_record] Sample.short_record [] [] Sample.sum_formula []
              [Sample.number "fieldA"] (Sample.number "fieldB") []
              {[ "result" := [VFloat (PyFloat.of_Z 40)] ]}
              (Sample.short_record, {[ "result" := [VFloat (PyFloat.of_Z 40)] ]})
              {[ "fieldA" := VFloat (PyFloat.of_Z 20) ]}
              eq_refl eq_refl eq_refl _ _ eq_refl _ _);
      vm_compute; reflexivity.
  - refine (proj1 (proj2 (proj2 (proj2 (proj2 (proj2
              (C2_fail_fast_missing_field IsoDate.parse Arith.engine
                 Sample.text_and_missing_request))))))
              [Sample.first_record] Sample.text_record [] [] Sample.sum_formula []
              [] (Sample.number "fieldA") [Sample.number "fieldB"]
              {[ "result" := [VFloat (PyFloat.of_Z 40)] ]}
              (Sample.text_record, {[ "result" := [VFloat (PyFloat.of_Z 40)] ]})
              ∅ (VStr "Ten") (ValueError (could_not_convert_string_to_float "Ten"))
              eq_refl eq_refl eq_refl _ _ eq_refl eq_refl _ _);
      vm_compute; reflexivity.
  - eexists.
    refine (proj1 (proj2 (proj2 (proj2 (proj2 (proj2 (proj2
              (C2_fail_fast_missing_field IsoDate.parse Arith.engine
                 Sample.date_request)))))))
              [] (<["id" := VInt 7]> {[ "fieldA" := VStr "2024-02-29" ]}) [] []
              Sample.date_formula []
              (Main.empty_results [Sample.date_formula])
              (<["id" := VInt 7]> {[ "fieldA" := VStr "2024-02-29" ]},
               Main.empty_results [Sample.date_formula])
              {[ "fieldA" := VDateTime (mkDateTime 2024 2 29 0 0 0) ]} _
              eq_refl eq_refl _ eq_refl eq_refl _ _);
      vm_compute; reflexivity.
Defined.

(** C5 as stated fails: in this record [fieldA] is present and is not a
    number, [fieldB] is absent, and the formula, which declares [fieldA]
    first, fails with the conversion error. *)
Lemma C5_counterexample :
  Sample.text_record !! "fieldA" = Some (VStr "Ten")
  /\ Main.convert_variable IsoDate.parse (VStr "Ten") "number"
       = inl (ValueError (could_not_convert_string_to_float "Ten"))
  /\ Sample.text_record !! "fieldB" = None
  /\ Main.prepare_variables IsoDate.parse Sample.text_record Sample.text_record
       (Schemas.inputs Sample.sum_formula) ∅
       = inl (bad_request (Error_while_converting_variable
                             (ValueError (could_not_convert_string_to_float "Ten"))))
  /\ Main.evaluate_formulas IsoDate.parse Arith.engine Sample.text_and_missing_request
       = inl (bad_request (Error_while_converting_variable
                             (ValueError (could_not_convert_string_to_float "Ten")))).
Proof.
  repeat split; vm_compute; reflexivity.
Qed.

(** C5, amended. Within one formula and one record the inputs are taken in
    the declared order, and each input is looked up in the scope and, when
    present, coerced before the next input is looked up. The step fails at
    the first input that is absent, with the missing-field error, or that is
    present and cannot be coerced, with the conversion error: an absent input
    gives the missing-field error only when every input declared before it is
    present and coercible. *)
Theorem C5_inputs_in_declared_order
    (parse_date : string -> Main.ParseFailure + DateTime)
    (item local_item : gmap string Value)
    (ins_before : list Schemas.InputVar) (input_var : Schemas.InputVar)
    (ins_after : list Schemas.InputVar) (variables0 variables : gmap string Value) :
  Main.prepare_variables parse_date item local_item ins_before variables0 = inr variables ->
  (local_item !! Schemas.varName input_var = None ->
     Main.prepare_variables parse_date item local_item
       (ins_before ++ input_var :: ins_after) variables0
     = inl (bad_request (Variable_not_found_in_data_item (Schemas.varName input_var)
                           (default (VStr "unknown") (item !! "id")))))
  /\ (forall v e,
        local_item !! Schemas.varName input_var = Some v ->
        Main.convert_variable parse_date v (Schemas.varType input_var) = inl e ->
        Main.prepare_variables parse_date item local_item
          (ins_before ++ input_var :: ins_after) variables0
        = inl (bad_request (Error_while_converting_variable e)))
  /\ (forall v c,
        local_item !! Schemas.varName input_var = Some v ->
        Main.convert_variable parse_date v (Schemas.varType input_var) = inr c ->
        Main.prepare_variables parse_date item local_item
          (ins_before ++ input_var :: ins_after) variables0
        = Main.prepare_variables parse_date item local_item ins_after
            (<[Schemas.varName input_var := c]> variables)).
Proof.
  intros Hb. repeat split.
  - intros Ha. rewrite prepare_variables_app, Hb. cbn [bind].
    now apply prepare_variables_absent.
  - intros v e Hv He. rewrite prepare_variables_app, Hb. cbn [bind].
    now apply prepare_variables_unconvertible with v.
  - intros v c Hv Hc. rewrite prepare_variables_app, Hb. cbn [bind].
    now apply prepare_variables_present with v.
Qed.

Lemma C5_inputs_in_declared_order_witness :
  Main.prepare_variables IsoDate.parse Sample.text_record Sample.text_record
    ([] ++ Sample.number "fieldB" :: [Sample.number "fieldA"]) ∅
  = inl (bad_request (Variable_not_found_in_data_item "fieldB" (VInt 2))).
Proof.
  refine (proj1 (C5_inputs_in_declared_order IsoDate.parse Sample.text_record
                   Sample.text_record [] (Sample.number "fieldB")
                   [Sample.number "fieldA"] ∅ ∅ eq_refl) _).
  vm_compute. reflexivity.
Defined.


(** * Further properties of [apps/main.py] *)

(** ** Validation *)

Section ValidationOutcome.
Import Schemas.
Variable E : NumExpr.Engine.

Implicit Types (available_vars evaluated_vars : gset string)
               (formula : Formula) (fs : list Formula) (ins : list InputVar).

Lemma check_inputs_accepts available_vars evaluated_vars formula ins :
  Main.check_inputs available_vars evaluated_vars formula ins = inr tt <->
  (forall input_var, In input_var ins ->
     (varName input_var ∈ available_vars) \/ (varName input_var ∈ evaluated_vars)).
Proof.
  split; [|apply check_inputs_resolved].
  induction ins as [|i ins IH]; simpl; [tauto|].
  destruct (bool_decide (varName i ∉ available_vars)) eqn:Ha;
    destruct (bool_decide (varName i ∉ evaluated_vars)) eqn:He; simpl;
    try discriminate; intros H iv [<-|Hin]; try (now apply IH).
  - right. apply bool_decide_eq_false in He. now apply dec_stable.
  - left. apply bool_decide_eq_false in Ha. now apply dec_stable.
  - left. apply bool_decide_eq_false in Ha. now apply dec_stable.
Qed.

(** One formula is accepted exactly when its three checks pass and the rest
    of the list is accepted with its output added. *)
Lemma validate_loop_step available_vars evaluated_vars formula fs :
  Main.validate_loop E available_vars evaluated_vars (formula :: fs) = inr tt <->
  Main.check_inputs available_vars evaluated_vars formula (inputs formula) = inr tt
  /\ ~ In (outputVar formula) (map varName (inputs formula))
  /\ dry_run_passes E formula
  /\ Main.validate_loop E available_vars ({[outputVar formula]} ∪ evaluated_vars) fs = inr tt.
Proof.
  cbn [Main.validate_loop]. unfold dry_run_passes.
  destruct (Main.check_inputs _ _ _ _) as [e|[]]; cbn [bind];
    [split; [discriminate|intros [[=] _]]|].
  destruct (bool_decide (outputVar formula ∈ map varName (inputs formula))) eqn:Hs;
    cbn [bind ret raise].
  - apply bool_decide_eq_true in Hs. rewrite list_elem_of_In in Hs.
    split; [discriminate|]. intros (_ & Hn & _). contradiction.
  - apply bool_decide_eq_false in Hs. rewrite list_elem_of_In in Hs.
    destruct (NumExpr.evaluate E (expression formula) (Main.placeholders (inputs formula))
                Main.module_globals) as [e|a]; cbn [bind ret try_except raise].
    + split; [discriminate|]. intros (_ & _ & [a [=]] & _).
    + split; [intros H; repeat split; eauto|tauto].
Qed.

Lemma validate_loop_accepts available_vars evaluated_vars fs :
  Main.validate_loop E available_vars evaluated_vars fs = inr tt <->
  (forall before formula after,
     fs = before ++ formula :: after ->
     (forall input_var, In input_var (inputs formula) ->
        (varName input_var ∈ available_vars)
        \/ (varName input_var ∈ evaluated_after evaluated_vars before))
     /\ ~ In (outputVar formula) (map varName (inputs formula))
     /\ dry_run_passes E formula).
Proof.
  revert evaluated_vars. induction fs as [|f fs IH]; intros ev.
  - split; [|reflexivity]. intros _ before formula after H.
    now destruct before.
  - rewrite validate_loop_step, check_inputs_accepts, IH. split.
    + intros (Hc & Hs & Hd & Hrest) before formula after Hsplit.
      destruct before as [|b bs]; injection Hsplit as <- ->.
      * repeat split; assumption.
      * apply (Hrest bs formula after eq_refl).
    + intros H. destruct (H [] f fs eq_refl) as (Hc & Hs & Hd).
      split; [exact Hc|]. split; [exact Hs|]. split; [exact Hd|].
      intros before formula after ->.
      apply (H (f :: before) formula after eq_refl).
Qed.

(** Where and how the loop fails. *)
Lemma validate_loop_rejects available_vars evaluated_vars fs (e : Exception) :
  Main.validate_loop E available_vars evaluated_vars fs = inl e ->
  exists before formula after,
    fs = before ++ formula :: after
    /\ Main.validate_loop E available_vars evaluated_vars before = inr tt
    /\ ((exists input_var,
           In input_var (inputs formula)
           /\ (varName input_var ∉ available_vars)
           /\ (varName input_var ∉ evaluated_after evaluated_vars before)
           /\ e = bad_request (Variable_not_available (varName input_var) (outputVar formula)))
        \/ (In (outputVar formula) (map varName (inputs formula))
            /\ e = bad_request (Formula_cannot_reference_itself (outputVar formula)))
        \/ (exists cause,
              NumExpr.evaluate E (expression formula) (Main.placeholders (inputs formula))
                Main.module_globals = inl cause
              /\ e = bad_request (Syntax_error_in_formula (outputVar formula)
                                    (expression formula) cause))).
Proof.
  revert evaluated_vars. induction fs as [|f fs IH]; intros ev; [discriminate|].
  cbn [Main.validate_loop].
  destruct (Main.check_inputs (available_vars) ev f (inputs f)) as [x|[]] eqn:Hc;
    cbn [bind].
  { intros [= <-]. apply check_inputs_unresolved in Hc as (iv & Hin & Ha & He & ->).
    exists [], f, fs. repeat split. left. exists iv. auto. }
  destruct (bool_decide (outputVar f ∈ map varName (inputs f))) eqn:Hs;
    cbn [bind ret raise].
  { intros [= <-]. apply bool_decide_eq_true in Hs. rewrite list_elem_of_In in Hs.
    exists [], f, fs. repeat split. right. left. auto. }
  destruct (NumExpr.evaluate E (expression f) (Main.placeholders (inputs f))
              Main.module_globals) as [c|a] eqn:Hd; cbn [bind ret try_except raise].
  { intros [= <-]. exists [], f, fs. repeat split. right. right. eauto. }
  intros H. apply IH in H as (before & formula & after & -> & Hb & Hkind).
  exists (f :: before), formula, after. split; [reflexivity|]. split; [|exact Hkind].
  apply validate_loop_step. repeat split; try assumption.
  - apply bool_decide_eq_false in Hs. now rewrite list_elem_of_In in Hs.
  - exists a. exact Hd.
Qed.

Lemma validate_formulas_bad_request (data : list (gmap string Value)) fs (e : Exception) :
  data <> [] ->
  Main.validate_formulas E data fs = inl e ->
  exists d, e = bad_request d /\ validation_detail d.
Proof.
  destruct data as [|first rest]; [congruence|]. intros _.
  rewrite validate_formulas_cons. intros H.
  apply validate_loop_rejects in H
    as (before & f & after & _ & _ & [(iv & _ & _ & _ & ->)|[(_ & ->)|(c & _ & ->)]]);
    eexists; split; try reflexivity; exact I.
Qed.

(** The checks read the names of the inputs only. *)
Lemma check_inputs_names available_vars evaluated_vars formula formula' ins ins' :
  outputVar formula = outputVar formula' ->
  map varName ins = map varName ins' ->
  Main.check_inputs available_vars evaluated_vars formula ins
  = Main.check_inputs available_vars evaluated_vars formula' ins'.
Proof.
  intros Ho. revert ins'. induction ins as [|i ins IH]; intros [|i' ins'] Hn;
    try discriminate; [reflexivity|].
  injection Hn as Hi Hn. simpl. rewrite Hi, Ho. destruct (_ && _); [reflexivity|].
  now apply IH.
Qed.

Lemma placeholders_names ins ins' :
  map varName ins = map varName ins' -> Main.placeholders ins = Main.placeholders ins'.
Proof.
  intros H. apply map_eq. intros x. rewrite !placeholders_lookup. now rewrite H.
Qed.

Lemma validate_loop_names available_vars evaluated_vars fs fs' :
  Forall2 same_names fs fs' ->
  Main.validate_loop E available_vars evaluated_vars fs
  = Main.validate_loop E available_vars evaluated_vars fs'.
Proof.
  intros H. revert evaluated_vars.
  induction H as [|f f' fs fs' (Ho & He & Hn) _ IH]; intros ev; [reflexivity|].
  cbn [Main.validate_loop].
  rewrite (check_inputs_names _ _ f f' _ (inputs f') Ho Hn).
  rewrite (placeholders_names _ _ Hn), Ho, He, Hn.
  destruct (Main.check_inputs _ _ _ _); [reflexivity|]. cbn [bind].
  destruct (bool_decide _); [reflexivity|]. cbn [bind ret].
  destruct (try_except _ _); [reflexivity|]. cbn [bind]. apply IH.
Qed.

End ValidationOutcome.

(** ** The endpoint as one case analysis *)

Section Endpoint.
Import Schemas.
Variable parse_date : string -> Main.ParseFailure + DateTime.
Variable E : NumExpr.Engine.

Implicit Types (item local_item variables : gmap string Value)
               (results : gmap string (list Value))
               (formula : Formula) (fs : list Formula) (ins : list InputVar).

(** The guards, the validation and the execution, in this order; every
    exception passes the outer handlers unchanged. *)
Lemma evaluate_formulas_cases (request : FormulaRequest) :
  Main.evaluate_formulas parse_date E request =
  match data request, formulas request with
  | [], _ => inl (bad_request Empty_data)
  | _ :: _, [] => inl (bad_request Empty_formulas)
  | _ :: _, _ :: _ =>
      match Main.validate_formulas E (data request) (formulas request) with
      | inl e => inl e
      | inr _ =>
          match Main.run_items parse_date E (formulas request) (data request)
                  (Main.empty_results (formulas request)) with
          | inl e => inl e
          | inr results => inr (successful results)
          end
      end
  end.
Proof.
  destruct (data request) as [|d ds] eqn:Ed.
  { unfold Main.evaluate_formulas, Main.evaluate_formulas_try. now rewrite Ed. }
  destruct (formulas request) as [|f fs] eqn:Ef.
  { unfold Main.evaluate_formulas, Main.evaluate_formulas_try. now rewrite Ed, Ef. }
  destruct (Main.validate_formulas E (d :: ds) (f :: fs)) as [e|[]] eqn:Hv.
  - apply validate_formulas_bad_request in Hv as Hk; [|discriminate].
    destruct Hk as (x & -> & _).
    unfold Main.evaluate_formulas, Main.evaluate_formulas_try.
    rewrite Ed, Ef. cbn [List.length Nat.eqb bind ret]. now rewrite Hv.
  - rewrite <- Ed, <- Ef in *. apply evaluate_formulas_validated; try assumption.
    + now rewrite Ed.
    + now rewrite Ef.
Qed.

(** Why the inputs of a formula cannot be prepared. *)
Lemma prepare_variables_failure item local_item ins variables (e : Exception) :
  Main.prepare_variables parse_date item local_item ins variables = inl e ->
  (exists input_var,
     In input_var ins /\ local_item !! varName input_var = None
     /\ e = not_found item input_var)
  \/ (exists input_var v cause,
        In input_var ins /\ local_item !! varName input_var = Some v
        /\ Main.convert_variable parse_date v (varType input_var) = inl cause
        /\ e = bad_request (Error_while_converting_variable cause)).
Proof.
  revert variables. induction ins as [|i ins IH]; intros variables; [discriminate|].
  cbn [Main.prepare_variables].
  destruct (local_item !! varName i) as [v|] eqn:Hl.
  - destruct (Main.convert_variable parse_date v (varType i)) as [c|c] eqn:Hc;
      cbn [try_except bind raise].
    + intros [= <-]. right. exists i, v, c. simpl. auto.
    + intros H. apply IH in H as [(iv & Hin & H)|(iv & w & c' & Hin & H)].
      * left. exists iv. simpl. auto.
      * right. exists iv, w, c'. simpl. auto.
  - intros [= <-]. left. exists i. simpl. auto.
Qed.

(** Why a formula step fails: a missing input, an input that cannot be
    converted, or the evaluation of the expression. *)
Lemma run_formula_failure item local_item results formula (e : Exception) :
  Main.run_formula parse_date E item (local_item, results) formula = inl e ->
  (exists input_var,
     In input_var (inputs formula) /\ local_item !! varName input_var = None
     /\ e = not_found item input_var)
  \/ (exists input_var v cause,
        In input_var (inputs formula) /\ local_item !! varName input_var = Some v
        /\ Main.convert_variable parse_date v (varType input_var) = inl cause
        /\ e = bad_request (Error_while_converting_variable cause))
  \/ (exists cause,
        e = bad_request (Error_evaluating_expression (expression formula) cause)).
Proof.
  unfold Main.run_formula.
  destruct (Main.prepare_variables parse_date item local_item (inputs formula) ∅)
    as [x|vars] eqn:Hp; cbn [bind].
  - intros [= <-]. apply prepare_variables_failure in Hp as [H|H]; auto.
  - destruct (let* result := _ in _) as [c|]; cbn [try_except raise]; [|discriminate].
    intros [= <-]. right. right. eauto.
Qed.

Lemma series_insert results (k o : string) (l : list Value) :
  series (<[k := l]> results) o = if decide (k = o) then l else series results o.
Proof.
  unfold series. destruct (decide (k = o)) as [->|Hne].
  - now rewrite lookup_insert_eq.
  - now rewrite lookup_insert_ne.
Qed.

(** A successful step, seen from the scope and from the series. *)
Lemma run_formula_effect item local_item results formula local_item' results' :
  Main.run_formula parse_date E item (local_item, results) formula
    = inr (local_item', results') ->
  exists v,
    local_item' = <[outputVar formula := v]> local_item
    /\ dom results' = dom results
    /\ (forall o, series results' o
                  = series results o ++ (if decide (outputVar formula = o) then [v] else []))
    /\ (forall q, is_Some (q !! outputVar formula) ->
          exists q',
            Main.run_formula parse_date E item (local_item, q) formula = inr (local_item', q')
            /\ dom q' = dom q
            /\ (forall o, series q' o
                          = series q o ++ (if decide (outputVar formula = o) then [v] else []))).
Proof.
  intros H. apply run_formula_success in H
    as (vars & result & v & s & Hp & He & Hi & Hs & -> & ->).
  assert (Step : forall q sq, q !! outputVar formula = Some sq ->
    dom (<[outputVar formula := sq ++ [v]]> q) = dom q
    /\ (forall o, series (<[outputVar formula := sq ++ [v]]> q) o
                  = series q o ++ (if decide (outputVar formula = o) then [v] else []))).
  { intros q sq Hq. split.
    - rewrite dom_insert_L. apply elem_of_dom_2 in Hq.
      apply subseteq_union_1_L. now apply singleton_subseteq_l.
    - intros o. rewrite series_insert. destruct (decide _) as [<-|_].
      + unfold series. now rewrite Hq.
      + now rewrite app_nil_r. }
  exists v. split; [reflexivity|].
  destruct (Step results s Hs) as [Hd Hser]. split; [exact Hd|]. split; [exact Hser|].
  intros q [sq Hq]. exists (<[outputVar formula := sq ++ [v]]> q).
  split; [|exact (Step q sq Hq)].
  unfold Main.run_formula. rewrite Hp. cbn [bind]. rewrite He. cbn [bind].
  rewrite Hi. cbn [bind]. unfold Main.append_result. rewrite Hq. reflexivity.
Qed.

Lemma occurrences_cons (o : string) formula fs :
  occurrences o (formula :: fs)
  = ((if decide (outputVar formula = o) then 1 else 0) + occurrences o fs)%nat.
Proof.
  unfold occurrences. simpl.
  destruct (String.eqb_spec (outputVar formula) o) as [Heq|Hne].
  - now rewrite decide_True.
  - now rewrite decide_False.
Qed.

(** All the formulas on one record. *)
Lemma run_formulas_effect item fs :
  forall local_item results local_item' results',
    Main.run_formulas parse_date E item (local_item, results) fs
      = inr (local_item', results') ->
    dom local_item' = dom local_item ∪ list_to_set (map outputVar fs)
    /\ (forall k, ~ In k (map outputVar fs) -> local_item' !! k = local_item !! k)
    /\ dom results' = dom results
    /\ (forall o, List.length (series results' o)
                  = (List.length (series results o) + occurrences o fs)%nat)
    /\ (forall q, (forall formula, In formula fs -> is_Some (q !! outputVar formula)) ->
          exists q',
            Main.run_formulas parse_date E item (local_item, q) fs = inr (local_item', q')
            /\ dom q' = dom q
            /\ (forall o, exists d, series results' o = series results o ++ d
                                    /\ series q' o = series q o ++ d)).
Proof.
  induction fs as [|f fs IH]; intros li r li' r'.
  - intros [= <- <-]. split; [|split; [|split; [|split]]].
    + simpl. now rewrite union_empty_r_L.
    + reflexivity.
    + reflexivity.
    + intros o. unfold occurrences. simpl. lia.
    + intros q _. exists q. split; [reflexivity|]. split; [reflexivity|].
      intros o. exists []. now rewrite !app_nil_r.
  - cbn [Main.run_formulas].
    destruct (Main.run_formula parse_date E item (li, r) f) as [|[li1 r1]] eqn:Hf;
      [discriminate|].
    cbn [bind]. intros Hrest.
    apply run_formula_effect in Hf as (v & -> & Hd1 & Hs1 & Hq1).
    apply IH in Hrest as (Hdom & Hkeep & Hd & Hlen & Hq).
    split; [|split; [|split; [|split]]].
    + rewrite Hdom, dom_insert_L. simpl. apply set_eq. intros x.
      rewrite !elem_of_union. tauto.
    + intros k Hk. simpl in Hk. rewrite Hkeep by tauto.
      apply lookup_insert_ne. tauto.
    + now rewrite Hd.
    + intros o. rewrite Hlen, Hs1, length_app, occurrences_cons.
      destruct (decide (outputVar f = o)); simpl; lia.
    + intros q Hkeys.
      destruct (Hq1 q (Hkeys f (or_introl eq_refl))) as (q1 & Hrun1 & Hdq1 & Hsq1).
      destruct (Hq q1) as (q' & Hrun & Hdq & Hsq).
      { intros g Hg. apply elem_of_dom. rewrite Hdq1. apply elem_of_dom.
        apply Hkeys. now right. }
      exists q'. split; [now rewrite Hrun1|]. split; [now rewrite Hdq|].
      intros o. destruct (Hsq o) as (d & Hr & Hq').
      exists ((if decide (outputVar f = o) then [v] else []) ++ d).
      rewrite Hr, Hq', Hs1, Hsq1, <- !app_assoc. auto.
Qed.

(** All the records. *)
Lemma run_items_effect fs (items : list (gmap string Value)) :
  forall results results',
    Main.run_items parse_date E fs items results = inr results' ->
    dom results' = dom results
    /\ (forall o, List.length (series results' o)
                  = (List.length (series results o)
                     + occurrences o fs * List.length items)%nat)
    /\ (forall q, (forall formula, In formula fs -> is_Some (q !! outputVar formula)) ->
          exists q',
            Main.run_items parse_date E fs items q = inr q'
            /\ dom q' = dom q
            /\ (forall o, exists d, series results' o = series results o ++ d
                                    /\ series q' o = series q o ++ d)).
Proof.
  induction items as [|i items IH]; intros r r'.
  - intros [= <-]. split; [reflexivity|]. split; [intros o; simpl; lia|].
    intros q _. exists q. split; [reflexivity|]. split; [reflexivity|].
    intros o. exists []. now rewrite !app_nil_r.
  - cbn [Main.run_items].
    destruct (Main.run_formulas parse_date E i (i, r) fs) as [|[li1 r1]] eqn:Hf;
      [discriminate|].
    cbn [bind snd]. intros Hrest.
    apply run_formulas_effect in Hf as (_ & _ & Hd1 & Hl1 & Hq1).
    apply IH in Hrest as (Hd & Hlen & Hq).
    split; [now rewrite Hd|]. split.
    + intros o. rewrite Hlen, Hl1. simpl. lia.
    + intros q Hkeys.
      destruct (Hq1 q Hkeys) as (q1 & Hrun1 & Hdq1 & Hsq1).
      destruct (Hq q1) as (q' & Hrun & Hdq & Hsq).
      { intros g Hg. apply elem_of_dom. rewrite Hdq1. apply elem_of_dom.
        now apply Hkeys. }
      exists q'. split; [now rewrite Hrun1|]. split; [now rewrite Hdq|].
      intros o. destruct (Hsq1 o) as (d1 & Hr1 & Hq1').
      destruct (Hsq o) as (d & Hr & Hq').
      exists (d1 ++ d). rewrite Hr, Hq', Hr1, Hq1', <- !app_assoc. auto.
Qed.

(** [empty_results] has one empty series per output variable. *)
Lemma empty_results_lookup fs (o : string) :
  Main.empty_results fs !! o
  = if decide (o ∈ map outputVar fs) then Some [] else None.
Proof using Type.
  unfold Main.empty_results.
  assert (G : forall d : gmap string (list Value),
    fold_left (fun d formula => <[outputVar formula := []]> d) fs d !! o =
    if decide (o ∈ map outputVar fs) then Some [] else d !! o).
  { induction fs as [|f fs IH]; intros d; simpl.
    - destruct (decide (o ∈ @nil string)) as [H|H]; [inversion H|reflexivity].
    - rewrite IH.
      destruct (decide (o ∈ map outputVar fs)) as [Hin|Hin].
      + rewrite decide_True by (now right). reflexivity.
      + destruct (decide (outputVar f = o)) as [<-|Hne].
        * rewrite lookup_insert_eq, decide_True by left. reflexivity.
        * rewrite lookup_insert_ne by assumption.
          rewrite decide_False; [reflexivity|].
          rewrite elem_of_cons. intros [Heq|Hin']; [congruence|contradiction]. }
  rewrite G. destruct (decide (o ∈ map outputVar fs)); [reflexivity|apply lookup_empty].
Qed.

Lemma empty_results_dom fs :
  dom (Main.empty_results fs) = list_to_set (map outputVar fs).
Proof using Type.
  apply set_eq. intros o. rewrite elem_of_dom, empty_results_lookup, elem_of_list_to_set.
  destruct (decide (o ∈ map outputVar fs)) as [H|H].
  - split; [auto|]. intros _. eexists; reflexivity.
  - split; [intros [x [=]]|contradiction].
Qed.

Lemma empty_results_series fs (o : string) : series (Main.empty_results fs) o = [].
Proof using Type.
  unfold series. rewrite empty_results_lookup. now destruct (decide _).
Qed.

(** With the checks of validation passed and the available names in the
    scope, no lookup of an input fails. *)
Lemma run_formulas_no_missing item fs :
  forall (available_vars evaluated_vars : gset string) local_item results (e : Exception),
    Main.validate_loop E available_vars evaluated_vars fs = inr tt ->
    available_vars ⊆ dom local_item ->
    evaluated_vars ⊆ dom local_item ->
    Main.run_formulas parse_date E item (local_item, results) fs = inl e ->
    forall v id, e <> bad_request (Variable_not_found_in_data_item v id).
Proof.
  induction fs as [|f fs IH]; intros av ev li r e Hv Ha He; [discriminate|].
  apply validate_loop_step in Hv as (Hc & _ & _ & Hv).
  cbn [Main.run_formulas].
  destruct (Main.run_formula parse_date E item (li, r) f) as [x|[li1 r1]] eqn:Hf;
    cbn [bind].
  - intros [= <-] v id.
    apply run_formula_failure in Hf
      as [(iv & Hin & Hl & _)|[(iv & w & c & _ & _ & _ & ->)|(c & ->)]];
      try discriminate.
    exfalso. rewrite check_inputs_accepts in Hc.
    apply not_elem_of_dom in Hl.
    destruct (Hc iv Hin) as [Hav|Hev]; apply Hl; [now apply Ha|now apply He].
  - apply run_formula_effect in Hf as (w & -> & _).
    apply (IH av ({[outputVar f]} ∪ ev)); [assumption| |];
      rewrite dom_insert_L; intros x; rewrite !elem_of_union; intros Hx.
    + right. now apply Ha.
    + destruct Hx as [Hx|Hx]; [now left|right; now apply He].
Qed.

Lemma run_items_no_missing fs (items : list (gmap string Value)) :
  forall (available_vars : gset string) results (e : Exception),
    Main.validate_loop E available_vars ∅ fs = inr tt ->
    (forall item, In item items -> available_vars ⊆ dom item) ->
    Main.run_items parse_date E fs items results = inl e ->
    forall v id, e <> bad_request (Variable_not_found_in_data_item v id).
Proof.
  induction items as [|i items IH]; intros av r e Hv Hkeys; [discriminate|].
  cbn [Main.run_items].
  destruct (Main.run_formulas parse_date E i (i, r) fs) as [x|st] eqn:Hf; cbn [bind].
  - intros [= <-]. eapply run_formulas_no_missing; try eassumption.
    + apply Hkeys. now left.
    + apply empty_subseteq.
  - apply IH with av; [assumption|]. intros item Hin. apply Hkeys. now right.
Qed.

End Endpoint.

(** ** Where the execution fails *)

Section Failure.
Import Schemas.
Variable parse_date : string -> Main.ParseFailure + DateTime.
Variable E : NumExpr.Engine.

Lemma run_formulas_failure_split (item : gmap string Value) (fs : list Formula) :
  forall (st : gmap string Value * gmap string (list Value)) (e : Exception),
    Main.run_formulas parse_date E item st fs = inl e ->
    exists fs_before formula fs_after st',
      fs = fs_before ++ formula :: fs_after
      /\ Main.run_formulas parse_date E item st fs_before = inr st'
      /\ Main.run_formula parse_date E item st' formula = inl e.
Proof.
  induction fs as [|f fs IH]; intros st e; [discriminate|].
  cbn [Main.run_formulas].
  destruct (Main.run_formula parse_date E item st f) as [x|st1] eqn:Hf; cbn [bind].
  - intros [= <-]. exists [], f, fs, st. auto.
  - intros H. apply IH in H as (b & g & a & st' & -> & Hb & Hg).
    exists (f :: b), g, a, st'. split; [reflexivity|]. split; [|assumption].
    cbn [Main.run_formulas]. now rewrite Hf.
Qed.

Lemma run_items_failure_split (fs : list Formula) (items : list (gmap string Value)) :
  forall (results : gmap string (list Value)) (e : Exception),
    Main.run_items parse_date E fs items results = inl e ->
    exists items_before item items_after results_before,
      items = items_before ++ item :: items_after
      /\ Main.run_items parse_date E fs items_before results = inr results_before
      /\ Main.run_formulas parse_date E item (item, results_before) fs = inl e.
Proof.
  induction items as [|i items IH]; intros r e; [discriminate|].
  cbn [Main.run_items].
  destruct (Main.run_formulas parse_date E i (i, r) fs) as [x|st1] eqn:Hf; cbn [bind].
  - intros [= <-]. exists [], i, items, r. auto.
  - intros H. apply IH in H as (b & g & a & r' & -> & Hb & Hg).
    exists (i :: b), g, a, r'. split; [reflexivity|]. split; [|assumption].
    cbn [Main.run_items]. now rewrite Hf.
Qed.

Lemma run_items_execution_detail (fs : list Formula) (items : list (gmap string Value))
    (results : gmap string (list Value)) (e : Exception) :
  Main.run_items parse_date E fs items results = inl e ->
  exists d, e = bad_request d /\ execution_detail d.
Proof.
  intros H. apply run_items_failure_split in H as (_ & item & _ & r & _ & _ & H).
  apply run_formulas_failure_split in H as (_ & f & _ & [li r'] & _ & _ & H).
  apply run_formula_failure in H
    as [(iv & _ & _ & ->)|[(iv & w & c & _ & _ & _ & ->)|(c & ->)]];
    eexists; split; try reflexivity; exact I.
Qed.

End Failure.

(** ** Properties of the endpoint *)

(** X1. The two guards of the endpoint: a request without records is answered
    [Empty data] whatever its formulas, also when it has no formula either;
    a request with records and without formulas is answered [Empty formulas].
    The formulas are not validated and no expression is evaluated. *)
Theorem X1_empty_input_guards
    (parse_date : string -> Main.ParseFailure + DateTime) (E : NumExpr.Engine) :
  (forall formulas,
     Main.evaluate_formulas parse_date E (Schemas.mkFormulaRequest [] formulas)
     = inl (bad_request Empty_data))
  /\ (forall item items,
        Main.evaluate_formulas parse_date E (Schemas.mkFormulaRequest (item :: items) [])
        = inl (bad_request Empty_formulas)).
Proof. split; intros; now rewrite evaluate_formulas_cases. Qed.

(** X2. The endpoint never answers 500: every failure is a 400 response whose
    detail is one of the two guards, one of the three validation errors, or
    one of the three execution errors. *)
Theorem X2_failures_are_bad_requests
    (parse_date : string -> Main.ParseFailure + DateTime) (E : NumExpr.Engine)
    (request : Schemas.FormulaRequest) (e : Exception) :
  Main.evaluate_formulas parse_date E request = inl e ->
  exists d,
    e = HTTPException 400 d
    /\ (d = Empty_data \/ d = Empty_formulas \/ validation_detail d \/ execution_detail d).
Proof.
  rewrite evaluate_formulas_cases.
  destruct (Schemas.data request) as [|i items] eqn:Ed.
  { intros [= <-]. eexists. split; [reflexivity|]. auto. }
  destruct (Schemas.formulas request) as [|f fs] eqn:Ef.
  { intros [= <-]. eexists. split; [reflexivity|]. auto. }
  destruct (Main.validate_formulas E (i :: items) (f :: fs)) as [x|[]] eqn:Hv.
  - intros [= <-]. apply validate_formulas_bad_request in Hv as (d & -> & Hd);
      [|discriminate].
    exists d. split; [reflexivity|]. auto.
  - destruct (Main.run_items parse_date E (f :: fs) (i :: items) _) as [x|r] eqn:Hr;
      [|discriminate].
    intros [= <-]. apply run_items_execution_detail in Hr as (d & -> & Hd).
    exists d. split; [reflexivity|]. auto.
Qed.

Lemma X2_failures_are_bad_requests_witness :
  exists d,
    bad_request (Variable_not_found_in_data_item "fieldB" (VInt 2)) = HTTPException 400 d
    /\ (d = Empty_data \/ d = Empty_formulas \/ validation_detail d \/ execution_detail d).
Proof.
  refine (X2_failures_are_bad_requests IsoDate.parse Arith.engine
            Sample.missing_field_request _ _).
  vm_compute. reflexivity.
Defined.

(** X3. A formula is rejected with the unavailable-variable error as soon as
    one of its inputs is neither a field of the first record nor the output
    of a formula declared before it; the error names the first such input
    and the formula. The output of a later formula does not count. *)
Theorem X3_unresolved_variable_rejected (E : NumExpr.Engine)
    (first : gmap string Value) (rest : list (gmap string Value))
    (before after : list Schemas.Formula) (formula : Schemas.Formula)
    (ins_before ins_after : list Schemas.InputVar) (input_var : Schemas.InputVar) :
  Main.validate_formulas E (first :: rest) before = inr tt ->
  Schemas.inputs formula = ins_before ++ input_var :: ins_after ->
  (forall i, In i ins_before ->
     (Schemas.varName i ∈ dom first) \/ In (Schemas.varName i) (map Schemas.outputVar before)) ->
  Schemas.varName input_var ∉ dom first ->
  ~ In (Schemas.varName input_var) (map Schemas.outputVar before) ->
  Main.validate_formulas E (first :: rest) (before ++ formula :: after)
  = inl (bad_request (Variable_not_available (Schemas.varName input_var)
                        (Schemas.outputVar formula))).
Proof.
  intros Hb Hi Hres Ha Ho.
  rewrite validate_formulas_cons in *. rewrite validate_loop_app, Hb. cbn [bind].
  cbn [Main.validate_loop]. rewrite Hi.
  rewrite check_inputs_first_unresolved; [reflexivity| |assumption|].
  - intros i Hin. destruct (Hres i Hin) as [H|H]; [now left|right].
    apply elem_of_evaluated_after. now right.
  - rewrite elem_of_evaluated_after. intros [H|H]; [inversion H|contradiction].
Qed.

Lemma X3_unresolved_variable_rejected_witness :
  Main.validate_formulas Arith.engine [Batch.record_10]
    ([] ++ Sample.doubled_formula :: [Sample.result_formula])
  = inl (bad_request (Variable_not_available "result" "doubled")).
Proof.
  refine (X3_unresolved_variable_rejected Arith.engine Batch.record_10 [] []
            [Sample.result_formula] Sample.doubled_formula [] []
            (Sample.number "result") eq_refl eq_refl _ _ _).
  - intros i [].
  - vm_compute. discriminate.
  - intros [].
Defined.

(** X4. Validation accepts a formula list exactly when every formula has all
    its inputs among the fields of the first record and the outputs of the
    formulas before it, does not list its own output among its inputs, and
    passes the dry run of its expression. *)
Theorem X4_validation_accepts_iff (E : NumExpr.Engine)
    (first : gmap string Value) (rest : list (gmap string Value))
    (formulas : list Schemas.Formula) :
  Main.validate_formulas E (first :: rest) formulas = inr tt <->
  (forall before formula after,
     formulas = before ++ formula :: after ->
     (forall input_var, In input_var (Schemas.inputs formula) ->
        (Schemas.varName input_var ∈ dom first)
        \/ In (Schemas.varName input_var) (map Schemas.outputVar before))
     /\ ~ In (Schemas.outputVar formula) (map Schemas.varName (Schemas.inputs formula))
     /\ dry_run_passes E formula).
Proof.
  rewrite validate_formulas_cons, validate_loop_accepts.
  split; intros H before formula after Hsplit;
    destruct (H before formula after Hsplit) as (Hin & Hs & Hd);
    (split; [|split; assumption]); intros iv Hiv;
    destruct (Hin iv Hiv) as [Ha|Hb]; try (now left); right.
  - apply elem_of_evaluated_after in Hb as [Hb|Hb]; [inversion Hb|assumption].
  - apply elem_of_evaluated_after. now right.
Qed.

Lemma X4_validation_accepts_iff_witness :
  (forall input_var, In input_var (Schemas.inputs Sample.doubled_formula) ->
     (Schemas.varName input_var ∈ dom Batch.record_10)
     \/ In (Schemas.varName input_var) (map Schemas.outputVar [Sample.result_formula]))
  /\ ~ In (Schemas.outputVar Sample.doubled_formula)
          (map Schemas.varName (Schemas.inputs Sample.doubled_formula))
  /\ dry_run_passes Arith.engine Sample.doubled_formula.
Proof.
  refine (proj1 (X4_validation_accepts_iff Arith.engine Batch.record_10 []
                   [Sample.result_formula; Sample.doubled_formula]) _
            [Sample.result_formula] Sample.doubled_formula [] eq_refl).
  vm_compute. reflexivity.
Defined.

(** X5. When validation fails, the error concerns the first formula that
    fails a check: the formulas before it are valid, and the error is the
    unavailable-variable error for one of its inputs, the self-reference
    error, or the syntax error that carries the exception of the dry run. *)
Theorem X5_validation_failure_is_located (E : NumExpr.Engine)
    (first : gmap string Value) (rest : list (gmap string Value))
    (formulas : list Schemas.Formula) (e : Exception) :
  Main.validate_formulas E (first :: rest) formulas = inl e ->
  exists before formula after,
    formulas = before ++ formula :: after
    /\ Main.validate_formulas E (first :: rest) before = inr tt
    /\ ((exists input_var,
           In input_var (Schemas.inputs formula)
           /\ (Schemas.varName input_var ∉ dom first)
           /\ ~ In (Schemas.varName input_var) (map Schemas.outputVar before)
           /\ e = bad_request (Variable_not_available (Schemas.varName input_var)
                                 (Schemas.outputVar formula)))
        \/ (In (Schemas.outputVar formula) (map Schemas.varName (Schemas.inputs formula))
            /\ e = bad_request (Formula_cannot_reference_itself (Schemas.outputVar formula)))
        \/ (exists cause,
              NumExpr.evaluate E (Schemas.expression formula)
                (Main.placeholders (Schemas.inputs formula)) Main.module_globals = inl cause
              /\ e = bad_request (Syntax_error_in_formula (Schemas.outputVar formula)
                                    (Schemas.expression formula) cause))).
Proof.
  rewrite validate_formulas_cons. intros H.
  apply validate_loop_rejects in H as (before & f & after & -> & Hb & Hk).
  exists before, f, after. split; [reflexivity|]. split; [exact Hb|].
  destruct Hk as [(iv & Hin & Ha & He & ->)|[H|H]]; [left|right; now left|right; now right].
  exists iv. repeat split; try assumption.
  intros Ho. apply He, elem_of_evaluated_after. now right.
Qed.

Lemma X5_validation_failure_is_located_witness :
  exists before formula after,
    [Sample.result_formula; Sample.undeclared_output_formula] = before ++ formula :: after
    /\ Main.validate_formulas Arith.engine [Batch.record_10] before = inr tt
    /\ ((exists input_var,
           In input_var (Schemas.inputs formula)
           /\ (Schemas.varName input_var ∉ dom Batch.record_10)
           /\ ~ In (Schemas.varName input_var) (map Schemas.outputVar before)
           /\ bad_request (Syntax_error_in_formula "doubled" "result * 2" (KeyError "result"))
              = bad_request (Variable_not_available (Schemas.varName input_var)
                               (Schemas.outputVar formula)))
        \/ (In (Schemas.outputVar formula) (map Schemas.varName (Schemas.inputs formula))
            /\ bad_request (Syntax_error_in_formula "doubled" "result * 2" (KeyError "result"))
               = bad_request (Formula_cannot_reference_itself (Schemas.outputVar formula)))
        \/ (exists cause,
              NumExpr.evaluate Arith.engine (Schemas.expression formula)
                (Main.placeholders (Schemas.inputs formula)) Main.module_globals = inl cause
              /\ bad_request (Syntax_error_in_formula "doubled" "result * 2" (KeyError "result"))
                 = bad_request (Syntax_error_in_formula (Schemas.outputVar formula)
                                  (Schemas.expression formula) cause))).
Proof.
  refine (X5_validation_failure_is_located Arith.engine Batch.record_10 []
            [Sample.result_formula; Sample.undeclared_output_formula] _ _).
  vm_compute. reflexivity.
Defined.

(** X6. Validation does not read the type tags of the inputs: two formula
    lists that agree on output names, expressions and input names get the
    same verdict, so that an unknown tag is found at execution only. *)
Theorem X6_validation_ignores_type_tags (E : NumExpr.Engine)
    (data : list (gmap string Value)) (formulas formulas' : list Schemas.Formula) :
  Forall2 same_names formulas formulas' ->
  Main.validate_formulas E data formulas = Main.validate_formulas E data formulas'.
Proof.
  intros H. destruct data as [|first rest]; [reflexivity|].
  rewrite !validate_formulas_cons. now apply validate_loop_names.
Qed.

Lemma X6_validation_ignores_type_tags_witness :
  Main.validate_formulas Arith.engine [Sample.first_record] [Sample.sum_formula]
  = Main.validate_formulas Arith.engine [Sample.first_record] [Batch.retagged_sum_formula].
Proof.
  refine (X6_validation_ignores_type_tags Arith.engine [Sample.first_record]
            [Sample.sum_formula] [Batch.retagged_sum_formula] _).
  repeat constructor.
Defined.

(** X7. A request with records and formulas whose validation fails is
    answered with the error of the validator, unchanged: no record is
    processed before. *)
Theorem X7_validation_error_is_the_response
    (parse_date : string -> Main.ParseFailure + DateTime) (E : NumExpr.Engine)
    (request : Schemas.FormulaRequest) (e : Exception) :
  Schemas.data request <> [] ->
  Schemas.formulas request <> [] ->
  Main.validate_formulas E (Schemas.data request) (Schemas.formulas request) = inl e ->
  Main.evaluate_formulas parse_date E request = inl e.
Proof.
  intros Hd Hf Hv. rewrite evaluate_formulas_cases, Hv.
  destruct (Schemas.data request); [congruence|].
  destruct (Schemas.formulas request); [congruence|]. reflexivity.
Qed.

Lemma X7_validation_error_is_the_response_witness :
  Main.evaluate_formulas IsoDate.parse Arith.engine Sample.syntax_error_request
  = inl (bad_request (Syntax_error_in_formula "result" "fieldA +"
                        (SyntaxError "invalid syntax"))).
Proof.
  refine (X7_validation_error_is_the_response IsoDate.parse Arith.engine
            Sample.syntax_error_request _ _ _ _).
  - discriminate.
  - discriminate.
  - vm_compute. reflexivity.
Defined.

Lemma evaluate_formulas_success
    (parse_date : string -> Main.ParseFailure + DateTime) (E : NumExpr.Engine)
    (request : Schemas.FormulaRequest) (response : Main.Response) :
  Main.evaluate_formulas parse_date E request = inr response ->
  Schemas.data request <> [] /\ Schemas.formulas request <> []
  /\ Main.validate_formulas E (Schemas.data request) (Schemas.formulas request) = inr tt
  /\ Main.run_items parse_date E (Schemas.formulas request) (Schemas.data request)
       (Main.empty_results (Schemas.formulas request)) = inr (Main.results response)
  /\ response = successful (Main.results response).
Proof.
  rewrite evaluate_formulas_cases.
  destruct (Schemas.data request) as [|i items]; [discriminate|].
  destruct (Schemas.formulas request) as [|f fs]; [discriminate|].
  destruct (Main.validate_formulas E (i :: items) (f :: fs)) as [|[]]; [discriminate|].
  destruct (Main.run_items parse_date E (f :: fs) (i :: items) _); [discriminate|].
  intros [= <-]. repeat split; discriminate.
Qed.

Lemma occurrences_absent (o : string) (fs : list Schemas.Formula) :
  ~ In o (map Schemas.outputVar fs) -> occurrences o fs = 0%nat.
Proof.
  induction fs as [|f fs IH]; [reflexivity|]. simpl. intros H.
  rewrite occurrences_cons, IH by tauto.
  rewrite decide_False by tauto. reflexivity.
Qed.

Lemma occurrences_once (o : string) (fs : list Schemas.Formula) :
  NoDup (map Schemas.outputVar fs) -> In o (map Schemas.outputVar fs) ->
  occurrences o fs = 1%nat.
Proof.
  induction fs as [|f fs IH]; simpl; [tauto|].
  rewrite NoDup_cons, list_elem_of_In. intros [Hn Hd] [Heq|Hin]; rewrite occurrences_cons.
  - subst o. rewrite decide_True by reflexivity. now rewrite occurrences_absent.
  - rewrite decide_False by (intros Heq; subst o; contradiction). now rewrite IH.
Qed.

(** X8. When a validated batch fails during execution, the failure is
    located: the records before the failing one were processed, and so were
    the formulas before the failing one on that record; the error is the
    missing-field error for an input absent from the scope reached, the
    conversion error of an input present in it, or the evaluation error that
    quotes the expression of the formula. *)
Theorem X8_execution_failure_is_located
    (parse_date : string -> Main.ParseFailure + DateTime) (E : NumExpr.Engine)
    (request : Schemas.FormulaRequest) (e : Exception) :
  Schemas.formulas request <> [] ->
  Main.validate_formulas E (Schemas.data request) (Schemas.formulas request) = inr tt ->
  Main.evaluate_formulas parse_date E request = inl e ->
  exists items_before item items_after results_before
         fs_before formula fs_after local_item results,
    Schemas.data request = items_before ++ item :: items_after
    /\ Schemas.formulas request = fs_before ++ formula :: fs_after
    /\ Main.run_items parse_date E (Schemas.formulas request) items_before
         (Main.empty_results (Schemas.formulas request)) = inr results_before
    /\ Main.run_formulas parse_date E item (item, results_before) fs_before
         = inr (local_item, results)
    /\ ((exists input_var,
           In input_var (Schemas.inputs formula)
           /\ local_item !! Schemas.varName input_var = None
           /\ e = not_found item input_var)
        \/ (exists input_var v cause,
              In input_var (Schemas.inputs formula)
              /\ local_item !! Schemas.varName input_var = Some v
              /\ Main.convert_variable parse_date v (Schemas.varType input_var) = inl cause
              /\ e = bad_request (Error_while_converting_variable cause))
        \/ (exists cause,
              e = bad_request (Error_evaluating_expression
                                 (Schemas.expression formula) cause))).
Proof.
  intros Hf Hv. rewrite evaluate_formulas_cases, Hv.
  destruct (Schemas.data request) as [|i items] eqn:Ed; [discriminate|].
  destruct (Schemas.formulas request) as [|f fs] eqn:Ef; [congruence|].
  destruct (Main.run_items parse_date E (f :: fs) (i :: items) _) as [x|] eqn:Hr;
    [|discriminate].
  intros [= <-].
  apply run_items_failure_split in Hr as (ib & item & ia & rb & Hsplit & Hb & Hitem).
  apply run_formulas_failure_split in Hitem as (fb & g & fa & [li r] & Hfs & Hfb & Hg).
  exists ib, item, ia, rb, fb, g, fa, li, r.
  split; [assumption|]. split; [assumption|]. split; [assumption|].
  split; [assumption|]. now apply run_formula_failure in Hg.
Qed.

Lemma X8_execution_failure_is_located_witness :
  exists items_before item items_after results_before
         fs_before formula fs_after local_item results,
    Schemas.data Sample.text_and_missing_request = items_before ++ item :: items_after
    /\ Schemas.formulas Sample.text_and_missing_request = fs_before ++ formula :: fs_after
    /\ Main.run_items IsoDate.parse Arith.engine
         (Schemas.formulas Sample.text_and_missing_request) items_before
         (Main.empty_results (Schemas.formulas Sample.text_and_missing_request))
       = inr results_before
    /\ Main.run_formulas IsoDate.parse Arith.engine item (item, results_before) fs_before
         = inr (local_item, results)
    /\ ((exists input_var,
           In input_var (Schemas.inputs formula)
           /\ local_item !! Schemas.varName input_var = None
           /\ bad_request (Error_while_converting_variable
                             (ValueError (could_not_convert_string_to_float "Ten")))
              = not_found item input_var)
        \/ (exists input_var v cause,
              In input_var (Schemas.inputs formula)
              /\ local_item !! Schemas.varName input_var = Some v
              /\ Main.convert_variable IsoDate.parse v (Schemas.varType input_var) = inl cause
              /\ bad_request (Error_while_converting_variable
                                (ValueError (could_not_convert_string_to_float "Ten")))
                 = bad_request (Error_while_converting_variable cause))
        \/ (exists cause,
              bad_request (Error_while_converting_variable
                             (ValueError (could_not_convert_string_to_float "Ten")))
              = bad_request (Error_evaluating_expression
                               (Schemas.expression formula) cause))).
Proof.
  refine (X8_execution_failure_is_located IsoDate.parse Arith.engine
            Sample.text_and_missing_request _ _ _ _).
  - discriminate.
  - vm_compute. reflexivity.
  - vm_compute. reflexivity.
Defined.

(** X9. The missing-field error needs a record that lacks a field of the
    first record: when every later record has at least the field names of
    the first one, no request is answered with it. *)
Theorem X9_no_missing_field_on_covering_records
    (parse_date : string -> Main.ParseFailure + DateTime) (E : NumExpr.Engine)
    (request : Schemas.FormulaRequest)
    (first : gmap string Value) (rest : list (gmap string Value)) :
  Schemas.data request = first :: rest ->
  (forall item, In item rest -> dom first ⊆ dom item) ->
  forall var_name id,
    Main.evaluate_formulas parse_date E request
    <> inl (bad_request (Variable_not_found_in_data_item var_name id)).
Proof.
  intros Hd Hcover v id. rewrite evaluate_formulas_cases, Hd.
  destruct (Schemas.formulas request) as [|f fs] eqn:Ef; [discriminate|].
  destruct (Main.validate_formulas E (first :: rest) (f :: fs)) as [x|[]] eqn:Hv.
  - apply validate_formulas_bad_request in Hv as (d & -> & Hk); [|discriminate].
    intros [= ->]. exact Hk.
  - destruct (Main.run_items parse_date E (f :: fs) (first :: rest) _) as [x|] eqn:Hr;
      [|discriminate].
    intros [= ->]. revert Hr. rewrite validate_formulas_cons in Hv. intros Hr.
    eapply run_items_no_missing in Hr; [now apply Hr|exact Hv|].
    intros item [<-|Hin]; [reflexivity|now apply Hcover].
Qed.

Lemma X9_no_missing_field_on_covering_records_witness :
  Main.evaluate_formulas IsoDate.parse Arith.engine Sample.test_valid_request
  <> inl (bad_request (Variable_not_found_in_data_item "fieldA" (VInt 2))).
Proof.
  refine (X9_no_missing_field_on_covering_records IsoDate.parse Arith.engine
            Sample.test_valid_request
            (<["id" := VInt 1]> {[ "fieldA" := VInt 10 ]})
            [ <["id" := VInt 2]> {[ "fieldA" := VInt 20 ]} ]
            eq_refl _ "fieldA" (VInt 2)).
  intros item [<-|[]]. apply (bool_decide_unpack _). vm_compute. exact I.
Defined.

(** X10. The keys of a returned result set are exactly the output variables
    of the formulas: no field of a record and no other name appears. *)
Theorem X10_result_keys_are_the_outputs
    (parse_date : string -> Main.ParseFailure + DateTime) (E : NumExpr.Engine)
    (request : Schemas.FormulaRequest) (response : Main.Response) :
  Main.evaluate_formulas parse_date E request = inr response ->
  dom (Main.results response)
  = list_to_set (map Schemas.outputVar (Schemas.formulas request)).
Proof.
  intros H. apply evaluate_formulas_success in H as (_ & _ & _ & Hr & _).
  apply run_items_effect in Hr as (Hd & _). rewrite Hd. apply empty_results_dom.
Qed.

Lemma X10_result_keys_are_the_outputs_witness :
  dom (<[ "doubled" := [VFloat (PyFloat.of_Z 40)] ]>
         ({[ "result" := [VFloat (PyFloat.of_Z 20)] ]} : gmap string (list Value)))
  = list_to_set (map Schemas.outputVar (Schemas.formulas Sample.chained_request)).
Proof.
  refine (X10_result_keys_are_the_outputs IsoDate.parse Arith.engine
            Sample.chained_request
            (successful (<[ "doubled" := [VFloat (PyFloat.of_Z 40)] ]>
                           {[ "result" := [VFloat (PyFloat.of_Z 20)] ]})) _).
  vm_compute. reflexivity.
Defined.

(** X11. In a returned result set the series of a name holds one value per
    record for each formula that writes that name: with pairwise distinct
    output variables every series has the length of the batch, and two
    formulas with the same output variable share one series of twice that
    length. *)
Theorem X11_series_lengths
    (parse_date : string -> Main.ParseFailure + DateTime) (E : NumExpr.Engine)
    (request : Schemas.FormulaRequest) (response : Main.Response) :
  Main.evaluate_formulas parse_date E request = inr response ->
  (forall o,
     List.length (series (Main.results response) o)
     = (occurrences o (Schemas.formulas request) * List.length (Schemas.data request))%nat)
  /\ (NoDup (map Schemas.outputVar (Schemas.formulas request)) ->
      forall formula, In formula (Schemas.formulas request) ->
        exists values,
          Main.results response !! Schemas.outputVar formula = Some values
          /\ List.length values = List.length (Schemas.data request)).
Proof.
  intros H. apply evaluate_formulas_success in H as (_ & _ & _ & Hr & _).
  apply run_items_effect in Hr as (Hd & Hlen & _).
  assert (L : forall o,
    List.length (series (Main.results response) o)
    = (occurrences o (Schemas.formulas request) * List.length (Schemas.data request))%nat).
  { intros o. now rewrite Hlen, empty_results_series. }
  split; [exact L|].
  intros Hnd f Hin.
  assert (Ho : In (Schemas.outputVar f) (map Schemas.outputVar (Schemas.formulas request)))
    by now apply in_map.
  assert (Hk : Schemas.outputVar f ∈ dom (Main.results response)).
  { rewrite Hd, empty_results_dom, elem_of_list_to_set. now apply list_elem_of_In. }
  apply elem_of_dom in Hk as [values Hv]. exists values. split; [exact Hv|].
  specialize (L (Schemas.outputVar f)). unfold series in L. rewrite Hv in L. simpl in L.
  rewrite L, occurrences_once by assumption. lia.
Qed.

Lemma X11_series_lengths_witness :
  List.length (series (Main.results
                         (successful {[ "result" := [VFloat (PyFloat.of_Z 20);
                                                     VFloat (PyFloat.of_Z 20)] ]}))
                 "result")
  = (occurrences "result" Batch.same_output * List.length [Batch.record_10])%nat.
Proof.
  refine (proj1 (X11_series_lengths IsoDate.parse Arith.engine
                   (Schemas.mkFormulaRequest [Batch.record_10] Batch.same_output)
                   (successful {[ "result" := [VFloat (PyFloat.of_Z 20);
                                               VFloat (PyFloat.of_Z 20)] ]}) _)
            "result").
  vm_compute. reflexivity.
Defined.

(** X12. Records are evaluated independently and in order: when two batches
    succeed under the same formulas, the batch made of the first followed by
    the second succeeds too, and each of its series is the series of the
    first batch followed by the series of the second. *)
Theorem X12_batches_concatenate
    (parse_date : string -> Main.ParseFailure + DateTime) (E : NumExpr.Engine)
    (items1 items2 : list (gmap string Value)) (formulas : list Schemas.Formula)
    (response1 response2 : Main.Response) :
  Main.evaluate_formulas parse_date E (Schemas.mkFormulaRequest items1 formulas)
    = inr response1 ->
  Main.evaluate_formulas parse_date E (Schemas.mkFormulaRequest items2 formulas)
    = inr response2 ->
  exists response,
    Main.evaluate_formulas parse_date E (Schemas.mkFormulaRequest (items1 ++ items2) formulas)
      = inr response
    /\ forall o, series (Main.results response) o
                 = series (Main.results response1) o ++ series (Main.results response2) o.
Proof.
  intros H1 H2.
  apply evaluate_formulas_success in H1 as (Hd1 & Hf & Hv1 & Hr1 & _).
  apply evaluate_formulas_success in H2 as (_ & _ & _ & Hr2 & _).
  cbn [Schemas.data Schemas.formulas] in *.
  destruct items1 as [|i items1]; [congruence|].
  apply run_items_effect in Hr1 as Heff1. destruct Heff1 as (Hdom1 & _ & _).
  apply run_items_effect in Hr2 as (_ & _ & Hq).
  destruct (Hq (Main.results response1)) as (q' & Hrun & _ & Hs).
  { intros g Hg. apply elem_of_dom.
    rewrite Hdom1, empty_results_dom, elem_of_list_to_set.
    apply list_elem_of_In. now apply in_map. }
  exists (successful q'). split.
  - rewrite evaluate_formulas_validated; cbn [Schemas.data Schemas.formulas].
    + rewrite run_items_app, Hr1. cbn [bind]. now rewrite Hrun.
    + discriminate.
    + assumption.
    + change ((i :: items1) ++ items2) with (i :: (items1 ++ items2)).
      now rewrite validate_formulas_cons in *.
  - intros o. destruct (Hs o) as (d & Hd2 & Hdq).
    cbn [Main.results successful].
    rewrite Hdq, Hd2, empty_results_series. reflexivity.
Qed.

Lemma X12_batches_concatenate_witness :
  exists response,
    Main.evaluate_formulas IsoDate.parse Arith.engine
      (Schemas.mkFormulaRequest ([Batch.record_10] ++ [Batch.record_20])
         [Sample.result_formula]) = inr response
    /\ forall o, series (Main.results response) o
                 = series (Main.results
                             (successful {[ "result" := [VFloat (PyFloat.of_Z 20)] ]})) o
                   ++ series (Main.results
                                (successful {[ "result" := [VFloat (PyFloat.of_Z 30)] ]})) o.
Proof.
  refine (X12_batches_concatenate IsoDate.parse Arith.engine
            [Batch.record_10] [Batch.record_20] [Sample.result_formula]
            (successful {[ "result" := [VFloat (PyFloat.of_Z 20)] ]})
            (successful {[ "result" := [VFloat (PyFloat.of_Z 30)] ]}) _ _);
    vm_compute; reflexivity.
Defined.

(** X13. The first failure decides: when a batch with at least one record
    fails, every batch that continues it with further records fails with the
    same error, whatever those records are. *)
Theorem X13_failure_of_a_prefix
    (parse_date : string -> Main.ParseFailure + DateTime) (E : NumExpr.Engine)
    (items1 items2 : list (gmap string Value)) (formulas : list Schemas.Formula)
    (e : Exception) :
  items1 <> [] ->
  Main.evaluate_formulas parse_date E (Schemas.mkFormulaRequest items1 formulas) = inl e ->
  Main.evaluate_formulas parse_date E (Schemas.mkFormulaRequest (items1 ++ items2) formulas)
  = inl e.
Proof.
  intros Hne. rewrite !evaluate_formulas_cases. cbn [Schemas.data Schemas.formulas].
  destruct items1 as [|i items1]; [congruence|].
  change ((i :: items1) ++ items2) with (i :: (items1 ++ items2)). cbv iota.
  destruct formulas as [|f fs]; [auto|].
  rewrite !validate_formulas_cons.
  destruct (Main.validate_loop E (dom i) ∅ (f :: fs)) as [|[]]; [auto|].
  change (i :: (items1 ++ items2)) with ((i :: items1) ++ items2).
  rewrite run_items_app.
  destruct (Main.run_items parse_date E (f :: fs) (i :: items1) _); [auto|discriminate].
Qed.

Lemma X13_failure_of_a_prefix_witness :
  Main.evaluate_formulas IsoDate.parse Arith.engine
    (Schemas.mkFormulaRequest
       ([Sample.first_record; Sample.short_record] ++ [Batch.record_10])
       [Sample.sum_formula])
  = inl (bad_request (Variable_not_found_in_data_item "fieldB" (VInt 2))).
Proof.
  refine (X13_failure_of_a_prefix IsoDate.parse Arith.engine
            [Sample.first_record; Sample.short_record] [Batch.record_10]
            [Sample.sum_formula] _ _ _).
  - discriminate.
  - vm_compute. reflexivity.
Defined.

(** X14. The scope of a record after its formulas holds the fields of the
    record and the output variables, and nothing else; a field whose name is
    no output variable keeps the value it had in the record. *)
Theorem X14_scope_of_a_record
    (parse_date : string -> Main.ParseFailure + DateTime) (E : NumExpr.Engine)
    (item : gmap string Value) (formulas : list Schemas.Formula)
    (results results' : gmap string (list Value)) (local_item : gmap string Value) :
  Main.run_formulas parse_date E item (item, results) formulas = inr (local_item, results') ->
  dom local_item = dom item ∪ list_to_set (map Schemas.outputVar formulas)
  /\ (forall k, ~ In k (map Schemas.outputVar formulas) -> local_item !! k = item !! k).
Proof.
  intros H. apply run_formulas_effect in H as (Hd & Hk & _). auto.
Qed.

Lemma X14_scope_of_a_record_witness :
  dom (<["doubled" := VFloat (PyFloat.of_Z 40)]>
         (<["result" := VFloat (PyFloat.of_Z 20)]> Batch.record_10))
  = dom Batch.record_10
    ∪ list_to_set (map Schemas.outputVar [Sample.result_formula; Sample.doubled_formula])
  /\ (forall k,
        ~ In k (map Schemas.outputVar [Sample.result_formula; Sample.doubled_formula]) ->
        <["doubled" := VFloat (PyFloat.of_Z 40)]>
          (<["result" := VFloat (PyFloat.of_Z 20)]> Batch.record_10) !! k
        = Batch.record_10 !! k).
Proof.
  refine (X14_scope_of_a_record IsoDate.parse Arith.engine Batch.record_10
            [Sample.result_formula; Sample.doubled_formula]
            (Main.empty_results [Sample.result_formula; Sample.doubled_formula])
            (<["doubled" := [VFloat (PyFloat.of_Z 40)]]>
               {[ "result" := [VFloat (PyFloat.of_Z 20)] ]})
            _ _).
  vm_compute. reflexivity.
Defined.

Lemma float_value (v r : Value) : PyFloat.float v = inr r -> exists f, r = VFloat f.
Proof.
  destruct v; simpl; try discriminate; try (intros [= <-]; eauto).
  - unfold PyFloat.of_int. destruct (PyFloat.of_Z z); simpl; try discriminate;
      intros [= <-]; eauto.
  - destruct (PyFloat.of_string s); [|discriminate]. intros [= <-]. eauto.
Qed.

(** X15. A value coerced under the tags [number], [percentage] or [currency]
    is a float, whatever the value was (an integer, a boolean, a text). *)
Theorem X15_numeric_tags_yield_floats
    (parse_date : string -> Main.ParseFailure + DateTime)
    (value result : Value) (var_type : string) :
  In var_type ["number"; "percentage"; "currency"] ->
  Main.convert_variable parse_date value var_type = inr result ->
  exists f, result = VFloat f.
Proof.
  intros Hin H.
  simpl in Hin. destruct Hin as [<-|[<-|[<-|[]]]].
  - rewrite convert_number in H. now apply float_value in H.
  - destruct value;
      try (rewrite convert_percentage_plain in H by discriminate;
           now apply float_value in H).
    destruct (PyStr.endswith s "%") eqn:Es.
    + rewrite convert_percentage_suffixed in H by assumption. now apply float_value in H.
    + rewrite convert_percentage_plain in H; [now apply float_value in H|].
      now intros s' [= <-].
  - destruct value;
      try (rewrite convert_currency_other in H by discriminate;
           now apply float_value in H).
    rewrite convert_currency_text in H. unfold Main.parse_currency in H.
    destruct (Re.match_ _ _) as [m|]; [|discriminate].
    destruct (Re.group m 2); now apply float_value in H.
Qed.

Lemma X15_numeric_tags_yield_floats_witness :
  exists f, VFloat (PyFloat.of_Z 1) = VFloat f.
Proof.
  refine (X15_numeric_tags_yield_floats IsoDate.parse (VBool true)
            (VFloat (PyFloat.of_Z 1)) "number" _ _).
  - simpl. tauto.
  - vm_compute. reflexivity.
Defined.

(** ** The currency pattern, in general *)

Lemma space_is_no_other_class (c : ascii) :
  PyStr.is_space c = true ->
  PyStr.is_alpha c = false /\ PyStr.ascii_eqb "$" c = false /\ numeric_char c = false.
Proof.
  destruct c as [[] [] [] [] [] [] [] []]; vm_compute; intros H;
    try discriminate H; repeat split.
Qed.

Lemma amount_is_no_other_class (c : ascii) :
  amount_char c = true ->
  PyStr.is_alpha c = false /\ PyStr.is_space c = false
  /\ PyStr.ascii_eqb "$" c = false /\ numeric_char c = true.
Proof.
  destruct c as [[] [] [] [] [] [] [] []]; vm_compute; intros H;
    try discriminate H; repeat split.
Qed.

Section Greedy.
Context {A : Type}.

(** [class+] on a run of the class that ends the text or is followed by
    another character: the whole run is taken. *)
Lemma plus_greedy (p : ascii -> bool) (ds rest : list ascii) (m : Re.Match)
    (k : list ascii -> Re.Match -> option A) (a : A) :
  ds <> [] -> forallb p ds = true ->
  match rest with [] => True | c :: _ => p c = false end ->
  k rest m = Some a ->
  Re.plus p (ds ++ rest) m k = Some a.
Proof.
  intros Hne Hall Hrest Hk. induction ds as [|d ds IH]; [congruence|].
  simpl in Hall. apply andb_prop in Hall as [Hd Hall].
  simpl. rewrite Hd. destruct ds as [|d' ds].
  - simpl. destruct rest as [|c rest]; simpl.
    + exact Hk.
    + now rewrite Hrest.
  - now rewrite IH.
Qed.

(** What a successful [class+] has taken. *)
Lemma plus_taken (p : ascii -> bool) (cs : list ascii) (m : Re.Match)
    (k : list ascii -> Re.Match -> option A) (a : A) :
  Re.plus p cs m k = Some a ->
  exists ds rest,
    cs = ds ++ rest /\ ds <> [] /\ forallb p ds = true /\ k rest m = Some a.
Proof.
  induction cs as [|c t IH]; simpl; [discriminate|].
  destruct (p c) eqn:Hp; [|discriminate].
  destruct (Re.plus p t m k) as [a'|] eqn:Ht.
  - intros [= <-]. destruct (IH eq_refl) as (ds & rest & -> & _ & Hall & Hk).
    exists (c :: ds), rest. repeat split; try assumption; try discriminate.
    simpl. now rewrite Hp.
  - intros Hk. exists [c], t. repeat split; try assumption; try discriminate.
    simpl. now rewrite Hp.
Qed.
End Greedy.

Lemma consumed_prefix (ds rest : list ascii) : Re.consumed (ds ++ rest) rest = PyStr.of_chars ds.
Proof.
  unfold Re.consumed. rewrite length_app.
  replace (List.length ds + List.length rest - List.length rest)%nat
    with (List.length ds) by lia.
  now rewrite take_app_length.
Qed.

Lemma remove_has_no_comma (s : string) (c : ascii) :
  In c (PyStr.chars (PyStr.remove s ",")) -> PyStr.ascii_eqb c "," = false.
Proof.
  unfold PyStr.remove. rewrite chars_of_chars. intros H.
  apply filter_In in H as [_ H]. now apply negb_true_iff in H.
Qed.

(** What reaches [float] in [parse_currency]. *)
Lemma parse_currency_amount (s : string) (v : Value) :
  Main.parse_currency s = inr v ->
  exists before ds rest,
    PyStr.chars (PyStr.remove s ",") = before ++ ds ++ rest
    /\ ds <> []
    /\ forallb amount_char ds = true
    /\ PyFloat.float (VStr (PyStr.of_chars ds)) = inr v.
Proof.
  unfold Main.parse_currency.
  destruct (Re.match_ Main.currency_pattern (PyStr.remove s ",")) as [m|] eqn:Hm;
    [|discriminate].
  unfold Re.match_, Main.currency_pattern in Hm.
  rewrite run_Seq in Hm. apply run_reaches in Hm as (cs1 & m1 & S1 & Hm).
  rewrite run_Seq in Hm. apply run_reaches in Hm as (cs2 & m2 & S2 & Hm).
  rewrite run_Seq in Hm. apply run_reaches in Hm as (cs3 & m3 & S3 & Hm).
  rewrite run_Seq in Hm. apply run_reaches in Hm as (cs4 & m4 & S4 & Hm).
  rewrite run_Group in Hm. cbn [Re.run] in Hm.
  apply plus_taken in Hm as (ds & rest & -> & Hne & Hall & Hk).
  injection Hk as <-. rewrite consumed_prefix.
  replace (Re.group (<[2%nat := PyStr.of_chars ds]> m4) 2)
    with (Some (PyStr.of_chars ds)) by (symmetry; apply lookup_insert_eq).
  intros Hv.
  assert (Hs : (ds ++ rest) `suffix_of` PyStr.chars (PyStr.remove s ","))
    by (repeat (etrans; [eassumption|]); reflexivity).
  destruct Hs as [before Hs]. exists before, ds, rest.
  split; [exact Hs|]. split; [exact Hne|]. split; [|exact Hv].
  apply forallb_forall. intros c Hc.
  rewrite forallb_forall in Hall. specialize (Hall c Hc).
  assert (Hcomma : PyStr.ascii_eqb c "," = false).
  { apply (remove_has_no_comma s). rewrite Hs. apply in_or_app. right.
    apply in_or_app. now left. }
  unfold amount_char. rewrite Hcomma, orb_false_r in Hall. exact Hall.
Qed.

(** X17. When the currency coercion of a text succeeds, the value is what
    [float] makes of a non-empty run of digits and points of the text without
    its commas: no sign, no exponent and no letter reaches [float], so that
    ["-5"], ["1e3"] or ["inf"] are never read as such. *)
Theorem X17_currency_amount_is_digits (s : string) (v : Value) :
  Main.parse_currency s = inr v ->
  exists before ds rest,
    PyStr.chars (PyStr.remove s ",") = before ++ ds ++ rest
    /\ ds <> []
    /\ forallb amount_char ds = true
    /\ PyFloat.float (VStr (PyStr.of_chars ds)) = inr v.
Proof. apply parse_currency_amount. Qed.

Lemma X17_currency_amount_is_digits_witness :
  exists before ds rest,
    PyStr.chars (PyStr.remove "USD 1,234.50" ",") = before ++ ds ++ rest
    /\ ds <> []
    /\ forallb amount_char ds = true
    /\ PyFloat.float (VStr (PyStr.of_chars ds)) = inr (VFloat (PyFloat.of_scaled 2469 (-1))).
Proof.
  refine (X17_currency_amount_is_digits "USD 1,234.50"
            (VFloat (PyFloat.of_scaled 2469 (-1))) _).
  vm_compute. reflexivity.
Defined.

Lemma amount_taken (d : ascii) (ds rest : list ascii) (m : Re.Match) :
  forallb amount_char (d :: ds) = true ->
  match rest with [] => True | c :: _ => numeric_char c = false end ->
  Re.plus (fun c => PyStr.is_digit c || PyStr.ascii_eqb c "," || PyStr.ascii_eqb c ".")
    (d :: (ds ++ rest)) m
    (fun cs' m' => Some (<[2%nat := Re.consumed (d :: (ds ++ rest)) cs']> m'))
  = Some (<[2%nat := PyStr.of_chars (d :: ds)]> m).
Proof.
  intros Hall Hrest.
  change (d :: (ds ++ rest)) with ((d :: ds) ++ rest).
  apply plus_greedy.
  - discriminate.
  - apply forallb_forall. intros c Hc. rewrite forallb_forall in Hall.
    destruct (amount_is_no_other_class c (Hall c Hc)) as (_ & _ & _ & H). exact H.
  - exact Hrest.
  - now rewrite consumed_prefix.
Qed.

(** The pattern on a text of the expected shape: the second group is the
    amount. Each optional part is present or absent, which makes sixteen
    shapes; in each the greedy choice succeeds. *)
Lemma currency_pattern_matches (s : string) (code sp1 dollar sp2 ds rest : list ascii) :
  PyStr.chars (PyStr.remove s ",") = code ++ sp1 ++ dollar ++ sp2 ++ ds ++ rest ->
  currency_code code ->
  optional_char PyStr.is_space sp1 ->
  optional_char (PyStr.ascii_eqb "$") dollar ->
  optional_char PyStr.is_space sp2 ->
  ds <> [] -> forallb amount_char ds = true -> ends_amount rest ->
  exists m, Re.match_ Main.currency_pattern (PyStr.remove s ",") = Some m
            /\ Re.group m 2 = Some (PyStr.of_chars ds).
Proof.
  intros Hs Hcode H1 Hd H2 Hne Hall Hend.
  assert (Hrest : match rest with [] => True | c :: _ => numeric_char c = false end).
  { destruct rest as [|c rest]; [exact I|]. simpl in Hend.
    assert (Hc : PyStr.ascii_eqb c "," = false).
    { apply (remove_has_no_comma s). rewrite Hs.
      repeat (apply in_or_app; right). now left. }
    unfold numeric_char, amount_char in *.
    apply orb_false_iff in Hend as [Hdg Hp]. now rewrite Hdg, Hc, Hp. }
  destruct ds as [|d ds]; [congruence|].
  assert (Hdc := Hall). simpl in Hdc. apply andb_prop in Hdc as [Hdc _].
  apply amount_is_no_other_class in Hdc as (Hd1 & Hd2 & Hd3 & _).
  assert (Hx1 : PyStr.is_alpha "$" = false) by reflexivity.
  assert (Hx2 : PyStr.is_space "$" = false) by reflexivity.
  assert (Hx3 : PyStr.ascii_eqb "$" "$" = true) by reflexivity.
  unfold Re.match_, Main.currency_pattern. rewrite Hs.
  destruct Hcode as [->|(a & b & c & -> & Ha & Hb & Hc)];
    destruct H1 as [->|(w1 & -> & Hw1)];
    destruct Hd as [->|(x & -> & Hx)];
    try (apply Ascii.eqb_eq in Hx; subst x);
    destruct H2 as [->|(w2 & -> & Hw2)];
    try (apply space_is_no_other_class in Hw1 as Hw1';
         destruct Hw1' as (Hw1a & Hw1b & Hw1c));
    try (apply space_is_no_other_class in Hw2 as Hw2';
         destruct Hw2' as (Hw2a & Hw2b & Hw2c));
    cbn [app Re.run];
    repeat (first [ rewrite Ha | rewrite Hb | rewrite Hc
                  | rewrite Hd1 | rewrite Hd2 | rewrite Hd3
                  | rewrite Hw1 | rewrite Hw1a | rewrite Hw1b
                  | rewrite Hw2 | rewrite Hw2a | rewrite Hw2b
                  | rewrite Hx1 | rewrite Hx2 | rewrite Hx3
                  | rewrite amount_taken by assumption ];
            cbn [Re.run]);
    eexists; (split; [reflexivity|apply lookup_insert_eq]).
Qed.

(** X16. The currency coercion in general: once the commas are removed, a
    text made of an optional three-letter code, an optional space, an
    optional [$], an optional space and then a run of digits and points is
    coerced to what [float] makes of that run; whatever follows the run
    (a unit, a word) is ignored. *)
Theorem X16_currency_format (s : string) (code sp1 dollar sp2 ds rest : list ascii) :
  PyStr.chars (PyStr.remove s ",") = code ++ sp1 ++ dollar ++ sp2 ++ ds ++ rest ->
  currency_code code ->
  optional_char PyStr.is_space sp1 ->
  optional_char (PyStr.ascii_eqb "$") dollar ->
  optional_char PyStr.is_space sp2 ->
  ds <> [] -> forallb amount_char ds = true -> ends_amount rest ->
  Main.parse_currency s = PyFloat.float (VStr (PyStr.of_chars ds)).
Proof.
  intros Hs Hcode H1 Hd H2 Hne Hall Hend.
  destruct (currency_pattern_matches s code sp1 dollar sp2 ds rest)
    as (m & Hm & Hg); try assumption.
  unfold Main.parse_currency. now rewrite Hm, Hg.
Qed.

Lemma X16_currency_format_witness :
  Main.parse_currency "EUR 1,234.50 net" = PyFloat.float (VStr "1234.50").
Proof.
  refine (X16_currency_format "EUR 1,234.50 net"
            ["E"; "U"; "R"]%char [" "]%char [] []
            (PyStr.chars "1234.50") (PyStr.chars " net") eq_refl _ _ _ _ _ eq_refl eq_refl).
  - right. exists "E"%char, "U"%char, "R"%char. repeat split.
  - right. exists " "%char. split; reflexivity.
  - now left.
  - now left.
  - discriminate.
Defined.

(** ** The sign of a parsed float *)

Lemma binary_round_aux_sign (mx ex : Z) (lx : location) :
  not_negative (binary_round_aux PyFloat.prec PyFloat.emax false mx ex lx).
Proof.
  unfold binary_round_aux.
  destruct (shr_fexp PyFloat.prec PyFloat.emax mx ex lx) as [mrs' e'].
  destruct (shr_fexp PyFloat.prec PyFloat.emax _ e' loc_Exact) as [mrs'' e''].
  destruct (shr_m mrs''); simpl; try reflexivity.
  destruct (Z.leb e'' _); reflexivity.
Qed.

Lemma binary_normalize_sign (m e : Z) :
  0 <= m -> not_negative (binary_normalize PyFloat.prec PyFloat.emax m e false).
Proof.
  intros Hm. destruct m as [|p|p]; simpl; [reflexivity| |lia].
  unfold binary_round.
  destruct (shl_align p e _) as [mz ez]. apply binary_round_aux_sign.
Qed.

Lemma of_decimal_sign (m e10 : Z) : 0 <= m -> not_negative (PyFloat.of_decimal false m e10).
Proof.
  intros Hm. unfold PyFloat.of_decimal.
  destruct (m =? 0); [reflexivity|].
  destruct (310 <=? _); [reflexivity|].
  destruct (_ <=? -330); [reflexivity|].
  destruct (0 <=? e10) eqn:He.
  - apply binary_normalize_sign. apply Z.mul_nonneg_nonneg; [assumption|].
    apply Z.pow_nonneg. lia.
  - apply binary_normalize_sign.
    assert (0 <= m * 2 ^ Z.max 0 (58 + Z.log2 (10 ^ (- e10)) - Z.log2 m) / 10 ^ (- e10)).
    { apply Z.div_pos.
      - apply Z.mul_nonneg_nonneg; [assumption|]. apply Z.pow_nonneg. lia.
      - apply Z.pow_pos_nonneg; lia. }
    destruct (_ =? 0); lia.
Qed.

Lemma span_forallb (p : ascii -> bool) (cs a b : list ascii) :
  PyStr.span p cs = (a, b) -> forallb p a = true.
Proof.
  revert a b. induction cs as [|c cs IH]; intros a b; simpl.
  - now intros [= <- <-].
  - destruct (p c) eqn:Hp; [|now intros [= <- <-]].
    destruct (PyStr.span p cs) as [a' b']. intros [= <- <-].
    simpl. rewrite Hp. now apply (IH a' b').
Qed.

Lemma digits_value_nonneg (ds : list ascii) :
  forallb PyStr.is_digit ds = true -> 0 <= PyFloat.digits_value ds.
Proof.
  unfold PyFloat.digits_value.
  assert (G : forall acc, 0 <= acc -> forallb PyStr.is_digit ds = true ->
              0 <= fold_left (fun acc d => 10 * acc + PyFloat.digit_value d) ds acc).
  { induction ds as [|d ds IH]; intros acc Hacc; simpl; [auto|].
    intros H. apply andb_prop in H as [Hd H]. apply IH; [|assumption].
    unfold PyStr.is_digit in Hd. apply andb_prop in Hd as [Hlo _].
    apply N.leb_le in Hlo. unfold PyFloat.digit_value. lia. }
  apply G. lia.
Qed.

Lemma parse_decimal_sign (cs : list ascii) (f : spec_float) :
  PyFloat.parse_decimal false cs = Some f -> not_negative f.
Proof.
  unfold PyFloat.parse_decimal.
  destruct (PyStr.span PyStr.is_digit cs) as [ip r1] eqn:Hip.
  destruct (match r1 with
            | "."%char :: t => PyStr.span PyStr.is_digit t
            | _ => ([], r1)
            end) as [fp r2] eqn:Hfp.
  assert (Hd : forallb PyStr.is_digit (ip ++ fp) = true).
  { rewrite forallb_app. apply span_forallb in Hip. rewrite Hip. simpl.
    destruct r1 as [|c t]; [now injection Hfp as <- _|].
    destruct (Ascii.eqb_spec c "."%char) as [->|Hne].
    - now apply span_forallb in Hfp.
    - assert (fp = []) as ->; [|reflexivity].
      destruct c as [[] [] [] [] [] [] [] []]; try congruence;
        now injection Hfp as <- _. }
  destruct (ip ++ fp) as [|d ds] eqn:Hds; [discriminate|].
  destruct (PyFloat.parse_exponent r2); [|discriminate].
  intros [= <-]. apply of_decimal_sign. now apply digits_value_nonneg.
Qed.

Lemma parse_special_sign (cs : list ascii) (f : spec_float) :
  PyFloat.parse_special false cs = Some f -> not_negative f.
Proof.
  unfold PyFloat.parse_special.
  destruct (_ || _); [now intros [= <-]|].
  destruct (String.eqb _ "nan"); [now intros [= <-]|discriminate].
Qed.

Lemma lstrip_chars_incl (p : ascii -> bool) (cs : list ascii) (c : ascii) :
  In c (PyStr.lstrip_chars p cs) -> In c cs.
Proof.
  induction cs as [|d cs IH]; simpl; [tauto|].
  destruct (p d); [intros H; right; now apply IH|tauto].
Qed.

Lemma strip_whitespace_incl (cs : list ascii) (c : ascii) :
  In c (PyFloat.strip_whitespace cs) -> In c cs.
Proof.
  unfold PyFloat.strip_whitespace, PyStr.rstrip_chars. rewrite <- in_rev.
  intros H. apply lstrip_chars_incl in H. rewrite <- in_rev in H.
  now apply lstrip_chars_incl in H.
Qed.

(** [float] drops the blanks around a number, also a no-break space, and
    keeps a separator such as U+001C, with which the text is no number. *)
Example float_whitespace :
  PyFloat.of_string (String " " (String "5" (String "010" EmptyString)))
    = Some (PyFloat.of_Z 5)
  /\ PyFloat.of_string (String "160" "5") = Some (PyFloat.of_Z 5)
  /\ PyFloat.of_string (String "028" "5") = None
  /\ PyFloat.float (VStr (String "028" "5"))
       = inl (ValueError (could_not_convert_string_to_float (String "028" "5"))).
Proof. repeat split; vm_compute; reflexivity. Qed.

Lemma ungroup_incl (cs : list ascii) :
  forall (prev : ascii) (r : list ascii) (c : ascii),
    PyFloat.ungroup prev cs = Some r -> In c r -> In c cs.
Proof.
  induction cs as [|d cs IH]; intros prev r c; simpl.
  - destruct (PyStr.ascii_eqb prev "_"); [discriminate|]. now intros [= <-].
  - destruct (PyStr.ascii_eqb d "_").
    + destruct (PyStr.is_digit prev); [|discriminate].
      intros H Hin. right. now apply (IH d r c).
    + destruct (_ && _); [discriminate|].
      destruct (PyFloat.ungroup d cs) as [r'|] eqn:Hr; [|discriminate].
      intros [= <-] [->|Hin]; [now left|right]. now apply (IH d r' c).
Qed.

(** A text without a minus sign is not parsed to a negative float. *)
Lemma of_string_sign (s : string) (f : spec_float) :
  ~ In "-"%char (PyStr.chars s) ->
  PyFloat.of_string s = Some f -> not_negative f.
Proof.
  intros Hminus. unfold PyFloat.of_string.
  destruct (PyFloat.ungroup zero (PyFloat.strip_whitespace (PyStr.chars s))) as [body|] eqn:Hb;
    [|discriminate].
  assert (Hbody : ~ In "-"%char body).
  { intros Hin. apply Hminus. apply strip_whitespace_incl.
    now apply (ungroup_incl _ zero body). }
  assert (Hsign : exists t, PyFloat.take_sign body = (false, t)).
  { destruct body as [|c t]; [now exists []|].
    destruct (Ascii.eqb_spec c "-"%char) as [->|Hne].
    - exfalso. apply Hbody. now left.
    - destruct c as [[] [] [] [] [] [] [] []]; try congruence; simpl; eauto. }
  destruct Hsign as [t ->].
  destruct (PyFloat.parse_special false t) as [g|] eqn:Hs.
  - intros [= <-]. now apply parse_special_sign in Hs.
  - apply parse_decimal_sign.
Qed.

(** X18. The currency coercion of a text never yields a negative number: the
    pattern has no place for a sign, so that ["-5"] and ["USD -5"] are
    rejected and a minus after the amount is ignored. *)
Theorem X18_currency_text_is_never_negative (s : string) (v : Value) :
  Main.parse_currency s = inr v ->
  exists f, v = VFloat f /\ not_negative f.
Proof.
  intros H. apply parse_currency_amount in H
    as (before & ds & rest & _ & _ & Hall & Hv).
  simpl in Hv. destruct (PyFloat.of_string (PyStr.of_chars ds)) as [f|] eqn:Hf;
    [|discriminate].
  injection Hv as <-. exists f. split; [reflexivity|].
  apply (of_string_sign (PyStr.of_chars ds)); [|assumption].
  rewrite chars_of_chars. intros Hin.
  rewrite forallb_forall in Hall. now specialize (Hall _ Hin).
Qed.

Lemma X18_currency_text_is_never_negative_witness :
  exists f, VFloat (PyFloat.of_scaled 25 (-1)) = VFloat f /\ not_negative f.
Proof.
  refine (X18_currency_text_is_never_negative "$12.5-"
            (VFloat (PyFloat.of_scaled 25 (-1))) _).
  vm_compute. reflexivity.
Defined.

(** ** More on the coercion *)

(** X19. Away from text the three numeric tags are one and the same
    coercion: a value that is no text is coerced under [percentage] and under
    [currency] exactly as under [number], failures included; and so is, under
    [percentage], a text that does not end in [%]. *)
Theorem X19_numeric_tags_agree_off_text
    (parse_date : string -> Main.ParseFailure + DateTime) (value : Value) :
  (forall s, value = VStr s -> PyStr.endswith s "%" = false) ->
  Main.convert_variable parse_date value "percentage"
    = Main.convert_variable parse_date value "number"
  /\ ((forall s, value <> VStr s) ->
      Main.convert_variable parse_date value "currency"
        = Main.convert_variable parse_date value "number").
Proof.
  intros H. split.
  - now rewrite convert_percentage_plain, convert_number.
  - intros Hn. now rewrite convert_currency_other, convert_number.
Qed.

Lemma X19_numeric_tags_agree_off_text_witness :
  Main.convert_variable IsoDate.parse (VBool true) "percentage"
    = Main.convert_variable IsoDate.parse (VBool true) "number"
  /\ ((forall s, VBool true <> VStr s) ->
      Main.convert_variable IsoDate.parse (VBool true) "currency"
        = Main.convert_variable IsoDate.parse (VBool true) "number").
Proof.
  refine (X19_numeric_tags_agree_off_text IsoDate.parse (VBool true) _).
  intros s H. discriminate H.
Defined.

(** X20. Under the tag [datetime] only a text is parsed: any other value (a
    number, a boolean, [None], a list) is returned as it is, without a check
    that it is a timestamp, and a failure is always the failure of the date
    parser on a text. *)
Theorem X20_datetime_parses_text_only
    (parse_date : string -> Main.ParseFailure + DateTime) (value : Value) :
  ((forall s, value <> VStr s) ->
   Main.convert_variable parse_date value "datetime" = inr value)
  /\ (forall e,
        Main.convert_variable parse_date value "datetime" = inl e ->
        exists s text,
          value = VStr s
          /\ ((parse_date s = inl (Main.ParserError text)
               /\ e = ValueError (parser_error text))
              \/ (parse_date s = inl (Main.DateOverflow text)
                  /\ e = OverflowError text)))
  /\ (forall s d,
        value = VStr s -> parse_date s = inr d ->
        Main.convert_variable parse_date value "datetime" = inr (VDateTime d)).
Proof.
  split; [apply convert_datetime_other|]. split.
  - intros e. destruct value; try discriminate.
    rewrite convert_datetime_text. unfold Main.parse_date_value.
    destruct (parse_date s) as [[text|text]|d] eqn:Hp; try discriminate;
      intros [= <-]; exists s, text; split; auto.
  - intros s d -> Hp. rewrite convert_datetime_text.
    unfold Main.parse_date_value. now rewrite Hp.
Qed.

Lemma X20_datetime_parses_text_only_witness :
  Main.convert_variable IsoDate.parse (VInt 5) "datetime" = inr (VInt 5)
  /\ Main.convert_variable IsoDate.parse (VStr "2024-02-29") "datetime"
       = inr (VDateTime (mkDateTime 2024 2 29 0 0 0)).
Proof.
  split.
  - refine (proj1 (X20_datetime_parses_text_only IsoDate.parse (VInt 5)) _).
    intros s H. discriminate H.
  - refine (proj2 (proj2 (X20_datetime_parses_text_only IsoDate.parse
                            (VStr "2024-02-29")))
              "2024-02-29" (mkDateTime 2024 2 29 0 0 0) eq_refl _).
    vm_compute. reflexivity.
Defined.

(** ** What the evaluator is given *)

Section Variables.
Import Schemas.
Variable parse_date : string -> Main.ParseFailure + DateTime.

Lemma prepare_variables_content (item local_item : gmap string Value)
    (ins : list InputVar) :
  forall variables0 variables : gmap string Value,
    Main.prepare_variables parse_date item local_item ins variables0 = inr variables ->
    dom variables = dom variables0 ∪ list_to_set (map varName ins)
    /\ (forall x c, variables !! x = Some c ->
          variables0 !! x = Some c
          \/ exists input_var v,
               In input_var ins /\ varName input_var = x
               /\ local_item !! x = Some v
               /\ Main.convert_variable parse_date v (varType input_var) = inr c).
Proof.
  induction ins as [|i ins IH]; intros vars0 vars.
  - intros [= <-]. split; [simpl; now rewrite union_empty_r_L|auto].
  - cbn [Main.prepare_variables].
    destruct (local_item !! varName i) as [v|] eqn:Hl; [|discriminate].
    destruct (Main.convert_variable parse_date v (varType i)) as [|c] eqn:Hc;
      [discriminate|].
    cbn [try_except bind]. intros H. apply IH in H as [Hd Hv]. split.
    + rewrite Hd, dom_insert_L. simpl. apply set_eq. intros x.
      rewrite !elem_of_union. tauto.
    + intros x c' Hx. destruct (Hv x c' Hx) as [H0|(iv & w & Hin & Hn & Hw & Hcv)].
      * destruct (decide (varName i = x)) as [<-|Hne].
        -- rewrite lookup_insert_eq in H0. injection H0 as <-.
           right. exists i, v. simpl. auto.
        -- rewrite lookup_insert_ne in H0 by assumption. now left.
      * right. exists iv, w. simpl. auto.
Qed.

End Variables.

(** X21. At execution the evaluator is given the declared inputs of the
    formula and nothing else: the names it can read are exactly the input
    names, and each is bound to the value found in the record's scope,
    converted under a type tag declared for that name. *)
Theorem X21_evaluator_sees_declared_inputs
    (parse_date : string -> Main.ParseFailure + DateTime) (E : NumExpr.Engine)
    (item local_item : gmap string Value) (results : gmap string (list Value))
    (formula : Schemas.Formula)
    (st : gmap string Value * gmap string (list Value)) :
  Main.run_formula parse_date E item (local_item, results) formula = inr st ->
  exists variables result,
    NumExpr.evaluate E (Schemas.expression formula) variables Main.module_globals
      = inr result
    /\ dom variables = list_to_set (map Schemas.varName (Schemas.inputs formula))
    /\ (forall x c, variables !! x = Some c ->
          exists input_var v,
            In input_var (Schemas.inputs formula) /\ Schemas.varName input_var = x
            /\ local_item !! x = Some v
            /\ Main.convert_variable parse_date v (Schemas.varType input_var) = inr c).
Proof.
  destruct st as [li' r']. intros H.
  apply run_formula_success in H as (vars & result & v & s & Hp & He & _).
  apply prepare_variables_content in Hp as [Hd Hv].
  exists vars, result. split; [exact He|]. split.
  - rewrite Hd, dom_empty_L. now rewrite union_empty_l_L.
  - intros x c Hx. destruct (Hv x c Hx) as [H0|H0]; [|exact H0].
    now rewrite lookup_empty in H0.
Qed.

Lemma X21_evaluator_sees_declared_inputs_witness :
  exists variables result,
    NumExpr.evaluate Arith.engine (Schemas.expression Sample.result_formula)
      variables Main.module_globals = inr result
    /\ dom variables
       = list_to_set (map Schemas.varName (Schemas.inputs Sample.result_formula))
    /\ (forall x c, variables !! x = Some c ->
          exists input_var v,
            In input_var (Schemas.inputs Sample.result_formula)
            /\ Schemas.varName input_var = x
            /\ Sample.first_record !! x = Some v
            /\ Main.convert_variable IsoDate.parse v (Schemas.varType input_var) = inr c).
Proof.
  refine (X21_evaluator_sees_declared_inputs IsoDate.parse Arith.engine
            Sample.first_record Sample.first_record
            (Main.empty_results [Sample.result_formula]) Sample.result_formula
            (<["result" := VFloat (PyFloat.of_Z 20)]> Sample.first_record,
             {[ "result" := [VFloat (PyFloat.of_Z 20)] ]}) _).
  vm_compute. reflexivity.
Defined.

(** Two texts with a minus sign, which the pattern rejects. *)
Example currency_minus_rejected :
  Main.parse_currency "-5" = inl (ValueError (Invalid_currency_format "-5"))
  /\ Main.parse_currency "USD -5" = inl (ValueError (Invalid_currency_format "USD -5")).
Proof. split; vm_compute; reflexivity. Qed.
